(** * Encoders of disvae/models/encoders.py

    A shallow embedding of the three encoder modules ([EncoderBurgess],
    [ConvEncoder], [DomainEncoder]) and of the factory [get_encoder].

    The encoders are written against torch layer primitives.  The embedding
    models a tensor as a shape, the strides of its memory layout and its
    elements in logical (row-major) order; the primitives by the formulas of
    the torch documentation, shape rules and raised exceptions included; and
    a module's parameters as index functions read from a state dictionary.
    The layout decides what [view] accepts (the size and stride check of
    torch) and in which memory format a convolution, a pooling or a batch
    normalisation allocates its result: channels-last for an input whose
    strides are those of a channels-last batch, row-major otherwise.  A
    convolution takes a batched (N, C, H, W) or an unbatched (C, H, W)
    input; pooling is modelled on 4-D inputs, the only ones it is given
    (ConvEncoder asserts the rank).

    Scalars are abstract (class [Scalar]): what is proved holds for any
    arithmetic; binary64 floats are the instance the examples evaluate with.
    Sums are accumulated in index order whatever the sizes, where torch
    chooses a kernel by the sizes of its operands (the last bits of a row may
    differ between batches of different sizes): equality of the numbers
    computed for two batches is stated for batches of the same size only. *)

From Stdlib Require Import String Ascii.
From Stdlib Require Import List ZArith Lia ZifyNat Bool Arith PeanoNat.
From Stdlib Require Import Floats Uint63.
Import ListNotations.

Set Implicit Arguments.

(** ** Scalars *)

Class Scalar (R : Type) := {
  rzero : R;
  rneginf : R;
  rofZ : Z -> R;
  radd : R -> R -> R;
  rsub : R -> R -> R;
  rmul : R -> R -> R;
  rdiv : R -> R -> R;
  rsqrt : R -> R;
  rltb : R -> R -> bool;
  reqb : R -> R -> bool
}.

#[global] Instance float_scalar : Scalar float := {|
  rzero := PrimFloat.zero;
  rneginf := PrimFloat.neg_infinity;
  rofZ := fun z => PrimFloat.of_uint63 (Uint63.of_Z z);
  radd := PrimFloat.add;
  rsub := PrimFloat.sub;
  rmul := PrimFloat.mul;
  rdiv := PrimFloat.div;
  rsqrt := PrimFloat.sqrt;
  rltb := PrimFloat.ltb;
  reqb := PrimFloat.eqb
|}.

(** ** Exceptions and results *)

Inductive Exn :=
| AssertionError | RuntimeError | ValueError | IndexError | NameError
| AttributeError.

(** A computation returns a value or raises an exception; [site] names the
    primitive, or, once relabelled by [within], the attribute of the module
    whose call raised. *)
Inductive result (A : Type) :=
| Ok (a : A)
| Raise (e : Exn) (site : string).
Arguments Raise {A} e site.

Definition bind {A B} (r : result A) (k : A -> result B) : result B :=
  match r with
  | Ok a => k a
  | Raise e s => Raise e s
  end.

Definition within {A} (site : string) (r : result A) : result A :=
  match r with
  | Ok a => Ok a
  | Raise e _ => Raise e site
  end.

Declare Scope py_scope.
Delimit Scope py_scope with py.
Notation "x <- e ;; k" := (bind e (fun x => k))
  (at level 61, e at next level, right associativity) : py_scope.
Notation "' p <- e ;; k" := (bind e (fun p => k))
  (at level 61, p pattern, e at next level, right associativity) : py_scope.
Open Scope py_scope.

(** Stateful calls: the module is threaded through and survives an exception
    (Python does not roll back attribute updates when a call raises). *)
Definition M (S A : Type) : Type := S -> result A * S.

Definition ret {S A} (a : A) : M S A := fun s => (Ok a, s).

Definition lift {S A} (r : result A) : M S A := fun s => (r, s).

Definition bindM {S A B} (m : M S A) (k : A -> M S B) : M S B :=
  fun s =>
    match m s with
    | (Ok a, s') => k a s'
    | (Raise e site, s') => (Raise e site, s')
    end.

Notation "x <~ e ;; k" := (bindM e (fun x => k))
  (at level 61, e at next level, right associativity) : py_scope.

(** ** Tensors *)

Section Torch.
Context {R : Type} `{Scalar R}.

(** A tensor is its shape, its strides (in elements) and its elements in
    logical (row-major) order.  The layers read the elements through [data];
    the strides say how torch has laid them out in memory, which decides
    whether [view] can reshape without a copy and which memory format a
    convolution picks for its result. *)
Record Tensor := mkStrided { shape : list nat; strides : list nat; data : list R }.

Definition numel (s : list nat) : nat := fold_right Nat.mul 1 s.

(** The strides of a row-major (contiguous) tensor:
    [stride[i] = stride[i+1] * max(size[i+1], 1)], the last one 1. *)
Fixpoint contiguous_strides (s : list nat) : list nat :=
  match s with
  | [] => []
  | _ :: rest =>
      fold_right (fun d acc => Nat.max d 1 * acc) 1 rest :: contiguous_strides rest
  end.

(** The strides of a 4-D tensor in torch.channels_last (NHWC) layout. *)
Definition channels_last_strides (s : list nat) : list nat :=
  match s with
  | [_; c; h; w] => [c * w * h; 1; c * w; c]
  | _ => contiguous_strides s
  end.

(** A freshly allocated tensor: row-major. *)
Abbreviation mkTensor s d := (mkStrided s (contiguous_strides s) d).

Definition row_major (t : Tensor) : Prop := strides t = contiguous_strides (shape t).

(** Tensor.contiguous(): the same elements laid out row-major.  (torch hands
    back the tensor itself when it already is contiguous; the two differ at
    most in the strides of dimensions of size one.) *)
Definition contiguous (t : Tensor) : Tensor := mkTensor (shape t) (data t).

Inductive memory_format := Contiguous | ChannelsLast.

Definition format_strides (f : memory_format) (s : list nat) : list nat :=
  match f with
  | Contiguous => contiguous_strides s
  | ChannelsLast => channels_last_strides s
  end.

(** c10::is_channels_last_strides_2d: the dimensions are visited in the
    order C, W, H, N with growing strides. *)
Definition channels_last_step (sizes strides : list nat) (acc : option nat) (d : nat)
  : option nat :=
  match acc with
  | None => None
  | Some min =>
      let size := nth d sizes 0 in
      let stride := nth d strides 0 in
      if size =? 0 then None
      else if stride <? min then None
      else if (d =? 0) && (min =? nth 1 strides 0) then None
      else Some (if 1 <? size then stride * size else stride)
  end.

Definition is_channels_last_strides_2d (sizes strides : list nat) : bool :=
  if nth 1 strides 0 =? 0 then false
  else
    match fold_left (channels_last_step sizes strides) [1; 3; 2; 0] (Some 0) with
    | Some _ => true
    | None => false
    end.

(** Tensor.suggest_memory_format(): channels-last for a 4-D tensor whose
    strides look like it, contiguous otherwise. *)
Definition suggest_memory_format (t : Tensor) : memory_format :=
  if (length (shape t) =? 4) && is_channels_last_strides_2d (shape t) (strides t)
  then ChannelsLast else Contiguous.

(** The result [t] of a layer, allocated in memory format [f]. *)
Definition in_format (f : memory_format) (t : Tensor) : Tensor :=
  mkStrided (shape t) (format_strides f (shape t)) (data t).

(** Every tensor torch builds stores exactly [numel shape] elements. *)
Definition wf (t : Tensor) : Prop := length (data t) = numel (shape t).

Definition rofnat (n : nat) : R := rofZ (Z.of_nat n).

Definition tabulate (n : nat) (f : nat -> R) : list R := map f (seq 0 n).

Definition at_ (d : list R) (q : nat) : R := nth q d rzero.

Fixpoint sum_upto (n : nat) (f : nat -> R) : R :=
  match n with
  | 0 => rzero
  | S k => radd (sum_upto k f) (f k)
  end.

(** An elementwise operation keeps the layout of its (dense) input. *)
Definition map_tensor (f : R -> R) (t : Tensor) : Tensor :=
  mkStrided (shape t) (strides t) (map f (data t)).

(** torch.relu: a negative element becomes 0, every other one stays (a NaN
    stays a NaN, and -0.0 stays -0.0). *)
Definition relu_s (x : R) : R := if rltb x rzero then rzero else x.
Definition relu : Tensor -> Tensor := map_tensor relu_s.

(** nn.LeakyReLU(): [x if x > 0 else x * negative_slope], slope 0.01. *)
Definition negative_slope : R := rdiv (rofZ 1) (rofZ 100).
Definition leaky_relu_s (x : R) : R := if rltb rzero x then x else rmul x negative_slope.
Definition leaky_relu : Tensor -> Tensor := map_tensor leaky_relu_s.

(** *** view and unbind *)

(** at::infer_size: at most one requested dimension is -1; the others must
    multiply to the number of elements, or divide it when one is inferred; an
    inferred dimension next to a zero one is ambiguous and refused. *)
Definition infer_size (req : list Z) (n : nat) : result (list nat) :=
  if existsb (fun d => d <? -1)%Z req then Raise RuntimeError "view"
  else if 1 <? count_occ Z.eq_dec req (-1)%Z then Raise RuntimeError "view"
  else
    let newsize :=
      fold_right (fun d acc => if (d =? -1)%Z then acc else Z.to_nat d * acc) 1 req in
    let infer := existsb (Z.eqb (-1)) req in
    if (n =? newsize) || (infer && (0 <? newsize) && (n mod newsize =? 0))
    then
      if infer
      then
        if newsize =? 0 then Raise RuntimeError "view"
        else Ok (map (fun d => if (d =? -1)%Z then n / newsize else Z.to_nat d) req)
      else Ok (map Z.to_nat req)
    else Raise RuntimeError "view".

(** The inner loop of at::detail::computeStride: the view dimensions
    (innermost first) that fall into the current chunk of [tensor_numel]
    elements get their strides; returned are these strides, the number of
    elements they span and the view dimensions left over. *)
Fixpoint take_view (base tensor_numel view_numel : nat) (new : list nat)
  : list nat * nat * list nat :=
  match new with
  | [] => ([], view_numel, [])
  | size :: new' =>
      if (view_numel <? tensor_numel) || (size =? 1) then
        let '(st, vn, rest) := take_view base tensor_numel (view_numel * size) new' in
        (view_numel * base :: st, vn, rest)
      else ([], view_numel, new)
  end.

(** The outer loop: [old] are the (size, stride) pairs of the tensor,
    innermost first.  A chunk of dimensions that are contiguous among
    themselves ends at the outermost dimension or where the next stride does
    not continue it; the view dimensions must split at the same place. *)
Fixpoint view_chunks (old : list (nat * nat)) (base tensor_numel : nat) (new : list nat)
  : option (list nat) :=
  match old with
  | [] => match new with [] => Some [] | _ :: _ => None end
  | (size, _) :: old' =>
      let tensor_numel := tensor_numel * size in
      let chunk_ends :=
        match old' with
        | [] => true
        | (size', stride') :: _ =>
            negb (size' =? 1) && negb (stride' =? tensor_numel * base)
        end in
      if chunk_ends then
        let '(st, view_numel, rest) := take_view base tensor_numel 1 new in
        if view_numel =? tensor_numel then
          let base' := match old' with [] => base | (_, stride') :: _ => stride' end in
          option_map (app st) (view_chunks old' base' 1 rest)
        else None
      else view_chunks old' base tensor_numel new
  end.

(** at::detail::computeStride: the strides under which a tensor of shape
    [oldshape] and strides [oldstride] is seen with shape [newshape] (of as
    many elements) without a copy, if there are any. *)
Definition compute_stride (oldshape oldstride newshape : list nat) : option (list nat) :=
  match oldshape with
  | [] => Some (map (fun _ => 1) newshape)
  | _ :: _ =>
      if numel oldshape =? 0 then
        if list_eq_dec Nat.eq_dec oldshape newshape then Some oldstride
        else Some (contiguous_strides newshape)
      else
        option_map (@rev nat)
          (view_chunks (rev (combine oldshape oldstride)) (last oldstride 0) 1
             (rev newshape))
  end.

(** Tensor.view: the elements stay in their logical order and the shape
    changes, when the strides allow it. *)
Definition view (t : Tensor) (req : list Z) : result Tensor :=
  s <- infer_size req (numel (shape t)) ;;
  match compute_stride (shape t) (strides t) s with
  | Some st => Ok (mkStrided s st (data t))
  | None => Raise RuntimeError "view"
  end.

(** Component [j] of the last dimension (of size [k]) of elements [d]; [st]
    are the strides of the other dimensions. *)
Definition select_last (pre st : list nat) (k j : nat) (d : list R) : Tensor :=
  mkStrided pre st (tabulate (numel pre) (fun q => at_ d (q * k + j))).

(** Tensor.unbind(-1): one tensor per index of the last dimension. *)
Definition unbind_last (t : Tensor) : result (list Tensor) :=
  match rev (shape t) with
  | [] => Raise IndexError "unbind"
  | k :: rpre =>
      Ok (map (fun j => select_last (rev rpre) (removelast (strides t)) k j (data t))
            (seq 0 k))
  end.

(** Python's [a, b = t]. *)
Definition unpack2 {A} (l : list A) : result (A * A) :=
  match l with
  | [a; b] => Ok (a, b)
  | _ => Raise ValueError "unpack"
  end.

(** *** Parameters *)

(** A parameter tensor is read through its index function; a state dictionary
    maps the dotted name of a parameter or buffer to it. *)
Definition Param : Type := list nat -> R.

Record StateDict := mkStateDict {
  sd_tensor : string -> Param;
  sd_count : string -> nat
}.

(** *** nn.Linear *)

Record Linear := mkLinear {
  in_features : nat;
  out_features : nat;
  lin_weight : Param;
  lin_bias : Param
}.

(** The result of a linear layer on an input of shape [pre ++ [f]]. *)
Definition linear_out (l : Linear) (pre : list nat) (f : nat) (d : list R) : Tensor :=
  let o := out_features l in
  mkTensor (pre ++ [o])
    (tabulate (numel pre * o) (fun q =>
       radd (sum_upto f (fun k =>
               rmul (at_ d (q / o * f + k)) (lin_weight l [q mod o; k])))
            (lin_bias l [q mod o]))).

(** F.linear: [y = x A^T + b] over the last dimension. *)
Definition linear (l : Linear) (x : Tensor) : result Tensor :=
  match rev (shape x) with
  | [] => Raise RuntimeError "linear"
  | f :: rpre =>
      if f =? in_features l then Ok (linear_out l (rev rpre) f (data x))
      else Raise RuntimeError "linear"
  end.

(** *** nn.Conv2d *)

Record Conv2d := mkConv2d {
  in_channels : nat;
  out_channels : nat;
  kernel_size : nat;
  stride : nat;
  padding : nat;
  conv_weight : Param;
  conv_bias : Param
}.

Definition get4 (C Hh W : nat) (d : list R) (n c i j : nat) : R :=
  at_ d (((n * C + c) * Hh + i) * W + j).

(** Reading the zero-padded input at padded coordinates [(y, x)]. *)
Definition padded4 (p C Hh W : nat) (d : list R) (n c y x : nat) : R :=
  if (p <=? y) && (y <? Hh + p) && (p <=? x) && (x <? W + p)
  then get4 C Hh W d n c (y - p) (x - p)
  else rzero.

Definition out_size (i k s p : nat) : nat := (i + 2 * p - k) / s + 1.

Definition conv2d_at (l : Conv2d) (C Hh W : nat) (d : list R) (n co i j : nat) : R :=
  radd
    (sum_upto C (fun ci =>
       sum_upto (kernel_size l) (fun ki =>
         sum_upto (kernel_size l) (fun kj =>
           rmul (padded4 (padding l) C Hh W d n ci (i * stride l + ki) (j * stride l + kj))
                (conv_weight l [co; ci; ki; kj])))))
    (conv_bias l [co]).

(** The result of a convolution on an (n, c, h, w) input with storage [d]. *)
Definition conv2d_out (l : Conv2d) (n c h w : nat) (d : list R) : Tensor :=
  let ho := out_size h (kernel_size l) (stride l) (padding l) in
  let wo := out_size w (kernel_size l) (stride l) (padding l) in
  let co := out_channels l in
  mkTensor [n; co; ho; wo]
    (tabulate (n * (co * (ho * wo))) (fun q =>
       conv2d_at l c h w d
         (q / (co * (ho * wo))) (q / (ho * wo) mod co) (q / wo mod ho) (q mod wo))).

(** The convolution of a batched (N, C, H, W) input (cross-correlation with
    zero padding); the channel count must be [in_channels] and the padded
    input at least as large as the kernel.  The result is allocated in the
    memory format the input suggests (the weight of an nn.Conv2d is
    row-major). *)
Definition conv2d_batched (l : Conv2d) (x : Tensor) : result Tensor :=
  match shape x with
  | [n; c; h; w] =>
      if negb (c =? in_channels l) then Raise RuntimeError "conv2d"
      else if stride l =? 0 then Raise RuntimeError "conv2d"
      else if (h + 2 * padding l <? kernel_size l) || (w + 2 * padding l <? kernel_size l)
      then Raise RuntimeError "conv2d"
      else Ok (in_format (suggest_memory_format x) (conv2d_out l n c h w (data x)))
  | _ => Raise RuntimeError "conv2d"
  end.

(** Tensor.unsqueeze(0) and Tensor.squeeze(0) on a leading dimension of
    size one. *)
Definition unsqueeze0 (x : Tensor) : Tensor :=
  mkStrided (1 :: shape x) (hd 1 (shape x) * hd 1 (strides x) :: strides x) (data x).

Definition squeeze0 (x : Tensor) : Tensor :=
  mkStrided (tl (shape x)) (tl (strides x)) (data x).

(** Conv2d.forward: a 4-D input is a batch; a 3-D input (C, H, W) is one
    unbatched image, convolved as a batch of one and returned without the
    batch dimension; any other rank is refused. *)
Definition conv2d (l : Conv2d) (x : Tensor) : result Tensor :=
  if length (shape x) =? 3 then
    y <- conv2d_batched l (unsqueeze0 x) ;;
    Ok (squeeze0 y)
  else conv2d_batched l x.

(** *** F.max_pool2d *)

Definition isnan (v : R) : bool := negb (reqb v v).

Definition max_step (m v : R) : R := if rltb m v || isnan v then v else m.

Definition max_pool2d_at (k s p C Hh W : nat) (d : list R) (n c i j : nat) : R :=
  fold_left (fun m ki =>
    fold_left (fun m kj =>
      let y := i * s + ki in
      let x := j * s + kj in
      if (p <=? y) && (y <? Hh + p) && (p <=? x) && (x <? W + p)
      then max_step m (get4 C Hh W d n c (y - p) (x - p))
      else m) (seq 0 k) m) (seq 0 k) rneginf.

Definition max_pool2d_out (k s p n c h w : nat) (d : list R) : Tensor :=
  let ho := out_size h k s p in
  let wo := out_size w k s p in
  mkTensor [n; c; ho; wo]
    (tabulate (n * (c * (ho * wo))) (fun q =>
       max_pool2d_at k s p c h w d
         (q / (c * (ho * wo))) (q / (ho * wo) mod c) (q / wo mod ho) (q mod wo))).

(** max_pool2d on a batched (N, C, H, W) input, implicit padding of minus
    infinity, floor output size; the result is in the memory format the input
    suggests.  (ConvEncoder pools the results of a BatchNorm2d, which are
    4-D; the unbatched form is not modelled.) *)
Definition max_pool2d (k s p : nat) (x : Tensor) : result Tensor :=
  match shape x with
  | [n; c; h; w] =>
      if s =? 0 then Raise RuntimeError "max_pool2d"
      else if k / 2 <? p then Raise RuntimeError "max_pool2d"
      else if (h + 2 * p <? k) || (w + 2 * p <? k) then Raise RuntimeError "max_pool2d"
      else Ok (in_format (suggest_memory_format x) (max_pool2d_out k s p n c h w (data x)))
  | _ => Raise RuntimeError "max_pool2d"
  end.

(** *** nn.BatchNorm1d / nn.BatchNorm2d *)

Inductive BNKind := BN1d | BN2d.

Record BatchNorm := mkBatchNorm {
  bn_kind : BNKind;
  num_features : nat;
  bn_eps : R;
  bn_momentum : R;
  bn_training : bool;
  bn_weight : Param;
  bn_bias : Param;
  running_mean : Param;
  running_var : Param;
  num_batches_tracked : nat
}.

(** _check_input_dim: 2-D or 3-D input for BatchNorm1d, 4-D for BatchNorm2d. *)
Definition check_input_dim (k : BNKind) (rank : nat) : bool :=
  match k with
  | BN1d => (rank =? 2) || (rank =? 3)
  | BN2d => rank =? 4
  end.

(** Sum of [g] over the elements of channel [c] of an (N, C, S) layout. *)
Definition chan_sum (C S n : nat) (g : R -> R) (d : list R) (c : nat) : R :=
  sum_upto n (fun b => sum_upto S (fun s => g (at_ d ((b * C + c) * S + s)))).

Definition batch_mean (C S n : nat) (d : list R) (c : nat) : R :=
  rdiv (chan_sum C S n (fun v => v) d c) (rofnat (n * S)).

(** The biased variance, the one the output is normalised with. *)
Definition batch_var (C S n : nat) (d : list R) (c : nat) : R :=
  let m := batch_mean C S n d c in
  rdiv (chan_sum C S n (fun v => rmul (rsub v m) (rsub v m)) d c) (rofnat (n * S)).

Definition normalize (eps mean var w b v : R) : R :=
  radd (rmul (rdiv (rsub v mean) (rsqrt (radd var eps))) w) b.

Definition bn_output (bn : BatchNorm) (C S : nat) (mean var : nat -> R) (x : Tensor) : Tensor :=
  mkStrided (shape x) (format_strides (suggest_memory_format x) (shape x))
    (tabulate (numel (shape x)) (fun q =>
       let c := q / S mod C in
       normalize (bn_eps bn) (mean c) (var c) (bn_weight bn [c]) (bn_bias bn [c])
                 (at_ (data x) q))).

(** The exponential moving average of a running statistic. *)
Definition ema (m : R) (old : Param) (new : nat -> R) : Param :=
  fun idx => radd (rmul (rsub (rofnat 1) m) (old idx)) (rmul m (new (hd 0 idx))).

Definition set_stats (bn : BatchNorm) (rm rv : Param) (nbt : nat) : BatchNorm :=
  mkBatchNorm (bn_kind bn) (num_features bn) (bn_eps bn) (bn_momentum bn) (bn_training bn)
    (bn_weight bn) (bn_bias bn) rm rv nbt.

Definition set_training (mode : bool) (bn : BatchNorm) : BatchNorm :=
  mkBatchNorm (bn_kind bn) (num_features bn) (bn_eps bn) (bn_momentum bn) mode
    (bn_weight bn) (bn_bias bn) (running_mean bn) (running_var bn) (num_batches_tracked bn).

(** The part of a batch normalisation that a forward call cannot change:
    in training mode everything but the running statistics and the batch
    counter, in evaluation mode everything. *)
Definition forget_tr (bn : BatchNorm) : BatchNorm :=
  if bn_training bn then set_stats bn (fun _ => rzero) (fun _ => rzero) 0 else bn.

(** _BatchNorm.forward.  In training mode the call counts the batch, refuses
    a single value per channel, normalises with the statistics of the batch
    and moves the running statistics towards them (the variance unbiased); an
    empty batch leaves them alone.  In evaluation mode it normalises with the
    running statistics and changes nothing. *)
Definition batch_norm (bn : BatchNorm) (x : Tensor) : result Tensor * BatchNorm :=
  if negb (check_input_dim (bn_kind bn) (length (shape x)))
  then (Raise ValueError "batch_norm", bn)
  else
    match shape x with
    | n :: c :: spatial =>
        let S := numel spatial in
        if bn_training bn then
          let bn1 := set_stats bn (running_mean bn) (running_var bn)
                       (num_batches_tracked bn + 1) in
          if n * S =? 1 then (Raise ValueError "batch_norm", bn1)
          else if negb (c =? num_features bn) then (Raise RuntimeError "batch_norm", bn1)
          else
            let mean := batch_mean c S n (data x) in
            let var := batch_var c S n (data x) in
            let unbiased := fun k =>
              rdiv (rmul (var k) (rofnat (n * S))) (rofnat (n * S - 1)) in
            (Ok (bn_output bn c S mean var x),
             if numel (shape x) =? 0 then bn1
             else set_stats bn
                    (ema (bn_momentum bn) (running_mean bn) mean)
                    (ema (bn_momentum bn) (running_var bn) unbiased)
                    (num_batches_tracked bn + 1))
        else if negb (c =? num_features bn) then (Raise RuntimeError "batch_norm", bn)
        else
          (Ok (bn_output bn c S (fun k => running_mean bn [k]) (fun k => running_var bn [k]) x),
           bn)
    | _ => (Raise ValueError "batch_norm", bn)
    end.

(** *** nn.Embedding *)

Record Embedding := mkEmbedding {
  num_embeddings : nat;
  embedding_dim : nat;
  emb_weight : Param
}.

Definition embedding_out (e : Embedding) (idx : list Z) : Tensor :=
  let d := embedding_dim e in
  mkTensor [length idx; d]
    (tabulate (length idx * d) (fun q =>
       emb_weight e [Z.to_nat (nth (q / d) idx 0%Z); q mod d])).

Definition in_range (n : nat) (i : Z) : bool := (0 <=? i)%Z && (i <? Z.of_nat n)%Z.

(** F.embedding on a 1-D tensor of integer indices: row [i] of the result is
    row [idx[i]] of the weight; an index outside [0, num_embeddings) raises. *)
Definition embedding (e : Embedding) (idx : list Z) : result Tensor :=
  if forallb (in_range (num_embeddings e)) idx then Ok (embedding_out e idx)
  else Raise IndexError "embedding".

(** *** Constructors reading a state dictionary *)

Definition Conv2d_init (sd : StateDict) (name : string) (cin cout k s p : nat) : Conv2d :=
  mkConv2d cin cout k s p
    (sd_tensor sd (name ++ ".weight")) (sd_tensor sd (name ++ ".bias")).

Definition Linear_init (sd : StateDict) (name : string) (fin fout : nat) : Linear :=
  mkLinear fin fout (sd_tensor sd (name ++ ".weight")) (sd_tensor sd (name ++ ".bias")).

(** eps = 1e-5, momentum = 0.1, and a module starts in training mode. *)
Definition BatchNorm_init (sd : StateDict) (name : string) (k : BNKind) (n : nat) : BatchNorm :=
  mkBatchNorm k n (rdiv (rofZ 1) (rofZ 100000)) (rdiv (rofZ 1) (rofZ 10)) true
    (sd_tensor sd (name ++ ".weight")) (sd_tensor sd (name ++ ".bias"))
    (sd_tensor sd (name ++ ".running_mean")) (sd_tensor sd (name ++ ".running_var"))
    (sd_count sd (name ++ ".num_batches_tracked")).

Definition Embedding_init (sd : StateDict) (name : string) (n d : nat) : Embedding :=
  mkEmbedding n d (sd_tensor sd (name ++ ".weight")).

(** The tail of every forward pass:
    [mu_logvar.view(b, latent_dim, 2).unbind(-1)], unpacked into two. *)
Definition split_mu_logvar (b : Z) (latent_dim : nat) (mu_logvar : Tensor)
  : result (Tensor * Tensor) :=
  v <- within "view" (view mu_logvar [b; Z.of_nat latent_dim; 2%Z]) ;;
  l <- unbind_last v ;;
  unpack2 l.

End Torch.

Arguments Tensor R : clear implicits.
Abbreviation mkTensor s d := (mkStrided s (contiguous_strides s) d).
Arguments StateDict R : clear implicits.
Arguments Linear R : clear implicits.
Arguments Conv2d R : clear implicits.
Arguments BatchNorm R : clear implicits.
Arguments Embedding R : clear implicits.
Arguments Param R : clear implicits.

(** ** EncoderBurgess *)

Module EncoderBurgess.
Section Defs.
Context {R : Type} `{Scalar R}.

Record t := mk {
  latent_dim : nat;
  img_size : nat * nat * nat;
  reshape : nat * nat * nat;
  conv1 : Conv2d R;
  conv2 : Conv2d R;
  conv3 : Conv2d R;
  conv_64 : option (Conv2d R);
  lin1 : Linear R;
  lin2 : Linear R;
  mu_logvar_gen : Linear R
}.

(** [self.img_size[1] == self.img_size[2] == 64] *)
Definition is_64 (img_size : nat * nat * nat) : bool :=
  let '(_, h, w) := img_size in (h =? w) && (w =? 64).

(** __init__(img_size, latent_dim=10); the parameter values are those of the
    state dictionary [sd].  [lin1] takes [np.product(self.reshape)] features,
    the product of (hid_channels, kernel_size, kernel_size). *)
Definition init (sd : StateDict R) (img_size : nat * nat * nat) (latent_dim : nat) : t :=
  let hid_channels := 32 in
  let kernel_size := 4 in
  let hidden_dim := 256 in
  let n_chan := fst (fst img_size) in
  mk latent_dim img_size (hid_channels, kernel_size, kernel_size)
    (Conv2d_init sd "conv1" n_chan hid_channels kernel_size 2 1)
    (Conv2d_init sd "conv2" hid_channels hid_channels kernel_size 2 1)
    (Conv2d_init sd "conv3" hid_channels hid_channels kernel_size 2 1)
    (if is_64 img_size
     then Some (Conv2d_init sd "conv_64" hid_channels hid_channels kernel_size 2 1)
     else None)
    (Linear_init sd "lin1" (hid_channels * kernel_size * kernel_size) hidden_dim)
    (Linear_init sd "lin2" hidden_dim hidden_dim)
    (Linear_init sd "mu_logvar_gen" hidden_dim (latent_dim * 2)).

Definition batch_size (x : Tensor R) : result nat :=
  match shape x with
  | [] => Raise IndexError "size"
  | b :: _ => Ok b
  end.

(** The convolutional layers with ReLU activations (lines 75-79). *)
Definition convs (self : t) (x : Tensor R) : result (Tensor R) :=
  x <- within "conv1" (conv2d (conv1 self) x) ;;
  let x := relu x in
  x <- within "conv2" (conv2d (conv2 self) x) ;;
  let x := relu x in
  x <- within "conv3" (conv2d (conv3 self) x) ;;
  let x := relu x in
  if is_64 (img_size self) then
    match conv_64 self with
    | Some c => x <- within "conv_64" (conv2d c x) ;; Ok (relu x)
    | None => Raise AttributeError "conv_64"
    end
  else Ok x.

(** The fully connected layers up to the projection [mu_logvar] (lines 82-88). *)
Definition mu_logvar (self : t) (x : Tensor R) : result (Tensor R) :=
  batch_size <- batch_size x ;;
  x <- convs self x ;;
  x <- within "view" (view x [Z.of_nat batch_size; (-1)%Z]) ;;
  x <- within "lin1" (linear (lin1 self) x) ;;
  let x := relu x in
  x <- within "lin2" (linear (lin2 self) x) ;;
  let x := relu x in
  within "mu_logvar_gen" (linear (mu_logvar_gen self) x).

Definition forward (self : t) (x : Tensor R) : result (Tensor R * Tensor R) :=
  mu_logvar <- mu_logvar self x ;;
  split_mu_logvar (-1)%Z (latent_dim self) mu_logvar.





End Defs.
Arguments t R : clear implicits.
End EncoderBurgess.

(** ** ConvEncoder *)

Module ConvEncoder.
Section Defs.
Context {R : Type} `{Scalar R}.

Record t := mk {
  latent_dim : nat;
  conv1 : Conv2d R;
  bn1 : BatchNorm R;
  conv2 : Conv2d R;
  bn2 : BatchNorm R;
  conv3 : Conv2d R;
  bn3 : BatchNorm R;
  fc1 : Linear R;
  bn1_fc : BatchNorm R;
  fc2 : Linear R;
  bn2_fc : BatchNorm R;
  mu_logvar_gen : Linear R
}.

(** __init__(output_dim); [self.act] is a LeakyReLU and holds no state.  The
    widths 8192, 3072 and 2048 of the source are written as products. *)
Definition init (sd : StateDict R) (output_dim : nat) : t :=
  mk output_dim
    (Conv2d_init sd "conv1" 3 64 5 1 2)
    (BatchNorm_init sd "bn1" BN2d 64)
    (Conv2d_init sd "conv2" 64 64 5 1 2)
    (BatchNorm_init sd "bn2" BN2d 64)
    (Conv2d_init sd "conv3" 64 128 5 1 2)
    (BatchNorm_init sd "bn3" BN2d 128)
    (Linear_init sd "fc1" (128 * 8 * 8) (3 * 1024))
    (BatchNorm_init sd "bn1_fc" BN1d (3 * 1024))
    (Linear_init sd "fc2" (3 * 1024) (2 * 1024))
    (BatchNorm_init sd "bn2_fc" BN1d (2 * 1024))
    (Linear_init sd "mu_logvar_gen" (2 * 1024) (output_dim * 2)).

(** nn.Module.train(mode): the flag reaches every child; only the batch
    normalisations read it. *)
Definition train (mode : bool) (self : t) : t :=
  mk (latent_dim self) (conv1 self) (set_training mode (bn1 self))
     (conv2 self) (set_training mode (bn2 self))
     (conv3 self) (set_training mode (bn3 self))
     (fc1 self) (set_training mode (bn1_fc self))
     (fc2 self) (set_training mode (bn2_fc self))
     (mu_logvar_gen self).

Definition set_bn1 (self : t) (b : BatchNorm R) : t :=
  mk (latent_dim self) (conv1 self) b (conv2 self) (bn2 self) (conv3 self) (bn3 self)
     (fc1 self) (bn1_fc self) (fc2 self) (bn2_fc self) (mu_logvar_gen self).

Definition set_bn2 (self : t) (b : BatchNorm R) : t :=
  mk (latent_dim self) (conv1 self) (bn1 self) (conv2 self) b (conv3 self) (bn3 self)
     (fc1 self) (bn1_fc self) (fc2 self) (bn2_fc self) (mu_logvar_gen self).

Definition set_bn3 (self : t) (b : BatchNorm R) : t :=
  mk (latent_dim self) (conv1 self) (bn1 self) (conv2 self) (bn2 self) (conv3 self) b
     (fc1 self) (bn1_fc self) (fc2 self) (bn2_fc self) (mu_logvar_gen self).

Definition set_bn1_fc (self : t) (b : BatchNorm R) : t :=
  mk (latent_dim self) (conv1 self) (bn1 self) (conv2 self) (bn2 self) (conv3 self) (bn3 self)
     (fc1 self) b (fc2 self) (bn2_fc self) (mu_logvar_gen self).

Definition set_bn2_fc (self : t) (b : BatchNorm R) : t :=
  mk (latent_dim self) (conv1 self) (bn1 self) (conv2 self) (bn2 self) (conv3 self) (bn3 self)
     (fc1 self) (bn1_fc self) (fc2 self) b (mu_logvar_gen self).

Definition forget (self : t) : t :=
  mk (latent_dim self) (conv1 self) (forget_tr (bn1 self))
     (conv2 self) (forget_tr (bn2 self))
     (conv3 self) (forget_tr (bn3 self))
     (fc1 self) (forget_tr (bn1_fc self))
     (fc2 self) (forget_tr (bn2_fc self))
     (mu_logvar_gen self).

(** Calling a batch normalisation that is an attribute of the module. *)
Definition call_bn (get : t -> BatchNorm R) (set : t -> BatchNorm R -> t)
    (site : string) (x : Tensor R) : M t (Tensor R) :=
  fun self =>
    let (r, b) := batch_norm (get self) x in
    (within site r, set self b).

(** Calling a layer that holds no mutable state. *)
Definition call (site : string) (f : t -> Tensor R -> result (Tensor R)) (x : Tensor R)
  : M t (Tensor R) :=
  fun self => (within site (f self x), self).

Definition pool (x : Tensor R) : M t (Tensor R) :=
  lift (within "max_pool2d" (max_pool2d 3 2 1 x)).

(** Lines 117-124 on the reshaped input [h]. *)
Definition pipeline (batch_size : nat) (h : Tensor R) : M t (Tensor R) :=
  h <~ call "conv1" (fun self => conv2d (conv1 self)) h ;;
  h <~ call_bn bn1 set_bn1 "bn1" h ;;
  h <~ pool (leaky_relu h) ;;
  h <~ call "conv2" (fun self => conv2d (conv2 self)) h ;;
  h <~ call_bn bn2 set_bn2 "bn2" h ;;
  h <~ pool (leaky_relu h) ;;
  h <~ call "conv3" (fun self => conv2d (conv3 self)) h ;;
  h <~ call_bn bn3 set_bn3 "bn3" h ;;
  let h := leaky_relu h in
  h <~ lift (within "view" (view h [Z.of_nat batch_size; (-1)%Z])) ;;
  h <~ call "fc1" (fun self => linear (fc1 self)) h ;;
  h <~ call_bn bn1_fc set_bn1_fc "bn1_fc" h ;;
  let h := leaky_relu h in
  h <~ call "fc2" (fun self => linear (fc2 self)) h ;;
  h <~ call_bn bn2_fc set_bn2_fc "bn2_fc" h ;;
  let h := leaky_relu h in
  call "mu_logvar_gen" (fun self => linear (mu_logvar_gen self)) h.

(** forward up to the projection [mu_logvar] (lines 114-124); the assertion
    is checked (Python is not run with -O). *)
Definition mu_logvar (inputs : Tensor R) : M t (Tensor R) :=
  match shape inputs with
  | [batch_size; channel; width; height] =>
      h <~ lift (within "view"
                  (view (contiguous inputs)
                     [(-1)%Z; Z.of_nat channel; Z.of_nat width; Z.of_nat height])) ;;
      pipeline batch_size h
  | _ => lift (Raise AssertionError "assert")
  end.

Definition forward (inputs : Tensor R) : M t (Tensor R * Tensor R) :=
  match shape inputs with
  | [batch_size; _; _; _] =>
      mu_logvar <~ mu_logvar inputs ;;
      fun self => (split_mu_logvar (Z.of_nat batch_size) (latent_dim self) mu_logvar, self)
  | _ => lift (Raise AssertionError "assert")
  end.

(** The same pipeline with the initial reshape removed
    ([h = inputs.contiguous()]): the layers are applied to the input
    directly. *)
Definition forward_without_view (inputs : Tensor R) : M t (Tensor R * Tensor R) :=
  match shape inputs with
  | [batch_size; _; _; _] =>
      mu_logvar <~ pipeline batch_size (contiguous inputs) ;;
      fun self => (split_mu_logvar (Z.of_nat batch_size) (latent_dim self) mu_logvar, self)
  | _ => lift (Raise AssertionError "assert")
  end.

End Defs.
Arguments t R : clear implicits.
End ConvEncoder.

(** ** DomainEncoder *)

Module DomainEncoder.
Section Defs.
Context {R : Type} `{Scalar R}.

Record t := mk {
  latent_dim : nat;
  embed : Embedding R;
  bn : BatchNorm R;
  mu_logvar_gen : Linear R
}.

Definition init (sd : StateDict R) (num_domains output_dim : nat) : t :=
  mk output_dim
    (Embedding_init sd "embed" num_domains 512)
    (BatchNorm_init sd "bn" BN1d 512)
    (Linear_init sd "mu_logvar_gen" 512 (output_dim * 2)).

Definition train (mode : bool) (self : t) : t :=
  mk (latent_dim self) (embed self) (set_training mode (bn self)) (mu_logvar_gen self).

Definition set_bn (self : t) (b : BatchNorm R) : t :=
  mk (latent_dim self) (embed self) b (mu_logvar_gen self).

Definition forget (self : t) : t :=
  mk (latent_dim self) (embed self) (forget_tr (bn self)) (mu_logvar_gen self).

Definition call_bn (x : Tensor R) : M t (Tensor R) :=
  fun self =>
    let (r, b) := batch_norm (bn self) x in
    (within "bn" r, set_bn self b).

(** forward up to the projection [mu_logvar] (lines 144-147); [inputs] is the
    1-D tensor of domain indices. *)
Definition mu_logvar (inputs : list Z) : M t (Tensor R) :=
  h <~ (fun self => (within "embed" (embedding (embed self) inputs), self)) ;;
  h <~ call_bn h ;;
  let h := leaky_relu h in
  fun self => (within "mu_logvar_gen" (linear (mu_logvar_gen self) h), self).

Definition forward (inputs : list Z) : M t (Tensor R * Tensor R) :=
  let batch_size := length inputs in
  mu_logvar <~ mu_logvar inputs ;;
  fun self => (split_mu_logvar (Z.of_nat batch_size) (latent_dim self) mu_logvar, self).

End Defs.
Arguments t R : clear implicits.
End DomainEncoder.

(** ** The three variants behind one interface *)

Section Variants.
Context {R : Type} `{Scalar R}.

Inductive Encoder :=
| Burgess (e : EncoderBurgess.t R)
| Conv (e : ConvEncoder.t R)
| Domain (e : DomainEncoder.t R).

(** What a forward call is given: a float tensor (an image batch) or a 1-D
    tensor of integer domain indices. *)
Inductive Input :=
| Image (x : Tensor R)
| Indices (idx : list Z).

(** nn.Module.train(mode); EncoderBurgess has no layer that reads the flag. *)
Definition train (mode : bool) (enc : Encoder) : Encoder :=
  match enc with
  | Burgess e => Burgess e
  | Conv e => Conv (ConvEncoder.train mode e)
  | Domain e => Domain (DomainEncoder.train mode e)
  end.

(** The batch normalisations of an encoder are all in evaluation mode. *)
Definition eval_mode (enc : Encoder) : bool :=
  match enc with
  | Burgess _ => true
  | Conv e =>
      negb (bn_training (ConvEncoder.bn1 e) || bn_training (ConvEncoder.bn2 e)
            || bn_training (ConvEncoder.bn3 e) || bn_training (ConvEncoder.bn1_fc e)
            || bn_training (ConvEncoder.bn2_fc e))
  | Domain e => negb (bn_training (DomainEncoder.bn e))
  end.

Definition latent_dim (enc : Encoder) : nat :=
  match enc with
  | Burgess e => EncoderBurgess.latent_dim e
  | Conv e => ConvEncoder.latent_dim e
  | Domain e => DomainEncoder.latent_dim e
  end.


(** The arguments of a constructor call. *)
Inductive Config :=
| CfgBurgess (img_size : nat * nat * nat) (latent_dim : nat)
| CfgConv (output_dim : nat)
| CfgDomain (num_domains output_dim : nat).

Definition construct (sd : StateDict R) (cfg : Config) : Encoder :=
  match cfg with
  | CfgBurgess img_size latent_dim => Burgess (EncoderBurgess.init sd img_size latent_dim)
  | CfgConv output_dim => Conv (ConvEncoder.init sd output_dim)
  | CfgDomain num_domains output_dim => Domain (DomainEncoder.init sd num_domains output_dim)
  end.

Definition cfg_latent_dim (cfg : Config) : nat :=
  match cfg with
  | CfgBurgess _ l => l
  | CfgConv l => l
  | CfgDomain _ l => l
  end.

Definition on_state {S A} (wrap : S -> Encoder) (p : result A * S) : result A * Encoder :=
  (fst p, wrap (snd p)).

(** The projection [mu_logvar] of a forward call.  An index tensor is 1-D:
    a convolution refuses it and ConvEncoder's assertion fails on it; an
    embedding refuses a float tensor. *)
Definition mu_logvar (enc : Encoder) (inp : Input) : result (Tensor R) * Encoder :=
  match enc, inp with
  | Burgess e, Image x => (EncoderBurgess.mu_logvar e x, enc)
  | Burgess e, Indices _ => (Raise RuntimeError "conv1", enc)
  | Conv e, Image x => on_state Conv (ConvEncoder.mu_logvar x e)
  | Conv e, Indices _ => (Raise AssertionError "assert", enc)
  | Domain e, Indices idx => on_state Domain (DomainEncoder.mu_logvar idx e)
  | Domain e, Image _ => (Raise RuntimeError "embed", enc)
  end.

Definition forward (enc : Encoder) (inp : Input) : result (Tensor R * Tensor R) * Encoder :=
  match enc, inp with
  | Burgess e, Image x => (EncoderBurgess.forward e x, enc)
  | Burgess e, Indices _ => (Raise RuntimeError "conv1", enc)
  | Conv e, Image x => on_state Conv (ConvEncoder.forward x e)
  | Conv e, Indices _ => (Raise AssertionError "assert", enc)
  | Domain e, Indices idx => on_state Domain (DomainEncoder.forward idx e)
  | Domain e, Image _ => (Raise RuntimeError "embed", enc)
  end.

End Variants.
Arguments Encoder R : clear implicits.
Arguments Input R : clear implicits.

(** ** get_encoder *)

Definition lower_char (c : ascii) : ascii :=
  let n := nat_of_ascii c in
  if (65 <=? n) && (n <=? 90) then ascii_of_nat (n + 32) else c.

Definition upper_char (c : ascii) : ascii :=
  let n := nat_of_ascii c in
  if (97 <=? n) && (n <=? 122) then ascii_of_nat (n - 32) else c.

(** str.lower() on ASCII text. *)
Fixpoint lower (s : string) : string :=
  match s with
  | EmptyString => EmptyString
  | String c r => String (lower_char c) (lower r)
  end.

(** str.capitalize(): the first character upper-cased, the rest lower-cased. *)
Definition capitalize (s : string) : string :=
  match s with
  | EmptyString => EmptyString
  | String c r => String (upper_char c) (lower r)
  end.

Inductive EncoderClass := ClsEncoderBurgess | ClsConvEncoder | ClsDomainEncoder.

Inductive PyObject :=
| PyModule (name : string)
| PyFunction (name : string)
| PyClass (c : EncoderClass).

(** The names bound at module level in encoders.py. *)
Definition module_globals : list (string * PyObject) :=
  [ ("np"%string, PyModule "numpy");
    ("torch"%string, PyModule "torch");
    ("nn"%string, PyModule "torch.nn");
    ("F"%string, PyModule "torch.nn.functional");
    ("get_encoder"%string, PyFunction "get_encoder");
    ("EncoderBurgess"%string, PyClass ClsEncoderBurgess);
    ("ConvEncoder"%string, PyClass ClsConvEncoder);
    ("DomainEncoder"%string, PyClass ClsDomainEncoder) ].

Fixpoint lookup (name : string) (env : list (string * PyObject)) : option PyObject :=
  match env with
  | [] => None
  | (k, v) :: rest => if String.eqb k name then Some v else lookup name rest
  end.

Definition is_letter (c : ascii) : bool :=
  let n := nat_of_ascii c in
  ((65 <=? n) && (n <=? 90)) || ((97 <=? n) && (n <=? 122)) || (n =? 95).

Definition is_digit (c : ascii) : bool :=
  let n := nat_of_ascii c in (48 <=? n) && (n <=? 57).

Fixpoint all_chars (p : ascii -> bool) (s : string) : bool :=
  match s with
  | EmptyString => true
  | String c r => p c && all_chars p r
  end.

Definition is_identifier (s : string) : bool :=
  match s with
  | EmptyString => false
  | String c r => is_letter c && all_chars (fun a => is_letter a || is_digit a) r
  end.

(** eval on the expressions that are a single name: the name is looked up in
    the module (the only local of get_encoder, [model_type], and the builtins
    do not start with "Encoder"); an unbound name raises NameError.  [None]:
    the text is not a single name, and its evaluation is not modelled. *)
Definition eval_name (expr : string) : option (result PyObject) :=
  if is_identifier expr then
    Some (match lookup expr module_globals with
          | Some o => Ok o
          | None => Raise NameError expr
          end)
  else None.

Definition get_encoder (model_type : string) : option (result PyObject) :=
  let model_type := capitalize (lower model_type) in
  eval_name (String.append "Encoder" model_type).

(** A character of an ASCII Python name: a letter, a digit or an underscore. *)
Definition is_name_char (a : ascii) : bool := is_letter a || is_digit a.

(** ** Evaluation on binary64 floats *)

Definition const_sd (w : float) (n : nat) : StateDict float :=
  mkStateDict (fun _ _ => w) (fun _ => n).

(** Embedding row [d] is filled with [d], the bias of the projection is
    [0, 1, 2, ...], every other tensor is filled with ones. *)
Definition ramp_sd : StateDict float :=
  mkStateDict
    (fun name idx =>
       if String.eqb name "embed.weight" || String.eqb name "mu_logvar_gen.bias"
       then rofZ (Z.of_nat (hd 0 idx))
       else 1%float)
    (fun _ => 0).

(** A batch of two all-zero 3 x 32 x 32 images. *)
Definition images_32 : Tensor float :=
  mkTensor [2; 3; 32; 32] (repeat 0%float (2 * 3 * 32 * 32)).

(** One all-zero 1 x 8 x 8 image. *)
Definition image_8 : Tensor float := mkTensor [1; 1; 8; 8] (repeat 0%float 64).

(** A 4-D tensor with no channel (and so no element). *)
Definition no_channel : Tensor float := mkTensor [1; 0; 1; 1] [].

(** A DomainEncoder over three domains in evaluation mode, and a
    freshly constructed one over two domains (in training mode). *)
Definition domain_eval : Encoder float := train false (construct ramp_sd (CfgDomain 3 2)).
Definition domain_fresh : Encoder float := construct ramp_sd (CfgDomain 2 1).

Definition indices (idx : list Z) : Input float := Indices idx.

Definition output_of (enc : Encoder float) (inp : Input float) : Tensor float * Tensor float :=
  match fst (forward enc inp) with
  | Ok out => out
  | Raise _ _ => (mkTensor [] [], mkTensor [] [])
  end.

Definition eval_02 : Tensor float * Tensor float :=
  Eval vm_compute in output_of domain_eval (indices [0; 2]%Z).
Definition eval_01 : Tensor float * Tensor float :=
  Eval vm_compute in output_of domain_eval (indices [0; 1]%Z).
Definition fresh_00 : Tensor float * Tensor float :=
  Eval vm_compute in output_of domain_fresh (indices [0; 0]%Z).
Definition fresh_01 : Tensor float * Tensor float :=
  Eval vm_compute in output_of domain_fresh (indices [0; 1]%Z).

(** The shapes of a returned (mean, logvar) pair. *)
Definition shapes_of (r : result (Tensor float * Tensor float))
  : option (list nat * list nat) :=
  match r with
  | Ok (mu, logvar) => Some (shape mu, shape logvar)
  | Raise _ _ => None
  end.

(** A batch of [b] all-zero images of [c] channels and side [n]. *)
Definition zero_images (b c n : nat) : Tensor float :=
  mkTensor [b; c; n; n] (repeat 0%float (b * c * n * n)).

(** [x.contiguous(memory_format=torch.channels_last)]: the same elements in
    channels-last (NHWC) layout. *)
Definition channels_last (x : Tensor float) : Tensor float := in_format ChannelsLast x.

(** One unbatched all-zero image of [c] channels, [h] rows and [w] columns. *)
Definition zero_image (c h w : nat) : Tensor float :=
  mkTensor [c; h; w] (repeat 0%float (c * h * w)).




(** * Vocabulary of the statements *)


Section Vocabulary.
Context {R : Type} `{Scalar R}.

(** The two halves [split_mu_logvar] returns for a projection with elements
    [d]: slices of its (b, l, 2) view, of which they keep the strides. *)
Definition halves (b l : nat) (d : list R) : Tensor R * Tensor R :=
  let st := removelast (contiguous_strides [b; l; 2]) in
  (select_last [b; l] st 2 0 d, select_last [b; l] st 2 1 d).

(** Two batches agree on sample [i]: same per-sample shape, equal elements. *)
Definition agree_at (i : nat) (t1 t2 : Tensor R) : Prop :=
  exists b1 b2 rest,
    shape t1 = b1 :: rest /\ shape t2 = b2 :: rest /\ i < b1 /\ i < b2 /\
    forall k, k < numel rest ->
      at_ (data t1) (i * numel rest + k) = at_ (data t2) (i * numel rest + k).

(** A batched 4-D tensor with [b] samples. *)
Definition is4 (b : nat) (t : Tensor R) : Prop :=
  exists c h w, shape t = [b; c; h; w].

(** Two intermediate results of the same layer on two batches of [b1] and
    [b2] samples that agree on sample [i]. *)
Definition stage (i b1 b2 : nat) (t1 t2 : Tensor R) : Prop :=
  wf t1 /\ wf t2 /\ hd 0 (shape t1) = b1 /\ hd 0 (shape t2) = b2 /\ agree_at i t1 t2.

(** The side of a feature map after the max pooling of ConvEncoder. *)
Definition pooled (h : nat) : nat := out_size h 3 2 1.

(** Element [(n, j)] of a 2-D tensor. *)
Definition get2 (t : Tensor R) (n j : nat) : R :=
  at_ (data t) (n * nth 1 (shape t) 0 + j).

(** Two inputs agree on sample [i]. *)
Definition input_agree (i : nat) (inp1 inp2 : Input R) : Prop :=
  match inp1, inp2 with
  | Image x1, Image x2 => agree_at i x1 x2
  | Indices idx1, Indices idx2 =>
      i < length idx1 /\ i < length idx2 /\ nth i idx1 0%Z = nth i idx2 0%Z
  | _, _ => False
  end.

(** A batch of [b] samples has the shape the encoder built from [cfg] is
    made for: for EncoderBurgess the declared channels and a spatial size
    that the three (or four) stride-2 convolutions reduce to the 32 * 4 * 4
    features of [lin1]; for ConvEncoder three channels and a spatial size
    that the two poolings reduce to the 128 * 8 * 8 features of [fc1]; for
    DomainEncoder indices below [num_domains]. *)
Definition input_fits (cfg : Config) (inp : Input R) (b : nat) : Prop :=
  match cfg, inp with
  | CfgBurgess (c, h, w) _, Image x =>
      exists hh ww,
        shape x = [b; c; hh; ww] /\
        let k := if EncoderBurgess.is_64 (c, h, w) then 4 else 3 in
        32 * (hh / 2 ^ k * (ww / 2 ^ k)) = 32 * 4 * 4
  | CfgConv _, Image x =>
      exists hh ww,
        shape x = [b; 3; hh; ww] /\ 1 <= hh /\ 1 <= ww /\
        128 * (pooled (pooled hh) * pooled (pooled ww)) = 128 * 8 * 8
  | CfgDomain n _, Indices idx => length idx = b /\ forallb (in_range n) idx = true
  | _, _ => False
  end.

(** The constructor arguments EncoderBurgess is meant for: at least one
    declared channel. *)
Definition declares_channels (cfg : Config) : Prop :=
  match cfg with
  | CfgBurgess (c, _, _) _ => 1 <= c
  | _ => True
  end.

(** The input is laid out in memory as the encoder can take it.
    EncoderBurgess flattens the result of its convolutions with [view]
    (line 82), which wants it row-major: the batch must not look
    channels-last, or the convolutions answer in channels-last.  ConvEncoder
    makes its input contiguous itself (line 116), and an index tensor has one
    dimension. *)
Definition layout_fits (cfg : Config) (inp : Input R) : Prop :=
  match cfg, inp with
  | CfgBurgess _ _, Image x => suggest_memory_format x = Contiguous
  | _, _ => True
  end.

(** Two input batches of the same size: image batches (4-D) of the same
    shape, index batches of the same length. *)
Definition same_size (inp1 inp2 : Input R) : Prop :=
  match inp1, inp2 with
  | Image x1, Image x2 => length (shape x1) = 4 /\ shape x1 = shape x2
  | Indices idx1, Indices idx2 => length idx1 = length idx2
  | _, _ => False
  end.

(** A batch size an encoder accepts: at least one sample, and at least two
    while a batch normalisation is in training mode. *)
Definition valid_batch (enc : Encoder R) (b : nat) : Prop :=
  if eval_mode enc then 1 <= b else 2 <= b.

(** The result of a layer that fails or returns a tensor, the tensor
    allocated in memory format [f]. *)
Definition result_in_format (f : memory_format) (r : result (Tensor R)) : result (Tensor R) :=
  match r with
  | Ok y => Ok (in_format f y)
  | Raise e site => Raise e site
  end.


(** A result that is not a failed assertion. *)
Definition not_assertion {A} (r : result A) : Prop :=
  forall site, r <> Raise AssertionError site.

(** The number of samples of an input batch: [inputs.size(0)]. *)
Definition num_samples (inp : Input R) : nat :=
  match inp with
  | Image x => hd 0 (shape x)
  | Indices idx => length idx
  end.

(** Lines 121-124 of ConvEncoder.forward, the part of [ConvEncoder.pipeline]
    after the convolutions: the fully connected layers on the feature maps
    [h]. *)
Definition conv_dense (batch_size : nat) (h : Tensor R) : M (ConvEncoder.t R) (Tensor R) :=
  h <~ lift (within "view" (view h [Z.of_nat batch_size; (-1)%Z])) ;;
  h <~ ConvEncoder.call "fc1" (fun self => linear (ConvEncoder.fc1 self)) h ;;
  h <~ ConvEncoder.call_bn ConvEncoder.bn1_fc ConvEncoder.set_bn1_fc "bn1_fc" h ;;
  let h := leaky_relu h in
  h <~ ConvEncoder.call "fc2" (fun self => linear (ConvEncoder.fc2 self)) h ;;
  h <~ ConvEncoder.call_bn ConvEncoder.bn2_fc ConvEncoder.set_bn2_fc "bn2_fc" h ;;
  let h := leaky_relu h in
  ConvEncoder.call "mu_logvar_gen" (fun self => linear (ConvEncoder.mu_logvar_gen self)) h.




(** The batch counters ([num_batches_tracked]) of the five batch
    normalisations of a ConvEncoder, in the order forward calls them. *)
Definition conv_counters (self : ConvEncoder.t R) : list nat :=
  map (@num_batches_tracked R)
    [ConvEncoder.bn1 self; ConvEncoder.bn2 self; ConvEncoder.bn3 self;
     ConvEncoder.bn1_fc self; ConvEncoder.bn2_fc self].

End Vocabulary.

(** A call that never fails an assertion. *)
Definition never_asserts {S A} (m : M S A) : Prop :=
  forall s, not_assertion (fst (m s)).

(** * Facts about the primitives *)

Lemma bind_Ok {A B} (r : result A) (k : A -> result B) (b : B) :
  bind r k = Ok b -> exists a, r = Ok a /\ k a = Ok b.
Proof. destruct r as [a|e s]; simpl; intros E; [eauto | discriminate]. Qed.

Lemma within_Ok {A} (site : string) (r : result A) (a : A) :
  within site r = Ok a -> r = Ok a.
Proof. destruct r; simpl; intros E; [assumption | discriminate]. Qed.

Lemma bindM_Ok {S A B} (m : M S A) (k : A -> M S B) (s s' : S) (b : B) :
  bindM m k s = (Ok b, s') ->
  exists a s1, m s = (Ok a, s1) /\ k a s1 = (Ok b, s').
Proof.
  unfold bindM. destruct (m s) as [[a|e site] s1]; intros E.
  - eauto.
  - inversion E.
Qed.

Lemma bindM_run {S A B} (m : M S A) (k : A -> M S B) (s s1 : S) (a : A) :
  m s = (Ok a, s1) -> bindM m k s = k a s1.
Proof. unfold bindM. intros ->. reflexivity. Qed.

Tactic Notation "inv_bind" hyp(E) "as" ident(a) ident(Ea) :=
  apply bind_Ok in E as (a & Ea & E); try apply within_Ok in Ea.

Section Facts.
Context {R : Type} `{Scalar R}.
Implicit Types (x y : Tensor R) (d : list R).

Lemma tabulate_length n (f : nat -> R) : length (tabulate n f) = n.
Proof. unfold tabulate. now rewrite length_map, length_seq. Qed.

Lemma at_tabulate n (f : nat -> R) q : q < n -> at_ (tabulate n f) q = f q.
Proof.
  intros Hq. unfold at_, tabulate.
  rewrite (nth_indep _ rzero (f 0)) by (rewrite length_map, length_seq; exact Hq).
  rewrite (map_nth f (seq 0 n) 0 q), seq_nth by exact Hq. reflexivity.
Qed.

Lemma at_map (f : R -> R) d q : q < length d -> at_ (map f d) q = f (at_ d q).
Proof.
  intros Hq. unfold at_.
  rewrite (nth_indep _ rzero (f rzero)) by (rewrite length_map; exact Hq).
  apply map_nth.
Qed.

Lemma sum_upto_ext n (f g : nat -> R) :
  (forall k, k < n -> f k = g k) -> sum_upto n f = sum_upto n g.
Proof.
  induction n as [|n IH]; intros E; simpl; [reflexivity|].
  rewrite IH, E by (intros; try apply E; lia). reflexivity.
Qed.

Lemma numel_app (s1 s2 : list nat) : numel (s1 ++ s2) = numel s1 * numel s2.
Proof.
  induction s1 as [|a s1 IH]; simpl; [lia|]. rewrite IH. lia.
Qed.

Lemma wf_map_tensor (f : R -> R) x : wf x -> wf (map_tensor f x).
Proof. unfold wf, map_tensor. simpl. now rewrite length_map. Qed.

End Facts.

(** *** Strides: what [view] accepts and which memory format a layer sees *)

Section Layout.
Context {R : Type} `{Scalar R}.
Implicit Types (x y t : Tensor R) (s : list nat).

Lemma contiguous_strides_length s : length (contiguous_strides s) = length s.
Proof. induction s as [|a s IH]; cbn [contiguous_strides length]; congruence. Qed.

(** The span of a row-major dimension list: the product of the sizes, a
    size of zero counting as one. *)
Lemma span_numel s :
  numel s <> 0 -> fold_right (fun d acc => Nat.max d 1 * acc) 1 s = numel s.
Proof.
  induction s as [|a s IH]; cbn [fold_right numel]; [reflexivity|].
  intros Hn. fold (numel s) in *. rewrite IH by nia.
  destruct a; [lia|]. rewrite Nat.max_l by lia. reflexivity.
Qed.

Lemma span_app s1 s2 :
  fold_right (fun d acc => Nat.max d 1 * acc) 1 (s1 ++ s2)
  = fold_right (fun d acc => Nat.max d 1 * acc) 1 s1
    * fold_right (fun d acc => Nat.max d 1 * acc) 1 s2.
Proof.
  induction s1 as [|a s1 IH]; cbn [fold_right app]; [lia|]. rewrite IH. lia.
Qed.

Lemma contiguous_strides_snoc s a :
  contiguous_strides (s ++ [a])
  = map (fun z => z * Nat.max a 1) (contiguous_strides s) ++ [1].
Proof.
  induction s as [|b s IH]; [reflexivity|].
  cbn [app contiguous_strides map]. rewrite IH. f_equal.
  rewrite span_app. cbn [fold_right]. lia.
Qed.

Lemma last_contiguous_strides s : s <> [] -> last (contiguous_strides s) 0 = 1.
Proof.
  induction s as [|a s IH] using rev_ind; [congruence|]. intros _.
  rewrite contiguous_strides_snoc. apply last_last.
Qed.

Lemma contiguous_strides_ones s :
  numel s = 1 -> contiguous_strides s = map (fun _ => 1) s.
Proof.
  induction s as [|a s IH]; [reflexivity|].
  cbn [numel fold_right]. fold (numel s). intros E.
  apply Nat.eq_mul_1 in E as (-> & E).
  cbn [contiguous_strides map]. rewrite IH by exact E.
  rewrite span_numel by lia. now rewrite E.
Qed.

Lemma combine_snoc {A B} (l : list A) (m : list B) a b :
  length l = length m -> combine (l ++ [a]) (m ++ [b]) = combine l m ++ [(a, b)].
Proof.
  revert m. induction l as [|x l IH]; intros [|y m] E; try discriminate E.
  - reflexivity.
  - cbn [app combine]. f_equal. apply IH. now injection E.
Qed.

(** The (size, stride) pairs of the outer dimensions [pre ++ [a]] of a
    row-major tensor whose inner dimensions hold [T] elements, innermost
    first. *)
Lemma pairs_snoc pre a T :
  rev (combine (pre ++ [a]) (map (fun z => z * T) (contiguous_strides (pre ++ [a]))))
  = (a, T) :: rev (combine pre (map (fun z => z * (Nat.max a 1 * T)) (contiguous_strides pre))).
Proof.
  rewrite contiguous_strides_snoc, map_app, map_map. cbn [map].
  rewrite combine_snoc by (now rewrite length_map, contiguous_strides_length).
  rewrite rev_unit. f_equal; [f_equal; lia|].
  f_equal. f_equal. apply map_ext. intros z. lia.
Qed.

Lemma take_view_all (ns : list nat) : forall vn N,
  N <> 0 -> vn * numel ns = N ->
  take_view 1 N vn (rev ns) = (rev (map (fun z => z * vn) (contiguous_strides ns)), N, []).
Proof.
  induction ns as [|s ns IH] using rev_ind; intros vn N HN E.
  - cbn in *. f_equal. f_equal. lia.
  - rewrite rev_unit. cbn [take_view].
    rewrite numel_app in E. cbn [numel fold_right] in E.
    assert (Hs : 1 <= s).
    { destruct s; [|lia]. exfalso. apply HN. rewrite <- E. ring. }
    assert (Hc : (vn <? N) || (s =? 1) = true).
    { destruct (Nat.ltb_spec vn N); [reflexivity|].
      destruct (Nat.eqb_spec s 1); [reflexivity|]. exfalso.
      assert (Hm : numel ns * (s * 1) <= 1) by nia.
      assert (1 <= numel ns) by (destruct (numel ns); [exfalso; apply HN; rewrite <- E; ring | lia]).
      nia. }
    rewrite Hc. rewrite (IH (vn * s) N HN) by nia.
    rewrite contiguous_strides_snoc, map_app, map_map, rev_app_distr. cbn [map rev app].
    f_equal. f_equal. f_equal; [lia|]. f_equal. apply map_ext. intros z.
    rewrite Nat.max_l by lia. lia.
Qed.

Lemma view_chunks_continue (old : list (nat * nat)) size st size' stride' base tn new :
  stride' = tn * size * base ->
  view_chunks ((size, st) :: (size', stride') :: old) base tn new
  = view_chunks ((size', stride') :: old) base (tn * size) new.
Proof.
  intros ->. cbn [view_chunks]. rewrite Nat.eqb_refl, Bool.andb_false_r. reflexivity.
Qed.

Lemma view_chunks_row_major (pre : list nat) : forall a T new,
  1 <= a -> numel pre <> 0 ->
  view_chunks ((a, T) :: rev (combine pre (map (fun z => z * (a * T)) (contiguous_strides pre))))
    1 T new
  = let '(st, vn, rest) := take_view 1 (T * a * numel pre) 1 new in
    if vn =? T * a * numel pre
    then match rest with [] => Some st | _ :: _ => None end
    else None.
Proof.
  induction pre as [|b pre IH] using rev_ind; intros a T new Ha Hn.
  - cbn [contiguous_strides map combine rev view_chunks numel fold_right].
    rewrite Nat.mul_1_r.
    destruct (take_view 1 (T * a) 1 new) as [[st vn] rest].
    destruct (vn =? T * a); [|reflexivity].
    destruct rest; cbn [view_chunks option_map]; [now rewrite app_nil_r | reflexivity].
  - rewrite numel_app in Hn. cbn [numel fold_right] in Hn.
    assert (Hb : Nat.max b 1 = b) by (apply Nat.max_l; nia).
    rewrite pairs_snoc, Hb. rewrite view_chunks_continue by lia.
    rewrite (Nat.mul_comm T a). rewrite IH by nia.
    rewrite numel_app. cbn [numel fold_right].
    replace (a * T * b * numel pre) with (a * T * (numel pre * (b * 1))) by ring.
    reflexivity.
Qed.

(** Seen through a row-major tensor, every shape of as many elements has its
    row-major strides. *)
Lemma compute_stride_row_major s s' :
  numel s = numel s' ->
  compute_stride s (contiguous_strides s) s' = Some (contiguous_strides s').
Proof.
  intros E. unfold compute_stride. destruct s as [|a0 s0] eqn:Es.
  - f_equal. symmetry. apply contiguous_strides_ones. now rewrite <- E.
  - rewrite <- Es in *. destruct (Nat.eqb_spec (numel s) 0) as [E0|E0].
    + destruct (list_eq_dec Nat.eq_dec s s') as [->|]; reflexivity.
    + assert (Hne : s <> []) by (rewrite Es; discriminate).
      rewrite last_contiguous_strides by exact Hne.
      destruct s as [|a pre _] using rev_ind; [congruence|].
      rewrite numel_app in E0. cbn [numel fold_right] in E0.
      assert (Ha : Nat.max a 1 = a) by (apply Nat.max_l; nia).
      pose proof (pairs_snoc pre a 1) as P.
      rewrite map_ext with (g := fun z => z) in P by (intros; lia).
      rewrite map_id in P. rewrite P, Ha.
      rewrite view_chunks_row_major by nia.
      rewrite (@take_view_all s' 1 (1 * a * numel pre)).
      * rewrite Nat.eqb_refl. cbn [option_map]. rewrite rev_involutive.
        rewrite map_ext with (g := fun z => z) by (intros; lia).
        now rewrite map_id.
      * nia.
      * rewrite <- E, numel_app. cbn [numel fold_right]. lia.
Qed.


Lemma numel_infer (q : nat) (req : list Z) :
  numel (map (fun d => if (d =? -1)%Z then q else Z.to_nat d) req)
  = q ^ count_occ Z.eq_dec req (-1)%Z
    * fold_right (fun d acc => if (d =? -1)%Z then acc else Z.to_nat d * acc) 1 req.
Proof.
  induction req as [|d req IH]; [reflexivity|].
  cbn [map numel fold_right count_occ]. fold (numel (map (fun d => if (d =? -1)%Z then q else Z.to_nat d) req)).
  rewrite IH. destruct (Z.eqb_spec d (-1)) as [->|Hd].
  - destruct (Z.eq_dec (-1) (-1)); [|contradiction]. cbn [Nat.pow]. lia.
  - destruct (Z.eq_dec d (-1)); [contradiction|]. lia.
Qed.

Lemma existsb_count (req : list Z) :
  existsb (Z.eqb (-1)) req = (0 <? count_occ Z.eq_dec req (-1)%Z).
Proof.
  induction req as [|d req IH]; [reflexivity|].
  cbn [existsb count_occ]. rewrite IH.
  destruct (Z.eq_dec d (-1)) as [->|Hd]; [reflexivity|].
  destruct (Z.eqb_spec (-1) d); [congruence | reflexivity].
Qed.

Lemma map_to_nat_infer (q : nat) (req : list Z) :
  count_occ Z.eq_dec req (-1)%Z = 0 ->
  map Z.to_nat req = map (fun d => if (d =? -1)%Z then q else Z.to_nat d) req.
Proof.
  induction req as [|d req IH]; [reflexivity|]. cbn [count_occ map].
  destruct (Z.eq_dec d (-1)) as [->|Hd]; [discriminate|]. intros E.
  rewrite IH by exact E. destruct (Z.eqb_spec d (-1)); [contradiction | reflexivity].
Qed.

(** The shape [infer_size] returns has the number of elements asked for. *)
Lemma infer_size_numel (req : list Z) (n : nat) s : infer_size req n = Ok s -> numel s = n.
Proof.
  unfold infer_size.
  destruct (existsb (fun d => (d <? -1)%Z) req); [discriminate|].
  destruct (Nat.ltb_spec 1 (count_occ Z.eq_dec req (-1)%Z)) as [|Hc]; [discriminate|].
  rewrite existsb_count.
  set (newsize := fold_right _ 1 req).
  destruct (Nat.ltb_spec 0 (count_occ Z.eq_dec req (-1)%Z)) as [Hi|Hi].
  - assert (Ec : count_occ Z.eq_dec req (-1)%Z = 1) by lia.
    destruct (Nat.eqb_spec newsize 0) as [E0|E0].
    + destruct ((n =? newsize) || _); discriminate.
    + destruct (Nat.eqb_spec n newsize) as [En|En]; cbn [orb andb].
      * intros E. injection E as <-. rewrite numel_infer, Ec. fold newsize.
        rewrite En, Nat.div_same by exact E0. cbn. lia.
      * destruct (Nat.ltb_spec 0 newsize); [|discriminate]. cbn [andb].
        destruct (Nat.eqb_spec (n mod newsize) 0) as [Em|]; [|discriminate].
        intros E. injection E as <-. rewrite numel_infer, Ec. fold newsize.
        cbn [Nat.pow]. pose proof (Nat.div_mod_eq n newsize). nia.
  - assert (Ec : count_occ Z.eq_dec req (-1)%Z = 0) by lia.
    cbn [andb]. rewrite Bool.orb_false_r.
    destruct (Nat.eqb_spec n newsize) as [En|]; [|discriminate].
    intros E. injection E as <-. rewrite (map_to_nat_infer 0 req Ec), numel_infer, Ec.
    fold newsize. cbn. lia.
Qed.

(** [view] on a row-major tensor: any shape of as many elements is
    accepted, and the result is row-major. *)
Lemma view_row_major t (req : list Z) :
  row_major t ->
  view t req = (s <- infer_size req (numel (shape t)) ;; Ok (mkTensor s (data t))).
Proof.
  unfold view, row_major. intros ->.
  destruct (infer_size req (numel (shape t))) as [s|e site] eqn:E; cbn [bind]; [|reflexivity].
  apply infer_size_numel in E. now rewrite compute_stride_row_major.
Qed.

(** What [view] returns has the elements of the tensor, and a shape that
    depends on the number of elements only. *)
Lemma view_Ok_contiguous t (req : list Z) v :
  view t req = Ok v -> view (contiguous t) req = Ok (contiguous v).
Proof.
  intros E. rewrite view_row_major by reflexivity. cbn [contiguous shape data].
  unfold view in E.
  destruct (infer_size req (numel (shape t))) as [s|e site]; cbn [bind] in *; [|discriminate].
  destruct (compute_stride _ _ _); [|discriminate]. injection E as <-. reflexivity.
Qed.

Lemma view_Raise_infer t (req : list Z) e site :
  infer_size req (numel (shape t)) = Raise e site -> view t req = Raise e site.
Proof. unfold view. intros ->. reflexivity. Qed.

(** A row-major tensor never looks channels-last. *)
Lemma row_major_suggest t : row_major t -> suggest_memory_format t = Contiguous.
Proof.
  unfold row_major, suggest_memory_format. intros ->.
  destruct (shape t) as [|n [|c [|h [|w [|? ?]]]]]; try reflexivity.
  cbn [length Nat.eqb andb contiguous_strides fold_right].
  unfold is_channels_last_strides_2d, channels_last_step. cbn [nth fold_left Nat.eqb andb].
  rewrite !Nat.mul_1_r.
  pose proof (Nat.max_spec c 1) as Mc. pose proof (Nat.max_spec h 1) as Mh.
  pose proof (Nat.max_spec w 1) as Mw.
  set (mc := Nat.max c 1) in *. set (mh := Nat.max h 1) in *. set (mw := Nat.max w 1) in *.
  clearbody mc mh mw.
  assert (P1 : 1 <= mh * mw) by nia.
  assert (P2 : forall k, 1 <= k -> mh * mw <= mh * mw * k) by (intros; nia).
  destruct (Nat.ltb_spec 1 c), (Nat.ltb_spec 1 h), (Nat.ltb_spec 1 w);
  repeat match goal with
         | |- context [?a =? ?b] => destruct (Nat.eqb_spec a b); try reflexivity
         | |- context [?a <? ?b] => destruct (Nat.ltb_spec a b); try reflexivity
         end; cbn [andb]; try reflexivity; exfalso; try lia.
  all: try (specialize (P2 c); lia).
  all: try nia.
Qed.


Ltac cases_nat :=
  repeat match goal with
         | |- context [?a =? ?b] => destruct (Nat.eqb_spec a b)
         | |- context [?a <? ?b] => destruct (Nat.ltb_spec a b)
         end.

(** A channels-last batch of feature maps looks channels-last. *)
Lemma channels_last_suggest t b c h w :
  shape t = [b; c; h; w] -> strides t = channels_last_strides (shape t) ->
  1 <= b -> 2 <= c -> 1 <= h -> 1 <= w ->
  suggest_memory_format t = ChannelsLast.
Proof.
  intros S St Hb Hc Hh Hw. unfold suggest_memory_format. rewrite St, S.
  cbn [length Nat.eqb andb channels_last_strides].
  unfold is_channels_last_strides_2d, channels_last_step. cbn [nth fold_left].
  change (1 =? 0) with false. change (3 =? 0) with false. change (2 =? 0) with false.
  change (0 =? 0) with true. cbn [andb].
  destruct (Nat.eqb_spec c 0); [lia|]. destruct (Nat.ltb_spec 1 0); [lia|].
  destruct (Nat.ltb_spec 1 c); [|lia]. rewrite Nat.mul_1_l.
  destruct (Nat.eqb_spec w 0); [lia|]. destruct (Nat.ltb_spec c c); [lia|].
  assert (E3 : (if 1 <? w then c * w else c) = c * w).
  { destruct (Nat.ltb_spec 1 w); [reflexivity|]. assert (w = 1) by lia. subst w. lia. }
  rewrite E3.
  destruct (Nat.eqb_spec h 0); [lia|]. destruct (Nat.ltb_spec (c * w) (c * w)); [lia|].
  assert (E2 : (if 1 <? h then c * w * h else c * w) = c * w * h).
  { destruct (Nat.ltb_spec 1 h); [reflexivity|]. assert (h = 1) by lia. subst h. lia. }
  rewrite E2.
  destruct (Nat.eqb_spec b 0); [lia|].
  destruct (Nat.ltb_spec (c * w * h) (c * w * h)); [lia|].
  destruct (Nat.eqb_spec (c * w * h) 1); [nia | reflexivity].
Qed.

Lemma view_chunks_skip (old : list (nat * nat)) size st size' stride' base tn new :
  size' = 1 \/ stride' = tn * size * base ->
  view_chunks ((size, st) :: (size', stride') :: old) base tn new
  = view_chunks ((size', stride') :: old) base (tn * size) new.
Proof.
  intros [->| ->]; cbn [view_chunks].
  - reflexivity.
  - rewrite Nat.eqb_refl, Bool.andb_false_r. reflexivity.
Qed.

Lemma view_chunks_end (old : list (nat * nat)) size st size' stride' base tn new :
  size' <> 1 -> stride' <> tn * size * base ->
  view_chunks ((size, st) :: (size', stride') :: old) base tn new
  = let '(st, vn, rest) := take_view base (tn * size) 1 new in
    if vn =? tn * size
    then option_map (app st) (view_chunks ((size', stride') :: old) stride' 1 rest)
    else None.
Proof.
  intros H1 H2. cbn [view_chunks].
  destruct (Nat.eqb_spec size' 1); [contradiction|].
  destruct (Nat.eqb_spec stride' (tn * size * base)); [contradiction|].
  reflexivity.
Qed.

Lemma take_view_take base tn vn size new :
  vn < tn \/ size = 1 ->
  take_view base tn vn (size :: new)
  = let '(st, vn', rest) := take_view base tn (vn * size) new in (vn * base :: st, vn', rest).
Proof.
  intros Hc. cbn [take_view].
  destruct (Nat.ltb_spec vn tn); [reflexivity|].
  destruct (Nat.eqb_spec size 1); [reflexivity|]. lia.
Qed.

Lemma take_view_stop base tn vn size new :
  tn <= vn -> size <> 1 -> take_view base tn vn (size :: new) = ([], vn, size :: new).
Proof.
  intros H1 H2. cbn [take_view].
  destruct (Nat.ltb_spec vn tn); [lia|].
  destruct (Nat.eqb_spec size 1); [contradiction | reflexivity].
Qed.

(** Flattening a channels-last batch of feature maps to (b, -1) would merge
    the channel dimension with the spatial ones, which its strides allow
    only when the maps are 1 x 1. *)
Lemma compute_stride_channels_last b c h w :
  1 <= b -> 2 <= c -> 1 <= h -> 1 <= w ->
  compute_stride [b; c; h; w] (channels_last_strides [b; c; h; w]) [b; c * (h * (w * 1))]
  = if h * w =? 1 then Some (contiguous_strides [b; c * (h * (w * 1))]) else None.
Proof.
  intros Hb Hc Hh Hw. unfold compute_stride.
  assert (P : 1 <= h * w) by nia.
  assert (P3 : numel [b; c; h; w] <> 0) by (cbn [numel fold_right]; nia).
  destruct (Nat.eqb_spec (numel [b; c; h; w]) 0) as [|_]; [contradiction|].
  cbn [channels_last_strides combine rev app last].
  set (m := c * (h * (w * 1))). assert (Em : m = c * (h * w)) by (subst m; lia).
  assert (P2 : 2 <= m) by nia.
  rewrite view_chunks_skip by (right; lia).
  rewrite view_chunks_end by nia.
  destruct (Nat.eqb_spec (h * w) 1) as [E|E].
  - apply Nat.eq_mul_1 in E as (-> & ->).
    assert (Ec : m = c) by lia. clearbody m. subst m.
    rewrite take_view_stop by lia. change (1 =? 1 * 1 * 1) with true. cbn [option_map app].
    rewrite view_chunks_skip by (right; lia).
    cbn [view_chunks].
    assert (Hcb : c <= c * b) by nia.
    rewrite take_view_take by (left; lia).
    rewrite take_view_take
      by (destruct (Nat.eq_dec b 1); [right; assumption | left; assert (c * 2 <= c * b) by (apply Nat.mul_le_mono_l; lia); lia]).
    cbn [take_view].
    match goal with |- context [?a =? ?b] => destruct (Nat.eqb_spec a b); [|lia] end.
    cbn [option_map app rev contiguous_strides fold_right].
    rewrite Nat.max_l by lia.
    apply f_equal. apply f_equal2; [lia | apply f_equal2; [lia | reflexivity]].
  - clearbody m.
    assert (Hm : h * w < m) by nia.
    rewrite take_view_take by (left; nia).
    destruct (Nat.eq_dec b 1) as [->|Hb1].
    + rewrite take_view_take by (right; reflexivity). cbn [take_view].
      destruct (Nat.eqb_spec (1 * m * 1) (1 * w * h)); [nia | reflexivity].
    + rewrite take_view_stop by nia.
      destruct (Nat.eqb_spec (1 * m) (1 * w * h)); [nia | reflexivity].
Qed.

End Layout.


Section OpFacts.
Context {R : Type} `{Scalar R}.
Implicit Types (x y : Tensor R) (d : list R).

(** *** Convolution and pooling *)

Lemma conv2d_batch (l : Conv2d R) x :
  length (shape x) = 4 -> conv2d l x = conv2d_batched l x.
Proof. unfold conv2d. intros ->. reflexivity. Qed.

Lemma in_format_row_major (x t : Tensor R) :
  row_major x -> in_format (suggest_memory_format x) t = contiguous t.
Proof. intros RM. now rewrite (row_major_suggest RM). Qed.

Lemma row_major_map_tensor (f : R -> R) x : row_major x -> row_major (map_tensor f x).
Proof. intros RM. exact RM. Qed.

(** A convolution of a batch, whatever its layout. *)
Lemma conv2d_Ok_any (l : Conv2d R) x y :
  length (shape x) = 4 -> conv2d l x = Ok y ->
  exists n h w,
    shape x = [n; in_channels l; h; w] /\ stride l <> 0 /\
    kernel_size l <= h + 2 * padding l /\ kernel_size l <= w + 2 * padding l /\
    y = in_format (suggest_memory_format x) (conv2d_out l n (in_channels l) h w (data x)).
Proof.
  intros H4. rewrite (conv2d_batch l x H4). unfold conv2d_batched.
  destruct (shape x) as [|n [|c [|h [|w [|? ?]]]]]; try discriminate.
  destruct (Nat.eqb_spec c (in_channels l)) as [->|]; cbn [negb]; try discriminate.
  destruct (Nat.eqb_spec (stride l) 0); try discriminate.
  destruct (Nat.ltb_spec (h + 2 * padding l) (kernel_size l)); cbn [orb]; try discriminate.
  destruct (Nat.ltb_spec (w + 2 * padding l) (kernel_size l)); cbn [orb]; try discriminate.
  intros E. injection E as <-. exists n, h, w. repeat split; auto.
Qed.

Lemma conv2d_run_any (l : Conv2d R) x n h w :
  shape x = [n; in_channels l; h; w] -> stride l <> 0 ->
  kernel_size l <= h + 2 * padding l -> kernel_size l <= w + 2 * padding l ->
  conv2d l x
  = Ok (in_format (suggest_memory_format x) (conv2d_out l n (in_channels l) h w (data x))).
Proof.
  intros Hs Hst Hh Hw. rewrite conv2d_batch by (now rewrite Hs).
  unfold conv2d_batched. rewrite Hs.
  rewrite Nat.eqb_refl. cbn [negb].
  destruct (Nat.eqb_spec (stride l) 0); [contradiction|].
  destruct (Nat.ltb_spec (h + 2 * padding l) (kernel_size l)); [lia|].
  destruct (Nat.ltb_spec (w + 2 * padding l) (kernel_size l)); [lia|].
  reflexivity.
Qed.

(** On a batch that does not look channels-last (a row-major one, for
    example) the result is row-major. *)
Lemma conv2d_Ok (l : Conv2d R) x y :
  suggest_memory_format x = Contiguous -> length (shape x) = 4 -> conv2d l x = Ok y ->
  exists n h w,
    shape x = [n; in_channels l; h; w] /\ stride l <> 0 /\
    kernel_size l <= h + 2 * padding l /\ kernel_size l <= w + 2 * padding l /\
    y = conv2d_out l n (in_channels l) h w (data x).
Proof.
  intros RM H4 E. apply conv2d_Ok_any in E as (n & h & w & S & H1 & H2 & H3 & ->); [|exact H4].
  rewrite RM. exists n, h, w. repeat split; auto.
Qed.

Lemma conv2d_run (l : Conv2d R) x n h w :
  suggest_memory_format x = Contiguous ->
  shape x = [n; in_channels l; h; w] -> stride l <> 0 ->
  kernel_size l <= h + 2 * padding l -> kernel_size l <= w + 2 * padding l ->
  conv2d l x = Ok (conv2d_out l n (in_channels l) h w (data x)).
Proof.
  intros RM Hs Hst Hh Hw. rewrite (conv2d_run_any l x Hs Hst Hh Hw).
  now rewrite RM.
Qed.

Lemma wf_conv2d_out (l : Conv2d R) n c h w d : wf (conv2d_out l n c h w d).
Proof. unfold wf, conv2d_out. simpl. rewrite tabulate_length. lia. Qed.

Lemma max_pool2d_Ok_any k s p x y :
  max_pool2d k s p x = Ok y ->
  exists n c h w,
    shape x = [n; c; h; w] /\ s <> 0 /\ k <= h + 2 * p /\ k <= w + 2 * p /\
    y = in_format (suggest_memory_format x) (max_pool2d_out k s p n c h w (data x)).
Proof.
  unfold max_pool2d.
  destruct (shape x) as [|n [|c [|h [|w [|? ?]]]]]; try discriminate.
  destruct (Nat.eqb_spec s 0); try discriminate.
  destruct (k / 2 <? p); try discriminate.
  destruct (Nat.ltb_spec (h + 2 * p) k); cbn [orb]; try discriminate.
  destruct (Nat.ltb_spec (w + 2 * p) k); cbn [orb]; try discriminate.
  intros E. injection E as <-. exists n, c, h, w. repeat split; auto.
Qed.

Lemma max_pool2d_Ok k s p x y :
  row_major x -> max_pool2d k s p x = Ok y ->
  exists n c h w,
    shape x = [n; c; h; w] /\ s <> 0 /\ k <= h + 2 * p /\ k <= w + 2 * p /\
    y = max_pool2d_out k s p n c h w (data x).
Proof.
  intros RM E. apply max_pool2d_Ok_any in E as (n & c & h & w & S & H1 & H2 & H3 & ->).
  rewrite (in_format_row_major _ RM). exists n, c, h, w. repeat split; auto.
Qed.

Lemma max_pool2d_run k s p x n c h w :
  row_major x ->
  shape x = [n; c; h; w] -> s <> 0 -> p <= k / 2 -> k <= h + 2 * p -> k <= w + 2 * p ->
  max_pool2d k s p x = Ok (max_pool2d_out k s p n c h w (data x)).
Proof.
  intros RM Hs Hst Hp Hh Hw. unfold max_pool2d. rewrite Hs.
  destruct (Nat.eqb_spec s 0); [contradiction|].
  destruct (Nat.ltb_spec (k / 2) p); [lia|].
  destruct (Nat.ltb_spec (h + 2 * p) k); [lia|].
  destruct (Nat.ltb_spec (w + 2 * p) k); [lia|].
  now rewrite (in_format_row_major _ RM).
Qed.

Lemma wf_max_pool2d_out k s p n c h w d : wf (max_pool2d_out k s p n c h w d).
Proof. unfold wf, max_pool2d_out. simpl. rewrite tabulate_length. lia. Qed.

(** *** Linear *)

Lemma linear_shape (l : Linear R) x pre f :
  shape x = pre ++ [f] ->
  linear l x = if f =? in_features l then Ok (linear_out l pre f (data x))
               else Raise RuntimeError "linear".
Proof.
  intros Hs. unfold linear. rewrite Hs, rev_unit, rev_involutive. reflexivity.
Qed.

Lemma wf_linear_out (l : Linear R) pre f d : wf (linear_out l pre f d).
Proof.
  unfold wf, linear_out. simpl. rewrite tabulate_length, numel_app. simpl. lia.
Qed.

(** *** Batch normalisation *)

Lemma wf_bn_output (bn : BatchNorm R) C S mean var x : wf (bn_output bn C S mean var x).
Proof. unfold wf, bn_output. simpl. apply tabulate_length. Qed.

Lemma row_major_bn_output (bn : BatchNorm R) C S mean var x :
  row_major x -> row_major (bn_output bn C S mean var x).
Proof.
  intros RM. unfold row_major, bn_output. cbn [strides shape].
  now rewrite (row_major_suggest RM).
Qed.


Lemma batch_norm_eval_Ok (bn : BatchNorm R) x y bn' :
  bn_training bn = false -> batch_norm bn x = (Ok y, bn') ->
  exists n sp,
    shape x = n :: num_features bn :: sp /\
    y = bn_output bn (num_features bn) (numel sp)
          (fun k => running_mean bn [k]) (fun k => running_var bn [k]) x.
Proof.
  intros Ht. unfold batch_norm. rewrite Ht.
  destruct (check_input_dim _ _); simpl; [|discriminate].
  destruct (shape x) as [|n [|c sp]]; try discriminate.
  destruct (Nat.eqb_spec c (num_features bn)) as [->|]; cbn [negb]; try discriminate.
  intros E. injection E as <- <-. eauto.
Qed.

Lemma batch_norm_Ok (bn : BatchNorm R) x y bn' :
  batch_norm bn x = (Ok y, bn') ->
  exists n sp mean var,
    shape x = n :: num_features bn :: sp /\
    check_input_dim (bn_kind bn) (length (shape x)) = true /\
    y = bn_output bn (num_features bn) (numel sp) mean var x.
Proof.
  unfold batch_norm.
  destruct (check_input_dim _ _) eqn:Ec; simpl; [|discriminate].
  destruct (shape x) as [|n [|c sp]]; try discriminate.
  destruct (bn_training bn).
  - destruct (n * numel sp =? 1); try discriminate.
    destruct (Nat.eqb_spec c (num_features bn)) as [->|]; cbn [negb]; try discriminate.
    intros E. injection E as <- _. eauto 8.
  - destruct (Nat.eqb_spec c (num_features bn)) as [->|]; cbn [negb]; try discriminate.
    intros E. injection E as <- _. eauto 8.
Qed.

Lemma batch_norm_run (bn : BatchNorm R) x n sp :
  shape x = n :: num_features bn :: sp ->
  check_input_dim (bn_kind bn) (length (shape x)) = true ->
  (bn_training bn = true -> n * numel sp <> 1) ->
  exists y bn', batch_norm bn x = (Ok y, bn') /\ shape y = shape x /\ wf y /\
                (row_major x -> row_major y).
Proof.
  intros Hs Hc Hn. unfold batch_norm. rewrite Hc. simpl. rewrite Hs.
  rewrite Nat.eqb_refl. simpl.
  destruct (bn_training bn).
  - destruct (Nat.eqb_spec (n * numel sp) 1); [exfalso; now apply Hn|].
    eexists _, _. split; [reflexivity|].
    split; [exact Hs | split; [apply wf_bn_output | apply row_major_bn_output]].
  - eexists _, _. split; [reflexivity|].
    split; [exact Hs | split; [apply wf_bn_output | apply row_major_bn_output]].
Qed.

End OpFacts.

Section ViewFacts.
Context {R : Type} `{Scalar R}.
Implicit Types (x y p : Tensor R) (d : list R).

Lemma of_nat_ltb_m1 (n : nat) : (Z.of_nat n <? -1)%Z = false.
Proof. apply Z.ltb_ge. lia. Qed.

Lemma of_nat_eqb_m1 (n : nat) : (Z.of_nat n =? -1)%Z = false.
Proof. apply Z.eqb_neq. lia. Qed.

Lemma m1_eqb_of_nat (n : nat) : (-1 =? Z.of_nat n)%Z = false.
Proof. apply Z.eqb_neq. lia. Qed.

Ltac view_norm :=
  unfold infer_size;
  cbn [existsb fold_right map count_occ orb andb];
  repeat rewrite of_nat_ltb_m1; repeat rewrite of_nat_eqb_m1;
  repeat rewrite m1_eqb_of_nat; repeat rewrite Nat2Z.id;
  repeat match goal with
         | |- context [Z.eq_dec (Z.of_nat ?n) (-1)] =>
             destruct (Z.eq_dec (Z.of_nat n) (-1)); [lia|]
         end;
  change (Z.to_nat 2) with 2;
  change (-1 <? -1)%Z with false; change (2 <? -1)%Z with false;
  change (-1 =? -1)%Z with true; change (2 =? -1)%Z with false;
  change (-1 =? 2)%Z with false;
  cbn [orb andb].

(** The shape asked for by [view(b, -1)] of [n] elements. *)
Lemma infer_flatten (n b : nat) :
  infer_size [Z.of_nat b; (-1)%Z] n =
  if (b =? 0) || negb (n mod b =? 0) then Raise RuntimeError "view"
  else Ok [b; n / b].
Proof.
  view_norm.
  destruct (Z.eq_dec (-1) (-1)) as [_|Hne]; [|contradiction].
  change (1 <? 1) with false. cbv iota.
  rewrite Nat.mul_1_r.
  destruct (Nat.eqb_spec b 0) as [->|Hb]; cbn [orb].
  - destruct (n =? 0); reflexivity.
  - destruct (Nat.ltb_spec 0 b); [|lia]. cbn [andb].
    destruct (Nat.eqb_spec (n mod b) 0) as [E|E]; cbn [negb].
    + rewrite Bool.orb_true_r. reflexivity.
    + destruct (Nat.eqb_spec n b) as [E'|]; [|reflexivity].
      rewrite E', Nat.Div0.mod_same in E. contradiction.
Qed.

(** [view(-1, c, w, h)] *)
Lemma infer_batch4 (n c w h : nat) :
  infer_size [(-1)%Z; Z.of_nat c; Z.of_nat w; Z.of_nat h] n =
  if (c * (w * (h * 1)) =? 0) || negb (n mod (c * (w * (h * 1))) =? 0)
  then Raise RuntimeError "view"
  else Ok [n / (c * (w * (h * 1))); c; w; h].
Proof.
  view_norm.
  destruct (Z.eq_dec (-1) (-1)) as [_|Hne]; [|contradiction].
  change (1 <? 1) with false. cbv iota.
  set (m := c * (w * (h * 1))).
  destruct (Nat.eqb_spec m 0) as [E0|Hm]; cbn [orb].
  - rewrite E0. destruct (n =? 0); reflexivity.
  - destruct (Nat.ltb_spec 0 m); [|lia]. cbn [andb].
    destruct (Nat.eqb_spec (n mod m) 0) as [E|E]; cbn [negb].
    + rewrite Bool.orb_true_r. reflexivity.
    + destruct (Nat.eqb_spec n m) as [E'|]; [|reflexivity].
      rewrite E', Nat.Div0.mod_same in E. contradiction.
Qed.

(** [view(b, l, 2)] *)
Lemma infer_pairs (n b l : nat) :
  infer_size [Z.of_nat b; Z.of_nat l; 2%Z] n =
  if n =? b * (l * (2 * 1)) then Ok [b; l; 2] else Raise RuntimeError "view".
Proof.
  view_norm. change (1 <? 0) with false. cbv iota.
  rewrite Bool.orb_false_r.
  destruct (n =? b * (l * (2 * 1))); reflexivity.
Qed.

(** [view(-1, l, 2)] *)
Lemma infer_pairs_infer (n l : nat) :
  infer_size [(-1)%Z; Z.of_nat l; 2%Z] n =
  if (l * (2 * 1) =? 0) || negb (n mod (l * (2 * 1)) =? 0)
  then Raise RuntimeError "view"
  else Ok [n / (l * (2 * 1)); l; 2].
Proof.
  view_norm.
  destruct (Z.eq_dec (-1) (-1)) as [_|Hne]; [|contradiction].
  change (1 <? 1) with false. cbv iota.
  set (m := l * (2 * 1)).
  destruct (Nat.eqb_spec m 0) as [E0|Hm]; cbn [orb].
  - rewrite E0. destruct (n =? 0); reflexivity.
  - destruct (Nat.ltb_spec 0 m); [|lia]. cbn [andb].
    destruct (Nat.eqb_spec (n mod m) 0) as [E|E]; cbn [negb].
    + rewrite Bool.orb_true_r. reflexivity.
    + destruct (Nat.eqb_spec n m) as [E'|]; [|reflexivity].
      rewrite E', Nat.Div0.mod_same in E. contradiction.
Qed.

(** [x.view(b, -1)] of a row-major tensor *)
Lemma view_flatten x (b : nat) :
  row_major x ->
  view x [Z.of_nat b; (-1)%Z] =
  if (b =? 0) || negb (numel (shape x) mod b =? 0) then Raise RuntimeError "view"
  else Ok (mkTensor [b; numel (shape x) / b] (data x)).
Proof.
  intros RM. rewrite (view_row_major _ RM), infer_flatten.
  destruct ((b =? 0) || negb (numel (shape x) mod b =? 0)); reflexivity.
Qed.

(** [x.view(-1, c, w, h)] *)
Lemma view_batch4 x (c w h : nat) :
  row_major x ->
  view x [(-1)%Z; Z.of_nat c; Z.of_nat w; Z.of_nat h] =
  if (c * (w * (h * 1)) =? 0) || negb (numel (shape x) mod (c * (w * (h * 1))) =? 0)
  then Raise RuntimeError "view"
  else Ok (mkTensor [numel (shape x) / (c * (w * (h * 1))); c; w; h] (data x)).
Proof.
  intros RM. rewrite (view_row_major _ RM), infer_batch4.
  destruct (_ || _); reflexivity.
Qed.

(** [x.view(b, l, 2)] *)
Lemma view_pairs x (b l : nat) :
  row_major x ->
  view x [Z.of_nat b; Z.of_nat l; 2%Z] =
  if numel (shape x) =? b * (l * (2 * 1)) then Ok (mkTensor [b; l; 2] (data x))
  else Raise RuntimeError "view".
Proof.
  intros RM. rewrite (view_row_major _ RM), infer_pairs.
  destruct (_ =? _); reflexivity.
Qed.

(** [x.view(-1, l, 2)] *)
Lemma view_pairs_infer x (l : nat) :
  row_major x ->
  view x [(-1)%Z; Z.of_nat l; 2%Z] =
  if (l * (2 * 1) =? 0) || negb (numel (shape x) mod (l * (2 * 1)) =? 0)
  then Raise RuntimeError "view"
  else Ok (mkTensor [numel (shape x) / (l * (2 * 1)); l; 2] (data x)).
Proof.
  intros RM. rewrite (view_row_major _ RM), infer_pairs_infer.
  destruct (_ || _); reflexivity.
Qed.

Lemma split_mu_logvar_sized p (b l : nat) :
  row_major p ->
  split_mu_logvar (Z.of_nat b) l p =
  if numel (shape p) =? b * (l * (2 * 1)) then Ok (halves b l (data p))
  else Raise RuntimeError "view".
Proof.
  intros RM. unfold split_mu_logvar. rewrite (view_pairs _ _ RM).
  destruct (numel (shape p) =? b * (l * (2 * 1))); reflexivity.
Qed.

Lemma split_mu_logvar_infer p (l : nat) :
  row_major p ->
  split_mu_logvar (-1)%Z l p =
  if (l * (2 * 1) =? 0) || negb (numel (shape p) mod (l * (2 * 1)) =? 0)
  then Raise RuntimeError "view"
  else Ok (halves (numel (shape p) / (l * (2 * 1))) l (data p)).
Proof.
  intros RM. unfold split_mu_logvar. rewrite (view_pairs_infer _ RM).
  destruct ((l * (2 * 1) =? 0) || negb (numel (shape p) mod (l * (2 * 1)) =? 0));
    reflexivity.
Qed.

(** [x.view(b, -1)], whatever the layout: when it returns, it returns the
    elements as a (b, numel / b) matrix. *)
Lemma view_flatten_any (h v : Tensor R) b :
  view h [Z.of_nat b; (-1)%Z] = Ok v ->
  b <> 0 /\ numel (shape h) mod b = 0 /\
  shape v = [b; numel (shape h) / b] /\ data v = data h.
Proof.
  unfold view. rewrite infer_flatten.
  destruct (Nat.eqb_spec b 0); cbn [orb]; [discriminate|].
  destruct (Nat.eqb_spec (numel (shape h) mod b) 0); cbn [negb bind]; [|discriminate].
  destruct (compute_stride _ _ _); [|discriminate].
  intros E. injection E as <-. auto.
Qed.

(** Whatever the layout, what [view] returns is what it returns on the
    row-major copy, up to the strides. *)
Lemma view_Ok_data x (req : list Z) v :
  view x req = Ok v -> view (contiguous x) req = Ok (contiguous v) /\ data v = data x.
Proof.
  intros E. split; [now apply view_Ok_contiguous|].
  unfold view in E.
  destruct (infer_size req (numel (shape x))); cbn [bind] in E; [|discriminate].
  destruct (compute_stride _ _ _); [|discriminate]. now injection E as <-.
Qed.

End ViewFacts.

Section SampleFacts.
Context {R : Type} `{Scalar R}.
Implicit Types (d : list R).

Lemma div_sample i m k : k < m -> (i * m + k) / m = i.
Proof.
  intros Hk. rewrite Nat.div_add_l by lia. rewrite Nat.div_small by exact Hk. lia.
Qed.

Lemma mod_sample i m k : k < m -> (i * m + k) mod m = k.
Proof.
  intros Hk. rewrite Nat.add_comm, Nat.Div0.mod_add. now apply Nat.mod_small.
Qed.

Lemma sample_bound i b m k : i < b -> k < m -> i * m + k < b * m.
Proof. nia. Qed.

Lemma get4_agree C Hh W d1 d2 i :
  (forall k, k < numel [C; Hh; W] ->
     at_ d1 (i * numel [C; Hh; W] + k) = at_ d2 (i * numel [C; Hh; W] + k)) ->
  forall c y x : nat, c < C -> y < Hh -> x < W ->
    get4 C Hh W d1 i c y x = get4 C Hh W d2 i c y x.
Proof.
  intros E c y x Hc Hy Hx. unfold get4.
  assert (Em : numel [C; Hh; W] = C * Hh * W) by (cbn [numel fold_right]; ring).
  rewrite Em in E.
  replace (((i * C + c) * Hh + y) * W + x)
    with (i * (C * Hh * W) + ((c * Hh + y) * W + x)) by ring.
  apply E. apply sample_bound; [|exact Hx]. apply sample_bound; assumption.
Qed.

Lemma conv2d_at_ext (l : Conv2d R) C Hh W d1 d2 n co i j :
  (forall c y x : nat, c < C -> y < Hh -> x < W ->
     get4 C Hh W d1 n c y x = get4 C Hh W d2 n c y x) ->
  conv2d_at l C Hh W d1 n co i j = conv2d_at l C Hh W d2 n co i j.
Proof.
  intros E. unfold conv2d_at. f_equal.
  apply sum_upto_ext; intros ci Hci.
  apply sum_upto_ext; intros ki _.
  apply sum_upto_ext; intros kj _.
  f_equal. unfold padded4.
  destruct (Nat.leb_spec (padding l) (i * stride l + ki)); cbn [andb]; [|reflexivity].
  destruct (Nat.ltb_spec (i * stride l + ki) (Hh + padding l)); cbn [andb]; [|reflexivity].
  destruct (Nat.leb_spec (padding l) (j * stride l + kj)); cbn [andb]; [|reflexivity].
  destruct (Nat.ltb_spec (j * stride l + kj) (W + padding l)); cbn [andb]; [|reflexivity].
  apply E; lia.
Qed.

Lemma fold_left_ext {A B} (f g : A -> B -> A) (l : list B) (a : A) :
  (forall a b, f a b = g a b) -> fold_left f l a = fold_left g l a.
Proof.
  intros E. revert a. induction l as [|b l IH]; intros a; simpl; [reflexivity|].
  rewrite E. apply IH.
Qed.

Lemma max_pool2d_at_ext k s p C Hh W d1 d2 n c i j :
  (forall c y x : nat, c < C -> y < Hh -> x < W ->
     get4 C Hh W d1 n c y x = get4 C Hh W d2 n c y x) ->
  c < C ->
  max_pool2d_at k s p C Hh W d1 n c i j = max_pool2d_at k s p C Hh W d2 n c i j.
Proof.
  intros E Hc. unfold max_pool2d_at.
  apply fold_left_ext; intros m ki.
  apply fold_left_ext; intros m' kj.
  destruct (Nat.leb_spec p (i * s + ki)); cbn [andb]; [|reflexivity].
  destruct (Nat.ltb_spec (i * s + ki) (Hh + p)); cbn [andb]; [|reflexivity].
  destruct (Nat.leb_spec p (j * s + kj)); cbn [andb]; [|reflexivity].
  destruct (Nat.ltb_spec (j * s + kj) (W + p)); cbn [andb]; [|reflexivity].
  f_equal. apply E; lia.
Qed.

Lemma conv2d_agree (l : Conv2d R) i (x1 x2 y1 y2 : Tensor R) :
  length (shape x1) = 4 ->
  agree_at i x1 x2 -> conv2d l x1 = Ok y1 -> conv2d l x2 = Ok y2 -> agree_at i y1 y2.
Proof.
  intros H4 (b1 & b2 & rest & S1 & S2 & Hi1 & Hi2 & E) O1 O2.
  assert (H4' : length (shape x2) = 4) by (rewrite S1 in H4; rewrite S2; exact H4).
  apply conv2d_Ok_any in O1 as (n1 & h1 & w1 & S1' & _ & _ & _ & ->); [|exact H4].
  apply conv2d_Ok_any in O2 as (n2 & h2 & w2 & S2' & _ & _ & _ & ->); [|exact H4'].
  clear H4 H4'.
  rewrite S1 in S1'. rewrite S2 in S2'.
  injection S1' as -> ->. injection S2' as -> -> ->.
  set (co := out_channels l).
  set (ho := out_size h2 (kernel_size l) (stride l) (padding l)).
  set (wo := out_size w2 (kernel_size l) (stride l) (padding l)).
  exists n1, n2, [co; ho; wo]. repeat split; auto.
  intros k Hk. unfold conv2d_out. fold co ho wo. cbn [data in_format].
  assert (Em : numel [co; ho; wo] = co * (ho * wo)) by (simpl; lia).
  rewrite Em in *.
  rewrite !at_tabulate by (apply sample_bound; assumption).
  rewrite div_sample by exact Hk.
  apply conv2d_at_ext. apply get4_agree. exact E.
Qed.

Lemma max_pool2d_agree ks s p i (x1 x2 y1 y2 : Tensor R) :
  agree_at i x1 x2 -> max_pool2d ks s p x1 = Ok y1 -> max_pool2d ks s p x2 = Ok y2 ->
  agree_at i y1 y2.
Proof.
  intros (b1 & b2 & rest & S1 & S2 & Hi1 & Hi2 & E) O1 O2.
  apply max_pool2d_Ok_any in O1 as (n1 & c1 & h1 & w1 & S1' & _ & _ & _ & ->).
  apply max_pool2d_Ok_any in O2 as (n2 & c2 & h2 & w2 & S2' & _ & _ & _ & ->).
  rewrite S1 in S1'. rewrite S2 in S2'.
  injection S1' as -> ->. injection S2' as -> -> -> ->.
  set (ho := out_size h2 ks s p). set (wo := out_size w2 ks s p).
  exists n1, n2, [c2; ho; wo]. repeat split; auto.
  intros k Hk. unfold max_pool2d_out. fold ho wo. cbn [data in_format].
  assert (Em : numel [c2; ho; wo] = c2 * (ho * wo)) by (simpl; lia).
  rewrite Em in *.
  rewrite !at_tabulate by (apply sample_bound; assumption).
  rewrite div_sample by exact Hk.
  apply max_pool2d_at_ext.
  - apply get4_agree. exact E.
  - apply Nat.mod_upper_bound. intros ->. simpl in Hk. lia.
Qed.

Lemma map_tensor_agree (f : R -> R) i (x1 x2 : Tensor R) :
  wf x1 -> wf x2 -> agree_at i x1 x2 -> agree_at i (map_tensor f x1) (map_tensor f x2).
Proof.
  intros W1 W2 (b1 & b2 & rest & S1 & S2 & Hi1 & Hi2 & E).
  exists b1, b2, rest. repeat split; auto.
  intros k Hk. cbn [map_tensor data].
  unfold wf in W1, W2. rewrite S1 in W1. rewrite S2 in W2. simpl in W1, W2.
  rewrite !at_map by (first [rewrite W1 | rewrite W2]; apply sample_bound; assumption).
  f_equal. apply E. exact Hk.
Qed.

End SampleFacts.

Section SampleFacts2.
Context {R : Type} `{Scalar R}.
Implicit Types (d : list R).

Lemma bn_output_agree (bn : BatchNorm R) C S mean var i (x1 x2 : Tensor R) :
  agree_at i x1 x2 ->
  agree_at i (bn_output bn C S mean var x1) (bn_output bn C S mean var x2).
Proof.
  intros (b1 & b2 & rest & S1 & S2 & Hi1 & Hi2 & E).
  exists b1, b2, rest. repeat split; auto.
  intros k Hk. unfold bn_output. cbn [data]. rewrite S1, S2.
  change (numel (b1 :: rest)) with (b1 * numel rest).
  change (numel (b2 :: rest)) with (b2 * numel rest).
  rewrite !at_tabulate by (apply sample_bound; assumption).
  f_equal. apply E. exact Hk.
Qed.

Lemma linear_agree (l : Linear R) i (x1 x2 y1 y2 : Tensor R) b1 b2 f :
  shape x1 = [b1; f] -> shape x2 = [b2; f] -> agree_at i x1 x2 ->
  linear l x1 = Ok y1 -> linear l x2 = Ok y2 ->
  agree_at i y1 y2.
Proof.
  intros S1 S2 (c1 & c2 & rest & S1' & S2' & Hi1 & Hi2 & E) O1 O2.
  rewrite S1 in S1'. rewrite S2 in S2'.
  injection S1' as <- <-. injection S2' as <-.
  rewrite (linear_shape l x1 [b1] f S1) in O1.
  rewrite (linear_shape l x2 [b2] f S2) in O2.
  destruct (f =? in_features l); try discriminate.
  injection O1 as <-. injection O2 as <-.
  set (o := out_features l).
  exists b1, b2, [o]. repeat split; auto.
  intros k Hk. unfold linear_out. fold o. cbn [data].
  assert (Eo : numel [o] = o) by (simpl; lia). rewrite Eo in *.
  assert (E1 : forall b, numel [b] * o = b * o) by (intros; simpl; lia).
  rewrite !E1.
  rewrite !at_tabulate by (apply sample_bound; assumption).
  rewrite div_sample, mod_sample by exact Hk.
  f_equal. apply sum_upto_ext. intros j Hj. f_equal.
  assert (Ef : numel [f] = f) by (simpl; lia). rewrite Ef in E.
  apply E. exact Hj.
Qed.

Lemma view_flatten_agree i (x1 x2 y1 y2 : Tensor R) b1 b2 rest :
  shape x1 = b1 :: rest -> shape x2 = b2 :: rest -> agree_at i x1 x2 ->
  view x1 [Z.of_nat b1; (-1)%Z] = Ok y1 -> view x2 [Z.of_nat b2; (-1)%Z] = Ok y2 ->
  agree_at i y1 y2 /\ shape y1 = [b1; numel rest] /\ shape y2 = [b2; numel rest].
Proof.
  intros S1 S2 (c1 & c2 & rest' & S1' & S2' & Hi1 & Hi2 & E) O1 O2.
  rewrite S1 in S1'. rewrite S2 in S2'.
  injection S1' as <- <-. injection S2' as <-.
  apply view_flatten_any in O1 as (Hb1 & _ & T1 & D1).
  apply view_flatten_any in O2 as (Hb2 & _ & T2 & D2).
  rewrite S1 in T1. rewrite S2 in T2.
  change (numel (b1 :: rest)) with (b1 * numel rest) in T1.
  change (numel (b2 :: rest)) with (b2 * numel rest) in T2.
  rewrite Nat.mul_comm, Nat.div_mul in T1, T2 by assumption.
  repeat split; auto.
  exists b1, b2, [numel rest]. repeat split; auto.
  intros k Hk. rewrite D1, D2.
  assert (Em : numel [numel rest] = numel rest) by (simpl; lia). rewrite Em in *.
  apply E. exact Hk.
Qed.

Lemma halves_agree i (p1 p2 : Tensor R) b1 b2 l :
  shape p1 = [b1; l * 2] -> shape p2 = [b2; l * 2] -> agree_at i p1 p2 ->
  agree_at i (fst (halves b1 l (data p1))) (fst (halves b2 l (data p2))) /\
  agree_at i (snd (halves b1 l (data p1))) (snd (halves b2 l (data p2))).
Proof.
  intros S1 S2 (c1 & c2 & rest & S1' & S2' & Hi1 & Hi2 & E).
  rewrite S1 in S1'. rewrite S2 in S2'.
  injection S1' as <- <-. injection S2' as <-.
  assert (Em : numel [l * 2] = l * 2) by (simpl; lia). rewrite Em in E.
  assert (El : numel [l] = l) by (simpl; lia).
  assert (Eb : forall b, numel [b; l] = b * l) by (intros; simpl; lia).
  unfold halves. cbn [fst snd].
  split; exists b1, b2, [l]; repeat split; auto; intros k Hk;
    unfold select_last; cbn [data]; rewrite El in *; rewrite !Eb;
    rewrite !at_tabulate by (apply sample_bound; assumption).
  - replace ((i * l + k) * 2 + 0) with (i * (l * 2) + (k * 2 + 0)) by ring.
    apply E. lia.
  - replace ((i * l + k) * 2 + 1) with (i * (l * 2) + (k * 2 + 1)) by ring.
    apply E. lia.
Qed.

Lemma embedding_agree (e : Embedding R) i (idx1 idx2 : list Z) :
  i < length idx1 -> i < length idx2 -> nth i idx1 0%Z = nth i idx2 0%Z ->
  agree_at i (embedding_out e idx1) (embedding_out e idx2).
Proof.
  intros H1 H2 E. set (D := embedding_dim e).
  exists (length idx1), (length idx2), [D]. repeat split; auto.
  intros k Hk. unfold embedding_out. fold D. cbn [data].
  assert (Em : numel [D] = D) by (simpl; lia). rewrite Em in *.
  rewrite !at_tabulate by (apply sample_bound; assumption).
  rewrite div_sample, mod_sample by exact Hk. rewrite E. reflexivity.
Qed.

End SampleFacts2.

Section Stages.
Context {R : Type} `{Scalar R}.

Lemma is4_hd b (t : Tensor R) : is4 b t -> hd 0 (shape t) = b.
Proof. intros (c & h & w & ->). reflexivity. Qed.

Lemma is4_length b (t : Tensor R) : is4 b t -> length (shape t) = 4.
Proof. intros (c & h & w & ->). reflexivity. Qed.

Lemma agree_at_length i (t1 t2 : Tensor R) :
  agree_at i t1 t2 -> length (shape t2) = length (shape t1).
Proof. intros (b1 & b2 & rest & -> & -> & _). reflexivity. Qed.

Lemma conv2d_is4 (l : Conv2d R) (x y : Tensor R) :
  length (shape x) = 4 -> conv2d l x = Ok y -> exists b, is4 b x /\ is4 b y /\ wf y.
Proof.
  intros H4 O. apply conv2d_Ok_any in O as (n & h & w & S & _ & _ & _ & ->); [|exact H4].
  exists n. split; [|split].
  - now exists (in_channels l), h, w.
  - unfold conv2d_out. cbn [shape in_format]. eexists _, _, _. reflexivity.
  - apply wf_conv2d_out.
Qed.

Lemma max_pool2d_is4 k s p (x y : Tensor R) :
  max_pool2d k s p x = Ok y -> exists b, is4 b x /\ is4 b y /\ wf y.
Proof.
  intros O. apply max_pool2d_Ok_any in O as (n & c & h & w & S & _ & _ & _ & ->).
  exists n. split; [|split].
  - now exists c, h, w.
  - unfold max_pool2d_out. cbn [shape in_format]. eexists _, _, _. reflexivity.
  - apply wf_max_pool2d_out.
Qed.

Lemma conv2d_stage (l : Conv2d R) i (x1 x2 y1 y2 : Tensor R) :
  length (shape x1) = 4 ->
  agree_at i x1 x2 -> conv2d l x1 = Ok y1 -> conv2d l x2 = Ok y2 ->
  stage i (hd 0 (shape x1)) (hd 0 (shape x2)) y1 y2.
Proof.
  intros H4 A O1 O2. pose proof (conv2d_agree l H4 A O1 O2) as A'.
  assert (H4' : length (shape x2) = 4) by (rewrite (agree_at_length A); exact H4).
  apply conv2d_is4 in O1 as (b1 & X1 & Y1 & W1); [|exact H4].
  apply conv2d_is4 in O2 as (b2 & X2 & Y2 & W2); [|exact H4'].
  rewrite (is4_hd X1), (is4_hd X2).
  repeat split; auto using is4_hd.
Qed.

Lemma max_pool2d_stage k s p i (x1 x2 y1 y2 : Tensor R) :
  agree_at i x1 x2 -> max_pool2d k s p x1 = Ok y1 -> max_pool2d k s p x2 = Ok y2 ->
  stage i (hd 0 (shape x1)) (hd 0 (shape x2)) y1 y2.
Proof.
  intros A O1 O2. pose proof (max_pool2d_agree k s p A O1 O2) as A'.
  apply max_pool2d_is4 in O1 as (b1 & X1 & Y1 & W1).
  apply max_pool2d_is4 in O2 as (b2 & X2 & Y2 & W2).
  rewrite (is4_hd X1), (is4_hd X2).
  repeat split; auto using is4_hd.
Qed.

Lemma map_stage (f : R -> R) i b1 b2 (x1 x2 : Tensor R) :
  stage i b1 b2 x1 x2 -> stage i b1 b2 (map_tensor f x1) (map_tensor f x2).
Proof.
  intros (W1 & W2 & B1 & B2 & A).
  repeat split; auto using wf_map_tensor, map_tensor_agree.
Qed.

Lemma bn_eval_stage (bn : BatchNorm R) i b1 b2 (x1 x2 y1 y2 : Tensor R) s1 s2 :
  bn_training bn = false -> stage i b1 b2 x1 x2 ->
  batch_norm bn x1 = (Ok y1, s1) -> batch_norm bn x2 = (Ok y2, s2) ->
  stage i b1 b2 y1 y2.
Proof.
  intros Ht (W1 & W2 & B1 & B2 & A) O1 O2.
  destruct (batch_norm_eval_Ok bn x1 Ht O1) as (n1 & sp1 & S1 & ->).
  destruct (batch_norm_eval_Ok bn x2 Ht O2) as (n2 & sp2 & S2 & ->).
  assert (sp1 = sp2) as <-.
  { destruct A as (c1 & c2 & rest & S1' & S2' & _).
    rewrite S1 in S1'. rewrite S2 in S2'.
    injection S1' as _ E1. injection S2' as _ E2. rewrite <- E2 in E1.
    now injection E1. }
  repeat split; auto using wf_bn_output, bn_output_agree.
Qed.

Lemma view_flatten_stage i b1 b2 (x1 x2 y1 y2 : Tensor R) :
  stage i b1 b2 x1 x2 ->
  view x1 [Z.of_nat b1; (-1)%Z] = Ok y1 -> view x2 [Z.of_nat b2; (-1)%Z] = Ok y2 ->
  stage i b1 b2 y1 y2 /\ exists f, shape y1 = [b1; f] /\ shape y2 = [b2; f].
Proof.
  intros (W1 & W2 & B1 & B2 & A) O1 O2.
  pose proof A as (c1 & c2 & rest & S1 & S2 & _).
  rewrite S1 in B1. rewrite S2 in B2. cbn [hd] in B1, B2. subst c1 c2.
  destruct (view_flatten_agree S1 S2 A O1 O2) as (A' & S1' & S2').
  split; [|eauto].
  apply view_flatten_any in O1 as (_ & _ & _ & D1).
  apply view_flatten_any in O2 as (_ & _ & _ & D2).
  unfold stage, wf in *. rewrite S1', S2', D1, D2, W1, W2, S1, S2.
  cbn [numel fold_right hd]. fold (numel rest). repeat split; auto; lia.
Qed.

Lemma linear_stage (l : Linear R) i b1 b2 f (x1 x2 y1 y2 : Tensor R) :
  shape x1 = [b1; f] -> shape x2 = [b2; f] -> stage i b1 b2 x1 x2 ->
  linear l x1 = Ok y1 -> linear l x2 = Ok y2 ->
  stage i b1 b2 y1 y2 /\
  shape y1 = [b1; out_features l] /\ shape y2 = [b2; out_features l].
Proof.
  intros S1 S2 (W1 & W2 & B1 & B2 & A) O1 O2.
  pose proof (linear_agree l S1 S2 A O1 O2) as A'.
  rewrite (linear_shape l x1 [b1] f S1) in O1.
  rewrite (linear_shape l x2 [b2] f S2) in O2.
  destruct (f =? in_features l); try discriminate.
  injection O1 as <-. injection O2 as <-.
  repeat split; auto using wf_linear_out.
Qed.

End Stages.

Section BurgessFacts.
Context {R : Type} `{Scalar R}.

Lemma conv2d_rank (l : Conv2d R) (x y : Tensor R) :
  length (shape x) = 4 -> conv2d l x = Ok y -> length (shape y) = 4.
Proof.
  intros H4 O. apply conv2d_is4 in O as (b & _ & Y & _); [|exact H4].
  now apply is4_length in Y.
Qed.

Lemma conv2d_stage' (l : Conv2d R) i b1 b2 (x1 x2 y1 y2 : Tensor R) :
  length (shape x1) = 4 ->
  stage i b1 b2 x1 x2 -> conv2d l x1 = Ok y1 -> conv2d l x2 = Ok y2 ->
  stage i b1 b2 y1 y2.
Proof.
  intros H4 (_ & _ & <- & <- & A). now apply conv2d_stage.
Qed.

Lemma max_pool2d_stage' k s p i b1 b2 (x1 x2 y1 y2 : Tensor R) :
  stage i b1 b2 x1 x2 -> max_pool2d k s p x1 = Ok y1 -> max_pool2d k s p x2 = Ok y2 ->
  stage i b1 b2 y1 y2.
Proof.
  intros (_ & _ & <- & <- & A). now apply max_pool2d_stage.
Qed.

Lemma is4_unique b b' (t : Tensor R) : is4 b t -> is4 b' t -> b = b'.
Proof. intros X X'. rewrite <- (is4_hd X). apply is4_hd. exact X'. Qed.

Lemma burgess_convs_is4 (self : EncoderBurgess.t R) (x h : Tensor R) :
  length (shape x) = 4 ->
  EncoderBurgess.convs self x = Ok h -> exists b, is4 b x /\ is4 b h /\ wf h.
Proof.
  unfold EncoderBurgess.convs. intros H4 E.
  inv_bind E as t0 E0. inv_bind E as t1 E1. inv_bind E as t2 E2.
  apply conv2d_is4 in E0 as (b & X0 & Y0 & W0); [|exact H4].
  apply conv2d_is4 in E1 as (b1 & X1 & Y1 & W1); [|exact (is4_length Y0)].
  apply conv2d_is4 in E2 as (b2 & X2 & Y2 & W2); [|exact (is4_length Y1)].
  assert (b1 = b) as -> by (eapply is4_unique; [exact X1 | exact Y0]).
  assert (b2 = b) as -> by (eapply is4_unique; [exact X2 | exact Y1]).
  exists b. split; [exact X0|].
  destruct (EncoderBurgess.is_64 _).
  - destruct (EncoderBurgess.conv_64 self) as [c|]; [|discriminate].
    inv_bind E as t3 E3. injection E as <-.
    apply conv2d_is4 in E3 as (b3 & X3 & Y3 & W3); [|exact (is4_length Y2)].
    assert (b3 = b) as -> by (eapply is4_unique; [exact X3 | exact Y2]).
    split; [exact Y3 | now apply wf_map_tensor].
  - injection E as <-. split; [exact Y2 | now apply wf_map_tensor].
Qed.

Lemma burgess_convs_stage (self : EncoderBurgess.t R) i (x1 x2 h1 h2 : Tensor R) :
  length (shape x1) = 4 ->
  agree_at i x1 x2 ->
  EncoderBurgess.convs self x1 = Ok h1 -> EncoderBurgess.convs self x2 = Ok h2 ->
  stage i (hd 0 (shape x1)) (hd 0 (shape x2)) h1 h2.
Proof.
  unfold EncoderBurgess.convs. intros H4 A E1 E2.
  inv_bind E1 as s1 C1. inv_bind E1 as s2 C2. inv_bind E1 as s3 C3.
  inv_bind E2 as u1 D1. inv_bind E2 as u2 D2. inv_bind E2 as u3 D3.
  pose proof (conv2d_rank _ _ H4 C1) as R1.
  pose proof (conv2d_rank _ (relu s1) R1 C2) as R2.
  pose proof (conv2d_rank _ (relu s2) R2 C3) as R3.
  pose proof (map_stage relu_s (conv2d_stage _ H4 A C1 D1)) as A1.
  pose proof (map_stage relu_s (conv2d_stage' _ (x1 := relu s1) R1 A1 C2 D2)) as A2.
  pose proof (map_stage relu_s (conv2d_stage' _ (x1 := relu s2) R2 A2 C3 D3)) as A3.
  destruct (EncoderBurgess.is_64 _).
  - destruct (EncoderBurgess.conv_64 self) as [c|]; [|discriminate].
    inv_bind E1 as s4 C4. inv_bind E2 as u4 D4.
    injection E1 as <-. injection E2 as <-.
    exact (map_stage relu_s (conv2d_stage' _ (x1 := relu s3) R3 A3 C4 D4)).
  - injection E1 as <-. injection E2 as <-. exact A3.
Qed.

End BurgessFacts.

Section BurgessTail.
Context {R : Type} `{Scalar R}.

Lemma numel_cons b (s : list nat) : numel (b :: s) = b * numel s.
Proof. reflexivity. Qed.

Lemma batch_size_Ok (x : Tensor R) b :
  EncoderBurgess.batch_size x = Ok b -> hd 0 (shape x) = b.
Proof.
  unfold EncoderBurgess.batch_size. destruct (shape x); [discriminate|].
  intros E. now injection E.
Qed.

Lemma view_flatten_Ok (h v : Tensor R) b rest :
  row_major h ->
  shape h = b :: rest -> view h [Z.of_nat b; (-1)%Z] = Ok v ->
  b <> 0 /\ v = mkTensor [b; numel rest] (data h).
Proof.
  intros RM S E. rewrite (view_flatten _ RM), S, numel_cons in E.
  destruct (Nat.eqb_spec b 0); cbn [orb] in E; [discriminate|].
  destruct (negb _) in E; [discriminate|]. injection E as <-.
  rewrite Nat.mul_comm, Nat.div_mul by assumption. auto.
Qed.

Lemma view_flatten_run (h : Tensor R) b rest :
  row_major h ->
  shape h = b :: rest -> b <> 0 ->
  view h [Z.of_nat b; (-1)%Z] = Ok (mkTensor [b; numel rest] (data h)).
Proof.
  intros RM S Hb. rewrite (view_flatten _ RM), S, numel_cons.
  destruct (Nat.eqb_spec b 0); [contradiction|]. cbn [orb].
  rewrite Nat.mul_comm, Nat.Div0.mod_mul, Nat.div_mul by assumption. reflexivity.
Qed.

Lemma linear_2d_Ok (l : Linear R) (x y : Tensor R) b f :
  shape x = [b; f] -> linear l x = Ok y ->
  f = in_features l /\ y = linear_out l [b] f (data x) /\
  shape y = [b; out_features l] /\ wf y.
Proof.
  intros S E. rewrite (linear_shape l x [b] f S) in E.
  destruct (Nat.eqb_spec f (in_features l)); [|discriminate].
  injection E as <-. repeat split; auto using wf_linear_out.
Qed.

Lemma linear_2d_run (l : Linear R) (x : Tensor R) b :
  shape x = [b; in_features l] ->
  linear l x = Ok (linear_out l [b] (in_features l) (data x)).
Proof.
  intros S. rewrite (linear_shape l x [b] _ S), Nat.eqb_refl. reflexivity.
Qed.

(** What a returned projection tells, for an input of any rank and layout:
    the convolutions returned [b * 512] elements, [b] the size of the first
    dimension of the input. *)
Lemma burgess_mu_logvar_Ok sd img L (x p : Tensor R) :
  EncoderBurgess.mu_logvar (EncoderBurgess.init sd img L) x = Ok p ->
  exists b h,
    hd 0 (shape x) = b /\ EncoderBurgess.convs (EncoderBurgess.init sd img L) x = Ok h /\
    b <> 0 /\ numel (shape h) = b * 512 /\ shape p = [b; L * 2] /\ wf p /\ row_major p.
Proof.
  unfold EncoderBurgess.mu_logvar. intros E.
  inv_bind E as b Eb. inv_bind E as h Eh. inv_bind E as v Ev.
  inv_bind E as y1 E1. inv_bind E as y2 E2. apply within_Ok in E.
  apply batch_size_Ok in Eb.
  apply view_flatten_any in Ev as (Hb & Hm & Sv & _).
  cbn [EncoderBurgess.lin1 EncoderBurgess.lin2 EncoderBurgess.mu_logvar_gen
       EncoderBurgess.init] in E1, E2, E.
  eapply linear_2d_Ok in E1 as (F1 & _ & S1 & _); [|exact Sv].
  eapply linear_2d_Ok in E2 as (_ & _ & S2 & _); [|exact S1].
  eapply linear_2d_Ok in E as (_ & -> & S3 & W3); [|exact S2].
  exists b, h. repeat split; auto.
  cbn [in_features Linear_init] in F1.
  pose proof (Nat.div_mod_eq (numel (shape h)) b) as Ed.
  rewrite Hm, F1 in Ed. lia.
Qed.

Lemma burgess_mu_logvar_agree sd img L i (x1 x2 p1 p2 : Tensor R) :
  length (shape x1) = 4 ->
  agree_at i x1 x2 ->
  EncoderBurgess.mu_logvar (EncoderBurgess.init sd img L) x1 = Ok p1 ->
  EncoderBurgess.mu_logvar (EncoderBurgess.init sd img L) x2 = Ok p2 ->
  agree_at i p1 p2.
Proof.
  unfold EncoderBurgess.mu_logvar. intros H4 A E1 E2.
  inv_bind E1 as b1 B1. inv_bind E1 as h1 C1. inv_bind E1 as v1 V1.
  inv_bind E1 as y1 L1. inv_bind E1 as z1 M1. apply within_Ok in E1.
  inv_bind E2 as b2 B2. inv_bind E2 as h2 C2. inv_bind E2 as v2 V2.
  inv_bind E2 as y2 L2. inv_bind E2 as z2 M2. apply within_Ok in E2.
  apply batch_size_Ok in B1, B2. subst b1 b2.
  pose proof (burgess_convs_stage _ H4 A C1 C2) as A1.
  destruct (view_flatten_stage A1 V1 V2) as (A2 & f & S1 & S2).
  destruct (linear_stage _ S1 S2 A2 L1 L2) as (A3 & T1 & T2).
  apply (map_stage relu_s) in A3.
  destruct (linear_stage _ (x1 := relu y1) (x2 := relu y2) T1 T2 A3 M1 M2)
    as (A4 & U1 & U2).
  apply (map_stage relu_s) in A4.
  destruct (linear_stage _ (x1 := relu z1) (x2 := relu z2) U1 U2 A4 E1 E2)
    as (A5 & _).
  apply A5.
Qed.

End BurgessTail.

Tactic Notation "inv_bindM" hyp(E) "as" ident(a) ident(s) ident(Ea) :=
  apply bindM_Ok in E as (a & s & Ea & E).

Section ConvFacts.
Context {R : Type} `{Scalar R}.

Lemma lift_Ok {S A} (r : result A) (s s' : S) (a : A) :
  lift r s = (Ok a, s') -> r = Ok a /\ s' = s.
Proof. unfold lift. intros E. injection E as -> ->. auto. Qed.

Lemma call_Ok site (f : ConvEncoder.t R -> Tensor R -> result (Tensor R)) x s y s' :
  ConvEncoder.call site f x s = (Ok y, s') -> f s x = Ok y /\ s' = s.
Proof.
  unfold ConvEncoder.call. intros E. injection E as E ->.
  now apply within_Ok in E.
Qed.

Lemma call_bn_Ok get set site (x : Tensor R) (s : ConvEncoder.t R) y s' :
  ConvEncoder.call_bn get set site x s = (Ok y, s') ->
  exists b', batch_norm (get s) x = (Ok y, b') /\ s' = set s b'.
Proof.
  unfold ConvEncoder.call_bn. destruct (batch_norm (get s) x) as [r b'].
  intros E. injection E as E <-. apply within_Ok in E. subst r. eauto.
Qed.

Lemma pool_Ok (x : Tensor R) (s : ConvEncoder.t R) y s' :
  ConvEncoder.pool x s = (Ok y, s') -> max_pool2d 3 2 1 x = Ok y /\ s' = s.
Proof.
  unfold ConvEncoder.pool. intros E. apply lift_Ok in E as (E & ->).
  now apply within_Ok in E.
Qed.

Lemma batch_norm_shape (bn : BatchNorm R) (x y : Tensor R) bn' :
  batch_norm bn x = (Ok y, bn') -> shape y = shape x /\ wf y.
Proof.
  intros E. apply batch_norm_Ok in E as (n & sp & mean & var & S & _ & ->).
  split; [reflexivity | apply wf_bn_output].
Qed.

(** The tail of the pipeline: once reshaped to (b, -1), every result is a
    (b, features) matrix. *)
Lemma conv_pipeline_Ok sd L mode b (h p : Tensor R) (e' : ConvEncoder.t R) :
  ConvEncoder.pipeline b h (ConvEncoder.train mode (ConvEncoder.init sd L)) = (Ok p, e') ->
  b <> 0 /\ shape p = [b; L * 2] /\ wf p /\ ConvEncoder.latent_dim e' = L /\ row_major p.
Proof.
  unfold ConvEncoder.pipeline. intros E.
  inv_bindM E as t1 s1 E1. apply call_Ok in E1 as (_ & ->).
  inv_bindM E as t2 s2 E2. apply call_bn_Ok in E2 as (b2 & _ & ->).
  inv_bindM E as t3 s3 E3. apply pool_Ok in E3 as (_ & ->).
  inv_bindM E as t4 s4 E4. apply call_Ok in E4 as (_ & ->).
  inv_bindM E as t5 s5 E5. apply call_bn_Ok in E5 as (b5 & _ & ->).
  inv_bindM E as t6 s6 E6. apply pool_Ok in E6 as (_ & ->).
  inv_bindM E as t7 s7 E7. apply call_Ok in E7 as (_ & ->).
  inv_bindM E as t8 s8 E8. apply call_bn_Ok in E8 as (b8 & _ & ->).
  inv_bindM E as v s9 E9. apply lift_Ok in E9 as (E9 & ->). apply within_Ok in E9.
  inv_bindM E as y1 s10 E10. apply call_Ok in E10 as (E10 & ->).
  inv_bindM E as y2 s11 E11. apply call_bn_Ok in E11 as (b11 & E11 & ->).
  inv_bindM E as y3 s12 E12. apply call_Ok in E12 as (E12 & ->).
  inv_bindM E as y4 s13 E13. apply call_bn_Ok in E13 as (b13 & E13 & ->).
  apply call_Ok in E as (E & ->).
  cbn [ConvEncoder.fc1 ConvEncoder.fc2 ConvEncoder.mu_logvar_gen ConvEncoder.latent_dim
       ConvEncoder.set_bn1 ConvEncoder.set_bn2 ConvEncoder.set_bn3
       ConvEncoder.set_bn1_fc ConvEncoder.set_bn2_fc ConvEncoder.train ConvEncoder.init]
    in *.
  apply view_flatten_any in E9 as (Hb & _ & Sv & _).
  eapply linear_2d_Ok in E10 as (_ & _ & S1 & _); [|exact Sv].
  apply batch_norm_shape in E11 as (S2 & _). rewrite S1 in S2.
  eapply linear_2d_Ok in E12 as (_ & _ & S3 & _); [|exact S2].
  apply batch_norm_shape in E13 as (S4 & _). rewrite S3 in S4.
  eapply linear_2d_Ok in E as (_ & -> & S5 & W5); [|exact S4].
  repeat split; auto.
Qed.

End ConvFacts.

Section ConvAgree.
Context {R : Type} `{Scalar R}.

Lemma eval_mode_conv (self : ConvEncoder.t R) :
  eval_mode (Conv self) = true ->
  bn_training (ConvEncoder.bn1 self) = false /\
  bn_training (ConvEncoder.bn2 self) = false /\
  bn_training (ConvEncoder.bn3 self) = false /\
  bn_training (ConvEncoder.bn1_fc self) = false /\
  bn_training (ConvEncoder.bn2_fc self) = false.
Proof.
  cbn [eval_mode]. intros E. apply Bool.negb_true_iff in E.
  repeat (apply Bool.orb_false_iff in E; destruct E as [E ?]). auto.
Qed.

Lemma max_pool2d_rank k s p (x y : Tensor R) :
  max_pool2d k s p x = Ok y -> length (shape y) = 4.
Proof.
  intros O. apply max_pool2d_is4 in O as (b & _ & Y & _). now apply is4_length in Y.
Qed.

Lemma conv_pipeline_agree (self : ConvEncoder.t R) i b1 b2 (h1 h2 p1 p2 : Tensor R) e1 e2 :
  eval_mode (Conv self) = true -> length (shape h1) = 4 ->
  agree_at i h1 h2 -> hd 0 (shape h1) = b1 -> hd 0 (shape h2) = b2 ->
  ConvEncoder.pipeline b1 h1 self = (Ok p1, e1) ->
  ConvEncoder.pipeline b2 h2 self = (Ok p2, e2) ->
  agree_at i p1 p2.
Proof.
  intros Hev H4 A0 <- <-. apply eval_mode_conv in Hev as (T1 & T2 & T3 & T4 & T5).
  unfold ConvEncoder.pipeline. intros E F.
  inv_bindM E as t1 s1 E1. apply call_Ok in E1 as (E1 & ->).
  inv_bindM E as t2 s2 E2. apply call_bn_Ok in E2 as (b2 & E2 & ->).
  inv_bindM E as t3 s3 E3. apply pool_Ok in E3 as (E3 & ->).
  inv_bindM E as t4 s4 E4. apply call_Ok in E4 as (E4 & ->).
  inv_bindM E as t5 s5 E5. apply call_bn_Ok in E5 as (b5 & E5 & ->).
  inv_bindM E as t6 s6 E6. apply pool_Ok in E6 as (E6 & ->).
  inv_bindM E as t7 s7 E7. apply call_Ok in E7 as (E7 & ->).
  inv_bindM E as t8 s8 E8. apply call_bn_Ok in E8 as (b8 & E8 & ->).
  inv_bindM E as v s9 E9. apply lift_Ok in E9 as (E9 & ->). apply within_Ok in E9.
  inv_bindM E as y1 s10 E10. apply call_Ok in E10 as (E10 & ->).
  inv_bindM E as y2 s11 E11. apply call_bn_Ok in E11 as (b11 & E11 & ->).
  inv_bindM E as y3 s12 E12. apply call_Ok in E12 as (E12 & ->).
  inv_bindM E as y4 s13 E13. apply call_bn_Ok in E13 as (b13 & E13 & ->).
  apply call_Ok in E as (E & ->).
  inv_bindM F as u1 r1 F1. apply call_Ok in F1 as (F1 & ->).
  inv_bindM F as u2 r2 F2. apply call_bn_Ok in F2 as (c2 & F2 & ->).
  inv_bindM F as u3 r3 F3. apply pool_Ok in F3 as (F3 & ->).
  inv_bindM F as u4 r4 F4. apply call_Ok in F4 as (F4 & ->).
  inv_bindM F as u5 r5 F5. apply call_bn_Ok in F5 as (c5 & F5 & ->).
  inv_bindM F as u6 r6 F6. apply pool_Ok in F6 as (F6 & ->).
  inv_bindM F as u7 r7 F7. apply call_Ok in F7 as (F7 & ->).
  inv_bindM F as u8 r8 F8. apply call_bn_Ok in F8 as (c8 & F8 & ->).
  inv_bindM F as w r9 F9. apply lift_Ok in F9 as (F9 & ->). apply within_Ok in F9.
  inv_bindM F as z1 r10 F10. apply call_Ok in F10 as (F10 & ->).
  inv_bindM F as z2 r11 F11. apply call_bn_Ok in F11 as (c11 & F11 & ->).
  inv_bindM F as z3 r12 F12. apply call_Ok in F12 as (F12 & ->).
  inv_bindM F as z4 r13 F13. apply call_bn_Ok in F13 as (c13 & F13 & ->).
  apply call_Ok in F as (F & ->).
  cbn [ConvEncoder.conv1 ConvEncoder.conv2 ConvEncoder.conv3
       ConvEncoder.bn1 ConvEncoder.bn2 ConvEncoder.bn3
       ConvEncoder.bn1_fc ConvEncoder.bn2_fc
       ConvEncoder.fc1 ConvEncoder.fc2 ConvEncoder.mu_logvar_gen
       ConvEncoder.set_bn1 ConvEncoder.set_bn2 ConvEncoder.set_bn3
       ConvEncoder.set_bn1_fc ConvEncoder.set_bn2_fc] in *.
  pose proof (conv2d_stage _ H4 A0 E1 F1) as A1.
  pose proof (map_stage leaky_relu_s (bn_eval_stage _ T1 A1 E2 F2)) as A2.
  pose proof (max_pool2d_stage' _ _ _ A2 E3 F3) as A3.
  pose proof (conv2d_stage' _ (max_pool2d_rank _ _ _ _ E3) A3 E4 F4) as A4.
  pose proof (map_stage leaky_relu_s (bn_eval_stage _ T2 A4 E5 F5)) as A5.
  pose proof (max_pool2d_stage' _ _ _ A5 E6 F6) as A6.
  pose proof (conv2d_stage' _ (max_pool2d_rank _ _ _ _ E6) A6 E7 F7) as A7.
  pose proof (map_stage leaky_relu_s (bn_eval_stage _ T3 A7 E8 F8)) as A8.
  destruct (view_flatten_stage A8 E9 F9) as (A9 & f & S1 & S2).
  destruct (linear_stage _ S1 S2 A9 E10 F10) as (A10 & S3 & S4).
  pose proof (map_stage leaky_relu_s (bn_eval_stage _ T4 A10 E11 F11)) as A11.
  apply batch_norm_shape in E11 as (S5 & _). rewrite S3 in S5.
  apply batch_norm_shape in F11 as (S6 & _). rewrite S4 in S6.
  destruct (linear_stage _ (x1 := leaky_relu y2) (x2 := leaky_relu z2) S5 S6 A11 E12 F12)
    as (A12 & S7 & S8).
  pose proof (map_stage leaky_relu_s (bn_eval_stage _ T5 A12 E13 F13)) as A13.
  apply batch_norm_shape in E13 as (S9 & _). rewrite S7 in S9.
  apply batch_norm_shape in F13 as (S10 & _). rewrite S8 in S10.
  destruct (linear_stage _ (x1 := leaky_relu y4) (x2 := leaky_relu z4) S9 S10 A13 E F)
    as (A14 & _).
  apply A14.
Qed.

End ConvAgree.

(** * What a forward call reads and writes *)



Section BatchNormState.
Context {R : Type} `{Scalar R}.






End BatchNormState.

Section ForwardState.
Context {R : Type} `{Scalar R}.











End ForwardState.

Section DomainFacts.
Context {R : Type} `{Scalar R}.

Lemma wf_halves b l (d : list R) : wf (fst (halves b l d)) /\ wf (snd (halves b l d)).
Proof. split; unfold wf, halves, select_last; cbn; apply tabulate_length. Qed.

Lemma wf_embedding_out (e : Embedding R) idx : wf (embedding_out e idx).
Proof. unfold wf, embedding_out. cbn. rewrite tabulate_length. lia. Qed.

(** The batch normalisation of DomainEncoder on the (b, 512) embeddings. *)
Lemma domain_bn_run sd n L mode (x : Tensor R) b :
  shape x = [b; 512] -> (mode = true -> b <> 1) ->
  exists y bn',
    batch_norm (DomainEncoder.bn (DomainEncoder.train mode (DomainEncoder.init sd n L))) x
    = (Ok y, bn') /\ shape y = [b; 512] /\ wf y.
Proof.
  intros S Hb.
  destruct (@batch_norm_run _ _
              (DomainEncoder.bn (DomainEncoder.train mode (DomainEncoder.init sd n L)))
              x b []) as (y & bn' & E & Sy & Wy & _).
  - exact S.
  - rewrite S. reflexivity.
  - cbn. intros ->. specialize (Hb eq_refl). lia.
  - exists y, bn'. rewrite Sy, S in *. auto.
Qed.

Lemma domain_forward_run sd n L mode (idx : list Z) :
  forallb (in_range n) idx = true -> (mode = true -> length idx <> 1) ->
  exists p e',
    DomainEncoder.mu_logvar idx (DomainEncoder.train mode (DomainEncoder.init sd n L))
    = (Ok p, e') /\
    shape p = [length idx; L * 2] /\
    DomainEncoder.forward idx (DomainEncoder.train mode (DomainEncoder.init sd n L))
    = (Ok (halves (length idx) L (data p)), e').
Proof.
  intros Hr Hb.
  set (e0 := DomainEncoder.train mode (DomainEncoder.init sd n L)).
  destruct (@domain_bn_run sd n L mode
              (embedding_out (DomainEncoder.embed e0) idx) (length idx) eq_refl Hb)
    as (y & bn' & Eb & Sy & Wy).
  fold e0 in Eb.
  assert (Em : DomainEncoder.mu_logvar idx e0
               = (Ok (linear_out (DomainEncoder.mu_logvar_gen e0) [length idx] 512
                        (data (leaky_relu y))),
                  DomainEncoder.set_bn e0 bn')).
  { unfold DomainEncoder.mu_logvar, bindM.
    unfold embedding. cbn [DomainEncoder.embed e0 DomainEncoder.train DomainEncoder.init
                           num_embeddings Embedding_init].
    rewrite Hr. cbn [within]. unfold DomainEncoder.call_bn.
    change (DomainEncoder.embed e0) with (Embedding_init sd "embed" n 512) in Eb.
    rewrite Eb. cbn [within].
    rewrite (@linear_2d_run _ _ _ (leaky_relu y) (length idx)) by exact Sy.
    reflexivity. }
  eexists _, _. split; [exact Em|]. split; [reflexivity|].
  unfold DomainEncoder.forward. unfold bindM at 1. rewrite Em.
  rewrite split_mu_logvar_sized by reflexivity. cbn [shape linear_out].
  cbn [DomainEncoder.latent_dim DomainEncoder.set_bn e0 DomainEncoder.train
       DomainEncoder.init DomainEncoder.mu_logvar_gen out_features Linear_init app].
  replace (numel [length idx; L * 2] =? length idx * (L * (2 * 1))) with true
    by (symmetry; apply Nat.eqb_eq; cbn; lia).
  reflexivity.
Qed.

Lemma domain_forward_index_error sd n L mode (idx : list Z) :
  forallb (in_range n) idx = false ->
  DomainEncoder.forward idx (DomainEncoder.train mode (DomainEncoder.init sd n L))
  = (Raise IndexError "embed", DomainEncoder.train mode (DomainEncoder.init sd n L)).
Proof.
  intros Hr. unfold DomainEncoder.forward, DomainEncoder.mu_logvar, bindM, embedding.
  cbn [DomainEncoder.embed DomainEncoder.train DomainEncoder.init
       num_embeddings Embedding_init].
  rewrite Hr. reflexivity.
Qed.

Lemma domain_forward_single sd n L (i : Z) :
  in_range n i = true ->
  fst (DomainEncoder.forward [i] (DomainEncoder.train true (DomainEncoder.init sd n L)))
  = Raise ValueError "bn".
Proof.
  intros Hr. unfold DomainEncoder.forward, DomainEncoder.mu_logvar, bindM, embedding.
  cbn [DomainEncoder.embed DomainEncoder.train DomainEncoder.init
       num_embeddings Embedding_init forallb].
  rewrite Hr. reflexivity.
Qed.

End DomainFacts.

Section ForwardInversion.
Context {R : Type} `{Scalar R}.

Lemma tensor_eta (x : Tensor R) s :
  row_major x -> shape x = s -> mkTensor s (data x) = x.
Proof. destruct x. unfold row_major. cbn. now intros -> ->. Qed.

Lemma agree_at_contiguous i (x1 x2 : Tensor R) :
  agree_at i x1 x2 -> agree_at i (contiguous x1) (contiguous x2).
Proof. intros A. exact A. Qed.

(** On a row-major 4-D input whose channel, width and height are all
    non-zero, [view(-1, channel, width, height)] returns the input; with a
    zero among them it raises. *)
Lemma view_batch4_id (x : Tensor R) b c w h :
  row_major x ->
  shape x = [b; c; w; h] ->
  view x [(-1)%Z; Z.of_nat c; Z.of_nat w; Z.of_nat h] =
  if c * (w * (h * 1)) =? 0 then Raise RuntimeError "view" else Ok x.
Proof.
  intros RM S. rewrite (view_batch4 _ _ _ RM), S.
  change (numel [b; c; w; h]) with (b * (c * (w * (h * 1)))).
  destruct (Nat.eqb_spec (c * (w * (h * 1))) 0) as [E|E]; cbn [orb]; [reflexivity|].
  rewrite Nat.Div0.mod_mul, Nat.div_mul by exact E. cbn [negb Nat.eqb].
  now rewrite (tensor_eta RM S).
Qed.

Lemma split_sized_Ok (p mu lv : Tensor R) b l :
  row_major p ->
  split_mu_logvar (Z.of_nat b) l p = Ok (mu, lv) ->
  numel (shape p) = b * (l * (2 * 1)) /\ (mu, lv) = halves b l (data p).
Proof.
  intros RM. rewrite (split_mu_logvar_sized _ _ RM).
  destruct (Nat.eqb_spec (numel (shape p)) (b * (l * (2 * 1)))); [|discriminate].
  intros E. split; [assumption | congruence].
Qed.

Lemma burgess_forward_Ok sd img L (x mu lv : Tensor R) :
  EncoderBurgess.forward (EncoderBurgess.init sd img L) x = Ok (mu, lv) ->
  exists p b,
    EncoderBurgess.mu_logvar (EncoderBurgess.init sd img L) x = Ok p /\
    hd 0 (shape x) = b /\ shape p = [b; L * 2] /\ wf p /\
    (mu, lv) = halves b L (data p).
Proof.
  unfold EncoderBurgess.forward. intros E. inv_bind E as p Ep.
  destruct (burgess_mu_logvar_Ok _ _ _ _ Ep) as (b & h & X & _ & Hb & _ & Sp & Wp & RM).
  exists p, b. repeat split; auto.
  cbn [EncoderBurgess.latent_dim EncoderBurgess.init] in E.
  rewrite (split_mu_logvar_infer _ RM), Sp in E.
  change (numel [b; L * 2]) with (b * (L * 2 * 1)) in E.
  destruct (Nat.eqb_spec (L * (2 * 1)) 0) as [E0|E0]; cbn [orb] in E; [discriminate|].
  destruct (negb _) in E; [discriminate|].
  replace (b * (L * 2 * 1)) with (b * (L * (2 * 1))) in E by lia.
  rewrite Nat.div_mul in E by exact E0. congruence.
Qed.

Lemma conv_forward_Ok sd L mode (x mu lv : Tensor R) e' :
  ConvEncoder.forward x (ConvEncoder.train mode (ConvEncoder.init sd L)) = (Ok (mu, lv), e') ->
  exists p b c w h,
    shape x = [b; c; w; h] /\ c * (w * (h * 1)) <> 0 /\
    ConvEncoder.mu_logvar x (ConvEncoder.train mode (ConvEncoder.init sd L)) = (Ok p, e') /\
    ConvEncoder.pipeline b (contiguous x) (ConvEncoder.train mode (ConvEncoder.init sd L))
    = (Ok p, e') /\
    shape p = [b; L * 2] /\ wf p /\ (mu, lv) = halves b L (data p).
Proof.
  unfold ConvEncoder.forward, ConvEncoder.mu_logvar.
  destruct (shape x) as [|b [|c [|w [|h [|? ?]]]]] eqn:S; try discriminate.
  intros E. inv_bindM E as p s1 Ep. injection E as E <-.
  pose proof Ep as Ep'.
  inv_bindM Ep as h0 s0 Ev. apply lift_Ok in Ev as (Ev & ->). apply within_Ok in Ev.
  rewrite (@view_batch4_id (contiguous x) b c w h eq_refl S) in Ev.
  destruct (Nat.eqb_spec (c * (w * (h * 1))) 0) as [E0|E0]; [discriminate|].
  injection Ev as <-.
  destruct (conv_pipeline_Ok _ _ _ _ _ Ep) as (Hb & Sp & Wp & El & RM).
  rewrite El in E. apply split_sized_Ok in E as (_ & E); [|exact RM].
  exists p, b, c, w, h. repeat split; auto.
Qed.

Lemma domain_forward_Ok sd n L mode (idx : list Z) (mu lv : Tensor R) e' :
  DomainEncoder.forward idx (DomainEncoder.train mode (DomainEncoder.init sd n L))
  = (Ok (mu, lv), e') ->
  exists p,
    DomainEncoder.mu_logvar idx (DomainEncoder.train mode (DomainEncoder.init sd n L))
    = (Ok p, e') /\
    shape p = [length idx; L * 2] /\ wf p /\ (mu, lv) = halves (length idx) L (data p).
Proof.
  unfold DomainEncoder.forward. intros E.
  inv_bindM E as p s1 Ep. injection E as E <-.
  pose proof Ep as Ep'. unfold DomainEncoder.mu_logvar in Ep.
  inv_bindM Ep as h0 s0 Eh. injection Eh as Eh <-. apply within_Ok in Eh.
  inv_bindM Ep as y s2 Ey. unfold DomainEncoder.call_bn in Ey.
  destruct (batch_norm _ h0) as [r bn'] eqn:Eb. injection Ey as Ey <-.
  apply within_Ok in Ey. subst r.
  injection Ep as Ep <-. apply within_Ok in Ep.
  unfold embedding in Eh. destruct (forallb _ idx); [|discriminate].
  injection Eh as <-.
  apply batch_norm_shape in Eb as (Sy & _).
  cbn [DomainEncoder.mu_logvar_gen DomainEncoder.set_bn DomainEncoder.train
       DomainEncoder.init DomainEncoder.latent_dim DomainEncoder.embed
       embedding_dim Embedding_init embedding_out shape] in *.
  eapply linear_2d_Ok in Ep as (_ & Ep & Sp & Wp); [|exact Sy].
  assert (RM : row_major p) by (rewrite Ep; reflexivity).
  apply split_sized_Ok in E as (_ & E); [|exact RM].
  exists p. repeat split; auto.
Qed.

End ForwardInversion.

Section ForwardRuns.
Context {R : Type} `{Scalar R}.

Lemma out_size_halve h : 2 <= h -> out_size h 4 2 1 = h / 2.
Proof.
  intros Hh. unfold out_size.
  replace (h + 2 * 1 - 4) with (h - 2) by lia.
  replace (h / 2) with ((h - 2 + 1 * 2) / 2) by (f_equal; lia).
  now rewrite Nat.div_add by lia.
Qed.

Lemma out_size_keep h : 1 <= h -> out_size h 5 1 2 = h.
Proof. intros Hh. unfold out_size. rewrite Nat.div_1_r. lia. Qed.

Lemma conv_halve_run (l : Conv2d R) (x : Tensor R) b h w :
  suggest_memory_format x = Contiguous ->
  kernel_size l = 4 -> stride l = 2 -> padding l = 1 ->
  shape x = [b; in_channels l; h; w] -> 2 <= h -> 2 <= w ->
  exists y, conv2d l x = Ok y /\
            shape (relu y) = [b; out_channels l; h / 2; w / 2] /\ wf (relu y) /\
            row_major (relu y).
Proof.
  intros RM Hk Hs Hp S Hh Hw.
  exists (conv2d_out l b (in_channels l) h w (data x)). split; [|split; [|split]].
  - apply conv2d_run; auto; lia.
  - unfold conv2d_out. cbn [relu map_tensor shape]. rewrite Hk, Hs, Hp.
    now rewrite !out_size_halve.
  - apply wf_map_tensor, wf_conv2d_out.
  - reflexivity.
Qed.

Lemma conv_keep_run (l : Conv2d R) (x : Tensor R) b h w :
  suggest_memory_format x = Contiguous ->
  kernel_size l = 5 -> stride l = 1 -> padding l = 2 ->
  shape x = [b; in_channels l; h; w] -> 1 <= h -> 1 <= w ->
  exists y, conv2d l x = Ok y /\ shape y = [b; out_channels l; h; w] /\ wf y /\
            row_major y.
Proof.
  intros RM Hk Hs Hp S Hh Hw.
  exists (conv2d_out l b (in_channels l) h w (data x)). split; [|split; [|split]].
  - apply conv2d_run; auto; lia.
  - unfold conv2d_out. cbn [shape]. rewrite Hk, Hs, Hp.
    now rewrite !out_size_keep.
  - apply wf_conv2d_out.
  - reflexivity.
Qed.

Lemma pool_shape_run (x : Tensor R) b c h w :
  row_major x ->
  shape x = [b; c; h; w] -> 1 <= h -> 1 <= w ->
  exists y, max_pool2d 3 2 1 x = Ok y /\
            shape y = [b; c; pooled h; pooled w] /\ wf y /\ row_major y.
Proof.
  intros RM S Hh Hw.
  exists (max_pool2d_out 3 2 1 b c h w (data x)). split; [|split; [|split]].
  - apply max_pool2d_run; auto; lia.
  - reflexivity.
  - apply wf_max_pool2d_out.
  - reflexivity.
Qed.

Lemma pooled_pos h : 1 <= pooled h.
Proof. unfold pooled, out_size. lia. Qed.

Lemma burgess_convs_run sd c h w L (x : Tensor R) b hh ww :
  suggest_memory_format x = Contiguous ->
  shape x = [b; c; hh; ww] ->
  let k := if EncoderBurgess.is_64 (c, h, w) then 4 else 3 in
  1 <= hh / 2 ^ k -> 1 <= ww / 2 ^ k ->
  exists y, EncoderBurgess.convs (EncoderBurgess.init sd (c, h, w) L) x = Ok y /\
            shape y = [b; 32; hh / 2 ^ k; ww / 2 ^ k] /\ wf y /\ row_major y.
Proof.
  intros RM S k Hh Hw. unfold EncoderBurgess.convs.
  cbn [EncoderBurgess.conv1 EncoderBurgess.conv2 EncoderBurgess.conv3
       EncoderBurgess.conv_64 EncoderBurgess.img_size EncoderBurgess.init fst].
  assert (P4 : 2 ^ 4 = 16) by reflexivity. assert (P3 : 2 ^ 3 = 8) by reflexivity.
  assert (Hh8 : 8 <= hh)
    by (revert Hh; subst k; destruct (EncoderBurgess.is_64 _); rewrite ?P4, ?P3; lia).
  assert (Hw8 : 8 <= ww)
    by (revert Hw; subst k; destruct (EncoderBurgess.is_64 _); rewrite ?P4, ?P3; lia).
  destruct (@conv_halve_run (Conv2d_init sd "conv1" c 32 4 2 1) x b hh ww)
    as (y1 & E1 & S1 & W1 & R1); auto; try lia.
  rewrite E1. cbn [within bind].
  destruct (@conv_halve_run (Conv2d_init sd "conv2" 32 32 4 2 1) (relu y1) b (hh / 2) (ww / 2))
    as (y2 & E2 & S2 & W2 & R2); auto using row_major_suggest; try lia.
  rewrite E2. cbn [within bind].
  destruct (@conv_halve_run (Conv2d_init sd "conv3" 32 32 4 2 1) (relu y2) b
              (hh / 2 / 2) (ww / 2 / 2))
    as (y3 & E3 & S3 & W3 & R3); auto using row_major_suggest; try lia.
  rewrite E3. cbn [within bind].
  revert Hh Hw. subst k. destruct (EncoderBurgess.is_64 (c, h, w)); intros Hh Hw.
  - rewrite P4 in *.
    destruct (@conv_halve_run (Conv2d_init sd "conv_64" 32 32 4 2 1) (relu y3) b
                (hh / 2 / 2 / 2) (ww / 2 / 2 / 2))
      as (y4 & E4 & S4 & W4 & R4); auto using row_major_suggest; try lia.
    rewrite E4. cbn [within bind].
    exists (relu y4). split; [reflexivity|]. split; [|split; [exact W4 | exact R4]].
    rewrite S4. cbn [out_channels Conv2d_init].
    replace (hh / 2 / 2 / 2 / 2) with (hh / 16) by lia.
    replace (ww / 2 / 2 / 2 / 2) with (ww / 16) by lia. reflexivity.
  - exists (relu y3). split; [reflexivity|]. split; [|split; [exact W3 | exact R3]].
    rewrite S3, P3. cbn [out_channels Conv2d_init].
    replace (hh / 2 / 2 / 2) with (hh / 8) by lia.
    replace (ww / 2 / 2 / 2) with (ww / 8) by lia. reflexivity.
Qed.

(** Lines 82-91 once the convolutions have returned [h] and the reshape
    [v]: with [b * 512] elements (and a positive latent_dim) the rest of
    forward returns. *)
Lemma burgess_tail_run sd img L (x h v : Tensor R) b rest :
  shape x = b :: rest -> 1 <= L ->
  EncoderBurgess.convs (EncoderBurgess.init sd img L) x = Ok h ->
  view h [Z.of_nat b; (-1)%Z] = Ok v ->
  numel (shape h) = b * 512 ->
  exists p,
    EncoderBurgess.mu_logvar (EncoderBurgess.init sd img L) x = Ok p /\
    shape p = [b; L * 2] /\
    EncoderBurgess.forward (EncoderBurgess.init sd img L) x = Ok (halves b L (data p)).
Proof.
  intros S HL Eh Ev Hn.
  pose proof (view_flatten_any _ _ Ev) as (Hb & _ & Sv & _).
  rewrite Hn, Nat.mul_comm, Nat.div_mul in Sv by exact Hb.
  assert (Em : exists p,
    EncoderBurgess.mu_logvar (EncoderBurgess.init sd img L) x = Ok p /\
    shape p = [b; L * 2] /\ row_major p).
  { unfold EncoderBurgess.mu_logvar, EncoderBurgess.batch_size.
    rewrite S. cbn [bind]. rewrite Eh. cbn [bind]. rewrite Ev. cbn [within bind].
    cbn [EncoderBurgess.lin1 EncoderBurgess.lin2 EncoderBurgess.mu_logvar_gen
         EncoderBurgess.init].
    rewrite (@linear_2d_run _ _ (Linear_init sd "lin1" (32 * 4 * 4) 256) v b) by exact Sv.
    cbn [within bind].
    rewrite (@linear_2d_run _ _ (Linear_init sd "lin2" 256 256) _ b) by reflexivity.
    cbn [within bind].
    rewrite (@linear_2d_run _ _ (Linear_init sd "mu_logvar_gen" 256 (L * 2)) _ b)
      by reflexivity.
    cbn [within]. eexists. split; [reflexivity|]. split; reflexivity. }
  destruct Em as (p & Ep & Sp & RM). exists p. repeat split; auto.
  unfold EncoderBurgess.forward. rewrite Ep. cbn [bind].
  cbn [EncoderBurgess.latent_dim EncoderBurgess.init].
  rewrite (split_mu_logvar_infer _ RM), Sp.
  change (numel [b; L * 2]) with (b * (L * 2 * 1)).
  replace (b * (L * 2 * 1)) with (b * (L * (2 * 1))) by lia.
  destruct (Nat.eqb_spec (L * (2 * 1)) 0); [lia|]. cbn [orb].
  rewrite Nat.Div0.mod_mul, Nat.div_mul by assumption. reflexivity.
Qed.

Lemma burgess_forward_run sd c h w L (x : Tensor R) b hh ww :
  suggest_memory_format x = Contiguous ->
  shape x = [b; c; hh; ww] -> 1 <= b -> 1 <= L ->
  let k := if EncoderBurgess.is_64 (c, h, w) then 4 else 3 in
  32 * (hh / 2 ^ k * (ww / 2 ^ k)) = 32 * 4 * 4 ->
  exists p,
    EncoderBurgess.mu_logvar (EncoderBurgess.init sd (c, h, w) L) x = Ok p /\
    shape p = [b; L * 2] /\
    EncoderBurgess.forward (EncoderBurgess.init sd (c, h, w) L) x
    = Ok (halves b L (data p)).
Proof.
  intros RM S Hb HL k Hk.
  destruct (@burgess_convs_run sd c h w L x b hh ww RM S) as (y & Ey & Sy & Wy & Ry);
    fold k; try nia.
  fold k in Sy.
  eapply burgess_tail_run;
    [exact S | exact HL | exact Ey | apply (view_flatten_run Ry Sy); lia |].
  rewrite Sy. cbn [numel fold_right]. rewrite Nat.mul_1_r. fold k. rewrite Hk. reflexivity.
Qed.

End ForwardRuns.

Section ConvRun.
Context {R : Type} `{Scalar R}.

Lemma call_run site (f : ConvEncoder.t R -> Tensor R -> result (Tensor R)) x s y :
  f s x = Ok y -> ConvEncoder.call site f x s = (Ok y, s).
Proof. unfold ConvEncoder.call. now intros ->. Qed.

Lemma call_bn_run get set site (x : Tensor R) (s : ConvEncoder.t R) y b' :
  batch_norm (get s) x = (Ok y, b') ->
  ConvEncoder.call_bn get set site x s = (Ok y, set s b').
Proof. unfold ConvEncoder.call_bn. now intros ->. Qed.

Lemma pool_run (x : Tensor R) (s : ConvEncoder.t R) y :
  max_pool2d 3 2 1 x = Ok y -> ConvEncoder.pool x s = (Ok y, s).
Proof. unfold ConvEncoder.pool, lift. now intros ->. Qed.

Lemma bn2d_run (bn : BatchNorm R) (x : Tensor R) b h w :
  row_major x ->
  bn_kind bn = BN2d -> shape x = [b; num_features bn; h; w] ->
  (bn_training bn = true -> 2 <= b) ->
  exists y bn', batch_norm bn x = (Ok y, bn') /\
                shape (leaky_relu y) = [b; num_features bn; h; w] /\ wf (leaky_relu y) /\
                row_major (leaky_relu y).
Proof.
  intros RM Hk S Hb.
  destruct (@batch_norm_run _ _ bn x b [h; w]) as (y & bn' & E & Sy & Wy & Ry).
  - exact S.
  - rewrite S, Hk. reflexivity.
  - intros Ht E. specialize (Hb Ht). apply Nat.eq_mul_1 in E. lia.
  - exists y, bn'. split; [exact E|].
    split; [|split; [now apply wf_map_tensor | exact (Ry RM)]].
    cbn [leaky_relu map_tensor shape]. now rewrite Sy.
Qed.

Lemma bn1d_run (bn : BatchNorm R) (x : Tensor R) b :
  bn_kind bn = BN1d -> shape x = [b; num_features bn] ->
  (bn_training bn = true -> 2 <= b) ->
  exists y bn', batch_norm bn x = (Ok y, bn') /\
                shape (leaky_relu y) = [b; num_features bn] /\ wf (leaky_relu y).
Proof.
  intros Hk S Hb.
  destruct (@batch_norm_run _ _ bn x b []) as (y & bn' & E & Sy & Wy & _).
  - exact S.
  - rewrite S, Hk. reflexivity.
  - intros Ht E. specialize (Hb Ht). apply Nat.eq_mul_1 in E. lia.
  - exists y, bn'. split; [exact E|]. split; [|now apply wf_map_tensor].
    cbn [leaky_relu map_tensor shape]. now rewrite Sy.
Qed.

Ltac run_with L E := erewrite bindM_run; [| apply L; exact E].

(** The pipeline of lines 117-124 on a row-major batch of the fitting
    shape. *)
Lemma conv_pipeline_run sd L mode (x : Tensor R) b hh ww :
  row_major x ->
  shape x = [b; 3; hh; ww] -> 1 <= hh -> 1 <= ww -> 1 <= b ->
  (mode = true -> 2 <= b) ->
  128 * (pooled (pooled hh) * pooled (pooled ww)) = 128 * 8 * 8 ->
  exists p e',
    ConvEncoder.pipeline b x (ConvEncoder.train mode (ConvEncoder.init sd L)) = (Ok p, e') /\
    shape p = [b; L * 2] /\ ConvEncoder.latent_dim e' = L /\ row_major p.
Proof.
  intros RM S Hh Hw Hb Hm Hf.
  set (e0 := ConvEncoder.train mode (ConvEncoder.init sd L)).
  unfold ConvEncoder.pipeline.
  (* conv1, bn1, pool *)
  destruct (@conv_keep_run _ _ (ConvEncoder.conv1 e0) x b hh ww)
    as (t1 & E1 & S1 & _ & R1); auto using row_major_suggest.
  run_with call_run E1.
  destruct (@bn2d_run (ConvEncoder.bn1 e0) t1 b hh ww R1 eq_refl S1 Hm)
    as (t2 & bn1' & E2 & S2 & _ & R2).
  run_with call_bn_run E2.
  destruct (pool_shape_run R2 S2 Hh Hw) as (t3 & E3 & S3 & _ & R3).
  run_with pool_run E3.
  (* conv2, bn2, pool *)
  destruct (@conv_keep_run _ _ (ConvEncoder.conv2 e0) t3 b (pooled hh) (pooled ww))
    as (t4 & E4 & S4 & _ & R4); auto using pooled_pos, row_major_suggest.
  run_with call_run E4.
  destruct (@bn2d_run (ConvEncoder.bn2 e0) t4 b (pooled hh) (pooled ww) R4 eq_refl S4 Hm)
    as (t5 & bn2' & E5 & S5 & _ & R5).
  run_with call_bn_run E5.
  destruct (pool_shape_run R5 S5 (pooled_pos hh) (pooled_pos ww)) as (t6 & E6 & S6 & _ & R6).
  run_with pool_run E6.
  (* conv3, bn3 *)
  destruct (@conv_keep_run _ _ (ConvEncoder.conv3 e0) t6 b
              (pooled (pooled hh)) (pooled (pooled ww)))
    as (t7 & E7 & S7 & _ & R7); auto using pooled_pos, row_major_suggest.
  run_with call_run E7.
  destruct (@bn2d_run (ConvEncoder.bn3 e0) t7 b (pooled (pooled hh)) (pooled (pooled ww))
              R7 eq_refl S7 Hm)
    as (t8 & bn3' & E8 & S8 & _ & R8).
  run_with call_bn_run E8.
  (* view *)
  assert (E9 : lift (S := ConvEncoder.t R)
                 (within "view" (view (leaky_relu t8) [Z.of_nat b; (-1)%Z]))
                 (ConvEncoder.set_bn3 (ConvEncoder.set_bn2 (ConvEncoder.set_bn1 e0 bn1') bn2') bn3')
               = (Ok (mkTensor [b; in_features (ConvEncoder.fc1 e0)] (data (leaky_relu t8))),
                  ConvEncoder.set_bn3 (ConvEncoder.set_bn2 (ConvEncoder.set_bn1 e0 bn1') bn2') bn3')).
  { unfold lift. rewrite (view_flatten_run R8 S8) by lia. cbn [within].
    do 3 f_equal;
      cbn [num_features ConvEncoder.bn3 e0 ConvEncoder.train ConvEncoder.init
             set_training BatchNorm_init ConvEncoder.fc1 in_features Linear_init
             numel fold_right];
      replace (128 * (pooled (pooled hh) * (pooled (pooled ww) * 1))) with (128 * 8 * 8)
        by lia; reflexivity. }
  erewrite bindM_run; [| exact E9].
  (* fc1, bn1_fc *)
  run_with call_run
    (@linear_2d_run _ _ (ConvEncoder.fc1 e0)
       (mkTensor [b; in_features (ConvEncoder.fc1 e0)] (data (leaky_relu t8))) b eq_refl).
  destruct (@bn1d_run (ConvEncoder.bn1_fc e0)
              (linear_out (ConvEncoder.fc1 e0) [b] (in_features (ConvEncoder.fc1 e0))
                 (data (leaky_relu t8))) b eq_refl eq_refl Hm)
    as (y2 & bn4' & E11 & S11 & _).
  run_with call_bn_run E11.
  (* fc2, bn2_fc *)
  run_with call_run (@linear_2d_run _ _ (ConvEncoder.fc2 e0) _ b S11).
  destruct (@bn1d_run (ConvEncoder.bn2_fc e0)
              (linear_out (ConvEncoder.fc2 e0) [b] (in_features (ConvEncoder.fc2 e0))
                 (data (leaky_relu y2))) b eq_refl eq_refl Hm)
    as (y4 & bn5' & E13 & S13 & _).
  run_with call_bn_run E13.
  (* mu_logvar_gen *)
  erewrite call_run; [| exact (@linear_2d_run _ _ (ConvEncoder.mu_logvar_gen e0) _ b S13)].
  eexists _, _. split; [reflexivity|]. split; [reflexivity|]. split; reflexivity.
Qed.

(** The initial reshape of ConvEncoder.forward, on the row-major copy of a
    4-D input without an empty dimension among the last three. *)
Lemma conv_view_run (x : Tensor R) b c w h (s : ConvEncoder.t R) :
  shape x = [b; c; w; h] -> c * (w * (h * 1)) <> 0 ->
  lift (within "view"
          (view (contiguous x) [(-1)%Z; Z.of_nat c; Z.of_nat w; Z.of_nat h])) s
  = (Ok (contiguous x), s).
Proof.
  intros S Hz. unfold lift.
  rewrite (view_batch4_id (x := contiguous x) eq_refl S).
  destruct (Nat.eqb_spec (c * (w * (h * 1))) 0); [contradiction | reflexivity].
Qed.

Lemma conv_forward_run sd L mode (x : Tensor R) b hh ww :
  shape x = [b; 3; hh; ww] -> 1 <= hh -> 1 <= ww -> 1 <= b ->
  (mode = true -> 2 <= b) ->
  128 * (pooled (pooled hh) * pooled (pooled ww)) = 128 * 8 * 8 ->
  exists p e',
    ConvEncoder.mu_logvar x (ConvEncoder.train mode (ConvEncoder.init sd L)) = (Ok p, e') /\
    shape p = [b; L * 2] /\
    ConvEncoder.forward x (ConvEncoder.train mode (ConvEncoder.init sd L))
    = (Ok (halves b L (data p)), e').
Proof.
  intros S Hh Hw Hb Hm Hf.
  set (e0 := ConvEncoder.train mode (ConvEncoder.init sd L)).
  destruct (@conv_pipeline_run sd L mode (contiguous x) b hh ww eq_refl S Hh Hw Hb Hm Hf)
    as (p & e' & Ep & Sp & El & RM).
  fold e0 in Ep.
  assert (Em : ConvEncoder.mu_logvar x e0 = (Ok p, e')).
  { unfold ConvEncoder.mu_logvar. rewrite S.
    erewrite bindM_run; [| apply conv_view_run with (1 := S); nia]. exact Ep. }
  exists p, e'. split; [exact Em|]. split; [exact Sp|].
  unfold ConvEncoder.forward. rewrite S. erewrite bindM_run; [| exact Em].
  rewrite El, (split_mu_logvar_sized _ _ RM), Sp.
  replace (numel [b; L * 2] =? b * (L * (2 * 1))) with true
    by (symmetry; apply Nat.eqb_eq; cbn; lia).
  reflexivity.
Qed.

End ConvRun.

Section ForwardAgree.
Context {R : Type} `{Scalar R}.

Lemma burgess_forward_agree sd img L i (x1 x2 mu1 lv1 mu2 lv2 : Tensor R) :
  length (shape x1) = 4 ->
  agree_at i x1 x2 ->
  EncoderBurgess.forward (EncoderBurgess.init sd img L) x1 = Ok (mu1, lv1) ->
  EncoderBurgess.forward (EncoderBurgess.init sd img L) x2 = Ok (mu2, lv2) ->
  agree_at i mu1 mu2 /\ agree_at i lv1 lv2.
Proof.
  intros H4 A E1 E2.
  apply burgess_forward_Ok in E1 as (p1 & b1 & P1 & _ & S1 & _ & H1).
  apply burgess_forward_Ok in E2 as (p2 & b2 & P2 & _ & S2 & _ & H2).
  pose proof (burgess_mu_logvar_agree _ _ _ H4 A P1 P2) as Ap.
  destruct (@halves_agree _ _ i p1 p2 _ _ L S1 S2 Ap) as (Am & Al).
  rewrite <- H1, <- H2 in Am, Al. auto.
Qed.

Lemma conv_forward_agree sd L i (x1 x2 mu1 lv1 mu2 lv2 : Tensor R) e1 e2 :
  agree_at i x1 x2 ->
  ConvEncoder.forward x1 (ConvEncoder.train false (ConvEncoder.init sd L))
  = (Ok (mu1, lv1), e1) ->
  ConvEncoder.forward x2 (ConvEncoder.train false (ConvEncoder.init sd L))
  = (Ok (mu2, lv2), e2) ->
  agree_at i mu1 mu2 /\ agree_at i lv1 lv2.
Proof.
  intros A E1 E2.
  apply conv_forward_Ok in E1 as (p1 & b1 & c1 & w1 & h1 & X1 & _ & _ & P1 & S1 & _ & H1).
  apply conv_forward_Ok in E2 as (p2 & b2 & c2 & w2 & h2 & X2 & _ & _ & P2 & S2 & _ & H2).
  assert (Ap : agree_at i p1 p2).
  { eapply (@conv_pipeline_agree _ _ (ConvEncoder.train false (ConvEncoder.init sd L)));
      [reflexivity | | exact (agree_at_contiguous A) | | | exact P1 | exact P2].
    - cbn [contiguous shape]. now rewrite X1.
    - cbn [contiguous shape]. now rewrite X1.
    - cbn [contiguous shape]. now rewrite X2. }
  destruct (@halves_agree _ _ i p1 p2 _ _ L S1 S2 Ap) as (Am & Al).
  rewrite <- H1, <- H2 in Am, Al. auto.
Qed.

Lemma domain_mu_logvar_agree (self : DomainEncoder.t R) i (idx1 idx2 : list Z)
    (p1 p2 : Tensor R) e1 e2 :
  bn_training (DomainEncoder.bn self) = false ->
  i < length idx1 -> i < length idx2 -> nth i idx1 0%Z = nth i idx2 0%Z ->
  DomainEncoder.mu_logvar idx1 self = (Ok p1, e1) ->
  DomainEncoder.mu_logvar idx2 self = (Ok p2, e2) ->
  agree_at i p1 p2.
Proof.
  intros Ht I1 I2 En. unfold DomainEncoder.mu_logvar. intros E F.
  inv_bindM E as h1 s1 Eh. injection Eh as Eh <-. apply within_Ok in Eh.
  inv_bindM E as y1 s2 Ey. unfold DomainEncoder.call_bn in Ey.
  destruct (batch_norm _ h1) as [r1 bn1] eqn:Eb. injection Ey as Ey <-.
  apply within_Ok in Ey. subst r1. injection E as E _. apply within_Ok in E.
  inv_bindM F as k1 r1 Fh. injection Fh as Fh <-. apply within_Ok in Fh.
  inv_bindM F as z1 r2 Fy. unfold DomainEncoder.call_bn in Fy.
  destruct (batch_norm _ k1) as [q1 bn2] eqn:Fb. injection Fy as Fy <-.
  apply within_Ok in Fy. subst q1. injection F as F _. apply within_Ok in F.
  unfold embedding in Eh, Fh.
  destruct (forallb _ idx1); [|discriminate]. destruct (forallb _ idx2); [|discriminate].
  injection Eh as <-. injection Fh as <-.
  cbn [DomainEncoder.mu_logvar_gen DomainEncoder.set_bn] in E, F.
  assert (A0 : stage i (length idx1) (length idx2)
                 (embedding_out (DomainEncoder.embed self) idx1)
                 (embedding_out (DomainEncoder.embed self) idx2)).
  { repeat split; auto using wf_embedding_out, embedding_agree. }
  pose proof (map_stage leaky_relu_s (bn_eval_stage _ Ht A0 Eb Fb)) as A1.
  apply batch_norm_shape in Eb as (S1 & _). apply batch_norm_shape in Fb as (S2 & _).
  cbn [embedding_out shape] in S1, S2.
  destruct (linear_stage _ (x1 := leaky_relu y1) (x2 := leaky_relu z1) S1 S2 A1 E F)
    as (A2 & _).
  apply A2.
Qed.

Lemma domain_forward_agree sd n L i (idx1 idx2 : list Z) (mu1 lv1 mu2 lv2 : Tensor R) e1 e2 :
  i < length idx1 -> i < length idx2 -> nth i idx1 0%Z = nth i idx2 0%Z ->
  DomainEncoder.forward idx1 (DomainEncoder.train false (DomainEncoder.init sd n L))
  = (Ok (mu1, lv1), e1) ->
  DomainEncoder.forward idx2 (DomainEncoder.train false (DomainEncoder.init sd n L))
  = (Ok (mu2, lv2), e2) ->
  agree_at i mu1 mu2 /\ agree_at i lv1 lv2.
Proof.
  intros I1 I2 En E1 E2.
  apply domain_forward_Ok in E1 as (p1 & P1 & S1 & _ & H1).
  apply domain_forward_Ok in E2 as (p2 & P2 & S2 & _ & H2).
  assert (Ap : agree_at i p1 p2)
    by exact (@domain_mu_logvar_agree
                (DomainEncoder.train false (DomainEncoder.init sd n L))
                i idx1 idx2 p1 p2 e1 e2 eq_refl I1 I2 En P1 P2).
  destruct (@halves_agree _ _ i p1 p2 _ _ L S1 S2 Ap) as (Am & Al).
  rewrite <- H1, <- H2 in Am, Al. auto.
Qed.

Lemma halves_get2 b l (p : Tensor R) n j :
  shape p = [b; l * 2] -> n < b -> j < l ->
  get2 (fst (halves b l (data p))) n j = get2 p n (2 * j) /\
  get2 (snd (halves b l (data p))) n j = get2 p n (2 * j + 1).
Proof.
  intros S Hn Hj. unfold get2, halves, select_last. rewrite S.
  cbn [fst snd shape data nth].
  assert (Eb : numel [b; l] = b * l) by (cbn; lia). rewrite Eb.
  rewrite !at_tabulate by (apply sample_bound; assumption).
  split; f_equal; lia.
Qed.

End ForwardAgree.

(** * The contract of the forward pass *)

Section ForwardContract.
Context {R : Type} `{Scalar R}.

Lemma eval_mode_train_conv sd L mode :
  eval_mode (Conv (ConvEncoder.train mode (ConvEncoder.init sd L))) = negb mode.
Proof. destruct mode; reflexivity. Qed.

(** C1, as the code has it.  The forward pass of each of the three encoders
    returns a pair (mean, logvar) of tensors of shape (b, latent_dim),
    latent_dim the (positive) dimension the encoder was constructed with,
    for a batch of [b] samples that the layers reduce to the fixed width of
    the first fully connected layer ([input_fits]: not every image of the
    declared size is one), laid out as the encoder can flatten it
    ([layout_fits]: not channels-last for EncoderBurgess), with [b] at least
    1, and at least 2 while a batch normalisation is in training mode
    ([valid_batch]). *)
Theorem forward_output_shape sd (cfg : Config) (mode : bool) (inp : Input R) (b : nat) :
  1 <= cfg_latent_dim cfg ->
  declares_channels cfg ->
  input_fits cfg inp b ->
  layout_fits cfg inp ->
  valid_batch (train mode (construct sd cfg)) b ->
  exists mu logvar enc',
    forward (train mode (construct sd cfg)) inp = (Ok (mu, logvar), enc') /\
    shape mu = [b; cfg_latent_dim cfg] /\ shape logvar = [b; cfg_latent_dim cfg] /\
    wf mu /\ wf logvar.
Proof.
  intros HL Hc Hfit Hlay Hb.
  destruct cfg as [[[c h] w] L | L | n L]; destruct inp as [x | idx];
    cbn [input_fits] in Hfit; try contradiction;
    cbn [cfg_latent_dim construct train forward layout_fits] in *.
  - (* EncoderBurgess *)
    destruct Hfit as (hh & ww & S & Hk). unfold valid_batch in Hb. cbn [eval_mode] in Hb.
    destruct (@burgess_forward_run _ _ sd c h w L x b hh ww Hlay S Hb HL Hk) as (p & _ & _ & E).
    rewrite E. eexists _, _, _. split; [reflexivity|].
    pose proof (wf_halves b L (data p)) as (W1 & W2). repeat split; assumption.
  - (* ConvEncoder *)
    destruct Hfit as (hh & ww & S & Hh & Hw & Hf).
    unfold valid_batch in Hb. cbn [train construct] in Hb.
    rewrite eval_mode_train_conv in Hb.
    assert (H1 : 1 <= b) by (destruct mode; cbn in Hb; lia).
    assert (H2 : mode = true -> 2 <= b) by (intros ->; exact Hb).
    destruct (@conv_forward_run _ _ sd L mode x b hh ww S Hh Hw H1 H2 Hf)
      as (p & e' & _ & _ & E).
    unfold on_state. rewrite E. cbn [fst snd]. eexists _, _, _. split; [reflexivity|].
    pose proof (wf_halves b L (data p)) as (W1 & W2). repeat split; assumption.
  - (* DomainEncoder *)
    destruct Hfit as (Hlen & Hr). unfold valid_batch in Hb. cbn [train construct eval_mode] in Hb.
    assert (H2 : mode = true -> length idx <> 1).
    { intros ->. cbn in Hb. lia. }
    destruct (@domain_forward_run _ _ sd n L mode idx Hr H2) as (p & e' & _ & _ & E).
    unfold on_state. rewrite E. cbn [fst snd]. subst b.
    eexists _, _, _. split; [reflexivity|].
    pose proof (wf_halves (length idx) L (data p)) as (W1 & W2). repeat split; assumption.
Qed.

(** C3.  Whenever a forward pass returns (mean, logvar), the final linear
    projection returned a (b, 2 * latent_dim) tensor of which, sample by
    sample, the mean is the even-indexed and the logvar the odd-indexed
    components: [mean[n, j] = mu_logvar[n, 2j]] and
    [logvar[n, j] = mu_logvar[n, 2j + 1]]. *)
Theorem mean_logvar_interleaved sd (cfg : Config) (mode : bool) (inp : Input R)
    (mu logvar : Tensor R) (enc' : Encoder R) :
  forward (train mode (construct sd cfg)) inp = (Ok (mu, logvar), enc') ->
  exists p b,
    mu_logvar (train mode (construct sd cfg)) inp = (Ok p, enc') /\
    shape p = [b; 2 * cfg_latent_dim cfg] /\
    shape mu = [b; cfg_latent_dim cfg] /\ shape logvar = [b; cfg_latent_dim cfg] /\
    forall n j, n < b -> j < cfg_latent_dim cfg ->
      get2 mu n j = get2 p n (2 * j) /\ get2 logvar n j = get2 p n (2 * j + 1).
Proof.
  intros E.
  assert (G : exists p b,
    mu_logvar (train mode (construct sd cfg)) inp = (Ok p, enc') /\
    shape p = [b; cfg_latent_dim cfg * 2] /\
    (mu, logvar) = halves b (cfg_latent_dim cfg) (data p)).
  { destruct cfg as [img L | L | n L]; destruct inp as [x | idx];
      cbn [cfg_latent_dim construct train forward mu_logvar on_state] in *;
      try discriminate E.
    - injection E as E <-.
      apply burgess_forward_Ok in E as (p & b & P & _ & S & _ & Hh).
      exists p, b. rewrite P. auto.
    - destruct (ConvEncoder.forward x _) as [r e1] eqn:F. cbn [fst snd] in E.
      injection E as -> <-.
      apply conv_forward_Ok in F as (p & b & c & w & h & _ & _ & P & _ & S & _ & Hh).
      exists p, b. rewrite P. auto.
    - destruct (DomainEncoder.forward idx _) as [r e1] eqn:F. cbn [fst snd] in E.
      injection E as -> <-.
      apply domain_forward_Ok in F as (p & P & S & _ & Hh).
      exists p, (length idx). rewrite P. auto. }
  destruct G as (p & b & P & S & Hh).
  exists p, b. split; [exact P|].
  assert (Em : mu = fst (halves b (cfg_latent_dim cfg) (data p))) by now rewrite <- Hh.
  assert (El : logvar = snd (halves b (cfg_latent_dim cfg) (data p))) by now rewrite <- Hh.
  subst mu logvar.
  split; [rewrite S; f_equal; f_equal; lia|].
  split; [reflexivity|]. split; [reflexivity|].
  intros n j Hn Hj. now apply halves_get2.
Qed.

(** C6, for the encoders without batch-dependent statistics.  For
    EncoderBurgess, and for ConvEncoder and DomainEncoder in evaluation mode:
    two input batches of the same size that agree on sample [i] give means
    and logvars that agree on sample [i]. *)
Theorem no_coupling_in_eval_mode sd (cfg : Config) (mode : bool) (i : nat)
    (inp1 inp2 : Input R) (mu1 lv1 mu2 lv2 : Tensor R) (e1 e2 : Encoder R) :
  eval_mode (train mode (construct sd cfg)) = true ->
  same_size inp1 inp2 ->
  input_agree i inp1 inp2 ->
  forward (train mode (construct sd cfg)) inp1 = (Ok (mu1, lv1), e1) ->
  forward (train mode (construct sd cfg)) inp2 = (Ok (mu2, lv2), e2) ->
  agree_at i mu1 mu2 /\ agree_at i lv1 lv2.
Proof.
  intros Hev Hsz A E1 E2.
  destruct cfg as [img L | L | n L]; destruct inp1 as [x1 | idx1], inp2 as [x2 | idx2];
    cbn [construct train forward input_agree on_state same_size] in *;
    try contradiction; try discriminate E1; try discriminate E2.
  - injection E1 as E1 _. injection E2 as E2 _.
    exact (@burgess_forward_agree _ _ sd img L i x1 x2 mu1 lv1 mu2 lv2 (proj1 Hsz) A E1 E2).
  - rewrite eval_mode_train_conv in Hev. destruct mode; [discriminate|].
    destruct (ConvEncoder.forward x1 _) as [r1 s1] eqn:F1.
    destruct (ConvEncoder.forward x2 _) as [r2 s2] eqn:F2.
    cbn [fst snd] in E1, E2. injection E1 as -> _. injection E2 as -> _.
    exact (@conv_forward_agree _ _ sd L i x1 x2 mu1 lv1 mu2 lv2 s1 s2 A F1 F2).
  - destruct mode; [discriminate|].
    destruct (DomainEncoder.forward idx1 _) as [r1 s1] eqn:F1.
    destruct (DomainEncoder.forward idx2 _) as [r2 s2] eqn:F2.
    cbn [fst snd] in E1, E2. injection E1 as -> _. injection E2 as -> _.
    destruct A as (I1 & I2 & En).
    exact (@domain_forward_agree _ _ sd n L i idx1 idx2 mu1 lv1 mu2 lv2 s1 s2 I1 I2 En F1 F2).
Qed.

End ForwardContract.

(** * State, assertions and errors *)

Section NoAssertion.
Context {R : Type} `{Scalar R}.

Lemma bindM_never_asserts {S A B} (m : M S A) (k : A -> M S B) :
  never_asserts m -> (forall a, never_asserts (k a)) -> never_asserts (bindM m k).
Proof.
  intros Hm Hk s site. unfold bindM. specialize (Hm s).
  destruct (m s) as [[a|e st] s']; cbn [fst] in *.
  - apply Hk.
  - intros E. injection E as -> ->. now apply (Hm site).
Qed.

Lemma within_not_assertion {A} site (r : result A) :
  not_assertion r -> not_assertion (within site r).
Proof.
  intros Hr site' E. destruct r as [a|e st]; cbn in E; [discriminate|].
  injection E as -> _. now apply (Hr st).
Qed.

Lemma infer_size_not_assertion req n : not_assertion (infer_size req n).
Proof.
  unfold infer_size. intros site E.
  repeat match type of E with
         | context [if ?t then _ else _] => destruct t
         end; discriminate.
Qed.

Lemma view_not_assertion (x : Tensor R) req : not_assertion (view x req).
Proof.
  unfold view. intros site E.
  destruct (infer_size req (numel (shape x))) as [s|e st] eqn:I; cbn [bind] in E.
  - destruct (compute_stride _ _ _); discriminate.
  - injection E as -> ->. now apply infer_size_not_assertion in I.
Qed.

Lemma conv2d_batched_not_assertion (l : Conv2d R) (x : Tensor R) :
  not_assertion (conv2d_batched l x).
Proof.
  unfold conv2d_batched. intros site E.
  destruct (shape x) as [|n [|c [|h [|w [|? ?]]]]]; try discriminate.
  repeat match type of E with
         | context [if ?t then _ else _] => destruct t
         end; discriminate.
Qed.

Lemma conv2d_not_assertion (l : Conv2d R) (x : Tensor R) : not_assertion (conv2d l x).
Proof.
  unfold conv2d. intros site E.
  destruct (length (shape x) =? 3).
  - destruct (conv2d_batched l (unsqueeze0 x)) as [y|e st] eqn:C; cbn [bind] in E;
      [discriminate|].
    injection E as -> ->. now apply conv2d_batched_not_assertion in C.
  - now apply conv2d_batched_not_assertion in E.
Qed.

Lemma max_pool2d_not_assertion k s p (x : Tensor R) : not_assertion (max_pool2d k s p x).
Proof.
  unfold max_pool2d. intros site E.
  destruct (shape x) as [|n [|c [|h [|w [|? ?]]]]]; try discriminate.
  repeat match type of E with
         | context [if ?t then _ else _] => destruct t
         end; discriminate.
Qed.

Lemma linear_not_assertion (l : Linear R) (x : Tensor R) : not_assertion (linear l x).
Proof.
  unfold linear. intros site E.
  destruct (rev (shape x)); try discriminate.
  destruct (_ =? _); discriminate.
Qed.

Lemma batch_norm_not_assertion (bn : BatchNorm R) (x : Tensor R) :
  not_assertion (fst (batch_norm bn x)).
Proof.
  unfold batch_norm. intros site E.
  destruct (check_input_dim _ _); cbn [negb] in E; [|discriminate].
  destruct (shape x) as [|n [|c sp]]; try discriminate.
  repeat match type of E with
         | context [if ?t then _ else _] => destruct t; cbn [negb fst] in E
         end; discriminate.
Qed.

Lemma split_not_assertion b l (p : Tensor R) : not_assertion (split_mu_logvar b l p).
Proof.
  unfold split_mu_logvar. intros site E.
  destruct (view p _) as [v|e st] eqn:Ev; cbn [within bind] in E.
  - unfold unbind_last in E. destruct (rev (shape v)); cbn [bind] in E; [discriminate|].
    unfold unpack2 in E.
    repeat match type of E with
           | context [match ?t with _ => _ end] => destruct t
           end; discriminate.
  - injection E as -> _. eapply view_not_assertion. exact Ev.
Qed.

Lemma conv_pipeline_never_asserts b (h : Tensor R) :
  never_asserts (ConvEncoder.pipeline b h).
Proof.
  unfold ConvEncoder.pipeline.
  repeat first
    [ apply bindM_never_asserts; [|intros ?]
    | intros s; unfold ConvEncoder.call; cbn [fst]; apply within_not_assertion;
      first [apply conv2d_not_assertion | apply linear_not_assertion]
    | intros s; unfold ConvEncoder.pool, lift; cbn [fst]; apply within_not_assertion;
      apply max_pool2d_not_assertion
    | intros s; unfold lift; cbn [fst]; apply within_not_assertion;
      apply view_not_assertion
    | intros s; unfold ConvEncoder.call_bn;
      match goal with
      | |- context [batch_norm ?bn ?x] =>
          pose proof (batch_norm_not_assertion bn x);
          destruct (batch_norm bn x); cbn [fst] in *; now apply within_not_assertion
      end ].
Qed.

End NoAssertion.

Section StateAndErrors.
Context {R : Type} `{Scalar R}.

(** C5.  ConvEncoder.forward on an input that is not 4-dimensional fails at
    the assertion, before any layer runs (the module is returned as it was);
    on a 4-dimensional input the assertion passes: whatever the call does
    next, it does not raise AssertionError. *)
Theorem conv_forward_asserts_rank (self : ConvEncoder.t R) (inputs : Tensor R) :
  (length (shape inputs) <> 4 ->
   ConvEncoder.forward inputs self = (Raise AssertionError "assert", self)) /\
  (length (shape inputs) = 4 ->
   not_assertion (fst (ConvEncoder.forward inputs self))).
Proof.
  split.
  - intros Hr. unfold ConvEncoder.forward.
    destruct (shape inputs) as [|b [|c [|w [|h [|? ?]]]]]; try reflexivity.
    now contradiction Hr.
  - intros Hr. unfold ConvEncoder.forward, ConvEncoder.mu_logvar.
    destruct (shape inputs) as [|b [|c [|w [|h [|? ?]]]]]; try discriminate Hr.
    apply bindM_never_asserts.
    + apply bindM_never_asserts.
      * intros s. unfold lift. cbn [fst]. apply within_not_assertion, view_not_assertion.
      * intros a. apply conv_pipeline_never_asserts.
    + intros p s. cbn [fst]. apply split_not_assertion.
Qed.






Lemma forallb_in_range n (idx : list Z) :
  forallb (in_range n) idx = true <-> Forall (fun i => (0 <= i < Z.of_nat n)%Z) idx.
Proof.
  rewrite forallb_forall, Forall_forall. unfold in_range.
  split; intros Hall i Hi; specialize (Hall i Hi).
  - apply andb_true_iff in Hall as (H1 & H2).
    apply Z.leb_le in H1. apply Z.ltb_lt in H2. lia.
  - apply andb_true_iff. split; [apply Z.leb_le | apply Z.ltb_lt]; lia.
Qed.

(** C8, as the code has it.  On a batch of domain indices DomainEncoder
    returns a (mean, logvar) pair of shape (batch, output_dim) when every
    index lies in [0, num_domains) and the batch is not a single sample
    given in training mode; when some index lies outside the range the
    embedding lookup raises IndexError and the module is left as it was; a
    single in-range sample in training mode is refused by the batch
    normalisation (ValueError). *)
Theorem domain_forward_defined sd (num_domains output_dim : nat) (mode : bool)
    (inputs : list Z) :
  let self := DomainEncoder.train mode (DomainEncoder.init sd num_domains output_dim) in
  let in_range_all := Forall (fun i => (0 <= i < Z.of_nat num_domains)%Z) inputs in
  (in_range_all -> (mode = true -> length inputs <> 1) ->
   exists (mu logvar : Tensor R) self',
     DomainEncoder.forward inputs self = (Ok (mu, logvar), self') /\
     shape mu = [length inputs; output_dim] /\ shape logvar = [length inputs; output_dim]) /\
  (~ in_range_all ->
   DomainEncoder.forward inputs self = (Raise IndexError "embed", self)) /\
  (in_range_all -> mode = true -> length inputs = 1 ->
   fst (DomainEncoder.forward inputs self) = Raise ValueError "bn").
Proof.
  intros self in_range_all. subst self in_range_all. split; [|split].
  - intros Hr Hb. apply forallb_in_range in Hr.
    destruct (@domain_forward_run _ _ sd num_domains output_dim mode inputs Hr Hb)
      as (p & e' & _ & _ & E).
    rewrite E. eexists _, _, _. split; [reflexivity|]. split; reflexivity.
  - intros Hr. apply domain_forward_index_error.
    destruct (forallb (in_range num_domains) inputs) eqn:E; [|reflexivity].
    apply forallb_in_range in E. contradiction.
  - intros Hr -> Hl.
    destruct inputs as [|i [|? ?]]; try discriminate Hl.
    apply domain_forward_single. apply forallb_in_range in Hr.
    cbn [forallb] in Hr. now rewrite andb_true_r in Hr.
Qed.

(** C10, as the code has it.  On a 4-dimensional input whose channel, width
    and height are all non-zero, [view(-1, channel, width, height)] returns
    what it is given, the contiguous input (line 116; the input itself when
    it is row-major already), and the forward pass equals the pipeline
    applied to the contiguous input directly.  With a zero among the three
    the reshape raises (the -1 is ambiguous), so forward fails there, before
    any layer. *)
Theorem conv_initial_view (self : ConvEncoder.t R) (inputs : Tensor R)
    (b c w h : nat) :
  shape inputs = [b; c; w; h] ->
  (c * w * h <> 0 ->
   view (contiguous inputs) [(-1)%Z; Z.of_nat c; Z.of_nat w; Z.of_nat h]
   = Ok (contiguous inputs) /\
   (row_major inputs ->
    view inputs [(-1)%Z; Z.of_nat c; Z.of_nat w; Z.of_nat h] = Ok inputs) /\
   ConvEncoder.forward inputs self = ConvEncoder.forward_without_view inputs self) /\
  (c * w * h = 0 ->
   view (contiguous inputs) [(-1)%Z; Z.of_nat c; Z.of_nat w; Z.of_nat h]
   = Raise RuntimeError "view" /\
   ConvEncoder.forward inputs self = (Raise RuntimeError "view", self)).
Proof.
  intros S. pose proof (view_batch4_id (x := contiguous inputs) eq_refl S) as Ev.
  unfold ConvEncoder.forward, ConvEncoder.forward_without_view, ConvEncoder.mu_logvar.
  rewrite S. split; intros Hz.
  - destruct (Nat.eqb_spec (c * (w * (h * 1))) 0) as [E|E]; [lia|].
    split; [exact Ev|]. split.
    + intros RM. rewrite (view_batch4_id RM S).
      destruct (Nat.eqb_spec (c * (w * (h * 1))) 0); [contradiction | reflexivity].
    + unfold bindM at 2, lift. rewrite Ev. reflexivity.
  - destruct (Nat.eqb_spec (c * (w * (h * 1))) 0) as [E|E]; [|lia].
    split; [exact Ev|]. unfold bindM, lift. rewrite Ev. reflexivity.
Qed.

End StateAndErrors.

(** * The architecture of EncoderBurgess *)

Section BurgessArchitecture.
Context {R : Type} `{Scalar R}.

Lemma burgess_tail_fails sd img L (x h v : Tensor R) b rest :
  shape x = b :: rest ->
  EncoderBurgess.convs (EncoderBurgess.init sd img L) x = Ok h ->
  view h [Z.of_nat b; (-1)%Z] = Ok v ->
  numel (shape h) <> b * 512 ->
  EncoderBurgess.forward (EncoderBurgess.init sd img L) x = Raise RuntimeError "lin1".
Proof.
  intros S Eh Ev Hn.
  pose proof (view_flatten_any _ _ Ev) as (Hb & Hm & Sv & _).
  unfold EncoderBurgess.forward, EncoderBurgess.mu_logvar, EncoderBurgess.batch_size.
  rewrite S. cbn [bind]. rewrite Eh. cbn [bind]. rewrite Ev. cbn [within bind].
  rewrite (@linear_shape _ _ (EncoderBurgess.lin1 (EncoderBurgess.init sd img L))
             v [b] (numel (shape h) / b) Sv).
  cbn [EncoderBurgess.lin1 EncoderBurgess.init in_features Linear_init].
  destruct (Nat.eqb_spec (numel (shape h) / b) (32 * 4 * 4)) as [E|E]; [|reflexivity].
  exfalso. apply Hn. pose proof (Nat.div_mod_eq (numel (shape h)) b) as Ed.
  rewrite Hm, E in Ed. lia.
Qed.

Lemma burgess_view_fails sd img L (x h : Tensor R) b rest e site :
  shape x = b :: rest ->
  EncoderBurgess.convs (EncoderBurgess.init sd img L) x = Ok h ->
  view h [Z.of_nat b; (-1)%Z] = Raise e site ->
  EncoderBurgess.forward (EncoderBurgess.init sd img L) x = Raise e "view".
Proof.
  intros S Eh Ev.
  unfold EncoderBurgess.forward, EncoderBurgess.mu_logvar, EncoderBurgess.batch_size.
  rewrite S. cbn [bind]. rewrite Eh. cbn [bind]. rewrite Ev. reflexivity.
Qed.

Lemma burgess_convs_fail sd img L (x : Tensor R) e site :
  shape x <> [] ->
  EncoderBurgess.convs (EncoderBurgess.init sd img L) x = Raise e site ->
  EncoderBurgess.forward (EncoderBurgess.init sd img L) x = Raise e site.
Proof.
  intros S Eh.
  unfold EncoderBurgess.forward, EncoderBurgess.mu_logvar, EncoderBurgess.batch_size.
  destruct (shape x); [contradiction|]. cbn [bind]. rewrite Eh. reflexivity.
Qed.

Lemma view_raises_runtime (x : Tensor R) req e site :
  view x req = Raise e site -> e = RuntimeError.
Proof.
  unfold view, infer_size. intros E.
  repeat match type of E with
         | context [if ?t then _ else _] => destruct t; cbn [bind] in E
         | context [match compute_stride ?a ?b ?c with _ => _ end] =>
             destruct (compute_stride a b c)
         end; congruence.
Qed.

(** C9, as the code has it.  [lin1] takes 512 = 32 * 4 * 4 features whatever
    the declared img_size.  For every input (of any rank and layout), [b]
    its first size: forward returns only when the convolutions have returned
    [b * 512] elements, 512 for each of the [b] samples.  When it does not
    return it has failed, and not always at [lin1]: with the error of the
    convolution that refused its input; at the reshape of line 82, when
    [view] refuses the result of the convolutions; at [lin1], when the
    reshape returned rows of another width than 512.  With rows of 512
    elements and a positive latent_dim forward returns. *)
Theorem burgess_lin1_fixed_width sd (img_size : nat * nat * nat) (latent_dim : nat)
    (x : Tensor R) :
  let self := EncoderBurgess.init sd img_size latent_dim in
  let b := hd 0 (shape x) in
  in_features (EncoderBurgess.lin1 self) = 512 /\
  (forall out, EncoderBurgess.forward self x = Ok out ->
     exists h, EncoderBurgess.convs self x = Ok h /\
               b <> 0 /\ numel (shape h) = b * 512) /\
  (shape x = [] -> EncoderBurgess.forward self x = Raise IndexError "size") /\
  (shape x <> [] ->
   (forall e site, EncoderBurgess.convs self x = Raise e site ->
      EncoderBurgess.forward self x = Raise e site) /\
   (forall h, EncoderBurgess.convs self x = Ok h ->
      (forall e site, view h [Z.of_nat b; (-1)%Z] = Raise e site ->
         EncoderBurgess.forward self x = Raise RuntimeError "view") /\
      (forall v, view h [Z.of_nat b; (-1)%Z] = Ok v ->
         (numel (shape h) <> b * 512 ->
          EncoderBurgess.forward self x = Raise RuntimeError "lin1") /\
         (numel (shape h) = b * 512 -> 1 <= latent_dim ->
          exists mu logvar, EncoderBurgess.forward self x = Ok (mu, logvar))))).
Proof.
  intros self b. subst self b. split; [reflexivity|].
  split; [|split]; [| |intros Sx; split].
  - intros [mu lv] E.
    apply burgess_forward_Ok in E as (p & b' & P & _).
    apply burgess_mu_logvar_Ok in P as (b'' & h & Eb & Eh & Hb & Hn & _).
    rewrite Eb. eauto.
  - intros S. unfold EncoderBurgess.forward, EncoderBurgess.mu_logvar,
      EncoderBurgess.batch_size. rewrite S. reflexivity.
  - intros e site. now apply burgess_convs_fail.
  - intros h Eh.
    destruct (shape x) as [|b rest] eqn:S; [contradiction|]. cbn [hd].
    split.
    + intros e site Ev. pose proof (view_raises_runtime _ _ Ev) as ->.
      eapply burgess_view_fails; eauto.
    + intros v Ev. split.
      * intros Hn. eapply burgess_tail_fails; eauto.
      * intros Hn HL.
        destruct (@burgess_tail_run _ _ sd img_size latent_dim x h v b rest S HL Eh Ev Hn)
          as (p & _ & _ & E).
        rewrite E. unfold halves. eauto.
Qed.



End BurgessArchitecture.

(** * get_encoder *)

Lemma lookup_encoder_name (t : string) (o : PyObject) :
  lookup (String.append "Encoder" t) module_globals = Some o ->
  t = "Burgess"%string /\ o = PyClass ClsEncoderBurgess.
Proof.
  cbn [lookup module_globals String.append].
  repeat match goal with
         | |- context [String.eqb ?k ?n] =>
             let E := fresh "E" in
             destruct (String.eqb_spec k n) as [E|_]; [try discriminate E|]
         end; try discriminate.
  injection E as <-. intros E'. injection E' as <-. auto.
Qed.

(** C2 on the code.  get_encoder lower-cases and capitalises the name and
    looks up "Encoder" followed by it: "burgess" in any letter case resolves
    to EncoderBurgess; "conv" and "domain" (and the class names themselves)
    raise NameError, since ConvEncoder and DomainEncoder are not called
    Encoder<Model>; no name resolves to either of them. *)
Theorem get_encoder_resolves_only_burgess :
  (forall s, lower s = "burgess"%string ->
             get_encoder s = Some (Ok (PyClass ClsEncoderBurgess))) /\
  get_encoder "BurGess" = Some (Ok (PyClass ClsEncoderBurgess)) /\
  get_encoder "conv" = Some (Raise NameError "EncoderConv") /\
  get_encoder "domain" = Some (Raise NameError "EncoderDomain") /\
  get_encoder "ConvEncoder" = Some (Raise NameError "EncoderConvencoder") /\
  get_encoder "DomainEncoder" = Some (Raise NameError "EncoderDomainencoder") /\
  (forall s o, get_encoder s = Some (Ok o) -> o = PyClass ClsEncoderBurgess).
Proof.
  repeat split; try reflexivity.
  - intros s E. unfold get_encoder. rewrite E. reflexivity.
  - intros s o. unfold get_encoder, eval_name.
    destruct (is_identifier _); [|discriminate].
    destruct (lookup _ module_globals) as [o'|] eqn:E; [|discriminate].
    intros E'. injection E' as <-. now apply lookup_encoder_name in E.
Qed.

(** * The statements at concrete inputs (binary64) *)

(** C1 on an EncoderBurgess for 1 x 32 x 32 images and a (row-major) batch
    of four of them. *)
Lemma forward_output_shape_witness :
  1 <= cfg_latent_dim (CfgBurgess (1, 32, 32) 10) /\
  declares_channels (CfgBurgess (1, 32, 32) 10) /\
  input_fits (CfgBurgess (1, 32, 32) 10) (Image (zero_images 4 1 32)) 4 /\
  layout_fits (CfgBurgess (1, 32, 32) 10) (Image (zero_images 4 1 32)) /\
  valid_batch (train true (construct (const_sd 1%float 0) (CfgBurgess (1, 32, 32) 10))) 4 /\
  exists mu logvar enc',
    forward (train true (construct (const_sd 1%float 0) (CfgBurgess (1, 32, 32) 10)))
      (Image (zero_images 4 1 32))
    = (Ok (mu, logvar), enc') /\
    shape mu = [4; 10] /\ shape logvar = [4; 10] /\ wf mu /\ wf logvar.
Proof.
  assert (H1 : 1 <= cfg_latent_dim (CfgBurgess (1, 32, 32) 10)) by (cbn; lia).
  assert (H2 : declares_channels (CfgBurgess (1, 32, 32) 10)) by (cbn; lia).
  assert (H3 : input_fits (CfgBurgess (1, 32, 32) 10) (Image (zero_images 4 1 32)) 4).
  { exists 32, 32. split; reflexivity. }
  assert (H4 : layout_fits (CfgBurgess (1, 32, 32) 10) (Image (zero_images 4 1 32))).
  { apply row_major_suggest. reflexivity. }
  assert (H5 : valid_batch
                 (train true (construct (const_sd 1%float 0) (CfgBurgess (1, 32, 32) 10))) 4).
  { unfold valid_batch. cbn. lia. }
  exact (conj H1 (conj H2 (conj H3 (conj H4 (conj H5
           (@forward_output_shape float _ (const_sd 1%float 0) (CfgBurgess (1, 32, 32) 10)
              true (Image (zero_images 4 1 32)) 4 H1 H2 H3 H4 H5)))))).
Defined.

(** C1 as stated fails.  A batch of one sample is refused by a freshly
    constructed DomainEncoder or ConvEncoder (training mode: a batch
    normalisation wants more than one value per channel).  A batch of the
    declared size is refused by an EncoderBurgess declared for 28 x 28
    images: its convolutions leave 32 x 3 x 3 = 288 features, and [lin1]
    takes 512.  And a batch of the fitting shape in channels-last memory
    format is refused by EncoderBurgess at the reshape of line 82. *)
Lemma fitting_batches_refused :
  fst (forward (construct ramp_sd (CfgDomain 2 1)) (indices [0]%Z)) = Raise ValueError "bn" /\
  fst (forward (construct (const_sd 1%float 0) (CfgConv 10)) (Image (zero_images 1 3 32)))
  = Raise ValueError "bn1_fc" /\
  shape (zero_images 2 1 28) = [2; 1; 28; 28] /\
  fst (forward (construct (const_sd 1%float 0) (CfgBurgess (1, 28, 28) 10))
         (Image (zero_images 2 1 28)))
  = Raise RuntimeError "lin1" /\
  input_fits (CfgBurgess (3, 32, 32) 10) (Image (channels_last (zero_images 2 3 32))) 2 /\
  suggest_memory_format (channels_last (zero_images 2 3 32)) = ChannelsLast /\
  fst (forward (construct (const_sd 1%float 0) (CfgBurgess (3, 32, 32) 10))
         (Image (channels_last (zero_images 2 3 32))))
  = Raise RuntimeError "view".
Proof.
  repeat split; try reflexivity.
  exists 32, 32. split; reflexivity.
Qed.

(** C1 on a ConvEncoder in training mode and a batch of two 3 x 32 x 32
    images. *)
Example conv_32_output_shape :
  exists mu logvar enc',
    forward (train true (construct (const_sd 1%float 0) (CfgConv 10))) (Image images_32)
    = (Ok (mu, logvar), enc') /\
    shape mu = [2; 10] /\ shape logvar = [2; 10] /\ wf mu /\ wf logvar.
Proof.
  apply (@forward_output_shape float _ (const_sd 1%float 0) (CfgConv 10) true
           (Image images_32) 2).
  - cbn; lia.
  - exact I.
  - exists 32, 32. repeat split; lia.
  - exact I.
  - unfold valid_batch. cbn. lia.
Qed.

Example burgess_64_input_fits :
  input_fits (CfgBurgess (3, 64, 64) 10) (Image (zero_images 4 3 64)) 4.
Proof. exists 64, 64. split; reflexivity. Qed.

Example burgess_32_input_fits :
  input_fits (CfgBurgess (1, 32, 32) 10) (Image (zero_images 4 1 32)) 4.
Proof. exists 32, 32. split; reflexivity. Qed.

(** The shapes alone decide whether a call succeeds, so the outcome of a
    forward pass on the usual image sizes can be read off by evaluation. *)
Example burgess_32_shapes :
  shapes_of (EncoderBurgess.forward
               (EncoderBurgess.init (const_sd 1%float 0) (1, 32, 32) 10) (zero_images 4 1 32))
  = Some ([4; 10], [4; 10]).
Proof. reflexivity. Qed.

Example burgess_64_shapes :
  shapes_of (EncoderBurgess.forward
               (EncoderBurgess.init (const_sd 1%float 0) (3, 64, 64) 10) (zero_images 4 3 64))
  = Some ([4; 10], [4; 10]).
Proof. reflexivity. Qed.

Example conv_32_shapes :
  shapes_of (fst (ConvEncoder.forward images_32 (ConvEncoder.init (const_sd 1%float 0) 10)))
  = Some ([2; 10], [2; 10]).
Proof. reflexivity. Qed.

(** A single image in training mode reaches [bn1_fc] with one value per
    channel and is refused there; in evaluation mode it goes through. *)
Example conv_single_image_refused_in_training :
  fst (ConvEncoder.forward (zero_images 1 3 32) (ConvEncoder.init (const_sd 1%float 0) 10))
  = Raise ValueError "bn1_fc".
Proof. reflexivity. Qed.

Example conv_single_image_in_eval_mode :
  shapes_of (fst (ConvEncoder.forward (zero_images 1 3 32)
                    (ConvEncoder.train false (ConvEncoder.init (const_sd 1%float 0) 10))))
  = Some ([1; 10], [1; 10]).
Proof. reflexivity. Qed.

(** A declared img_size of 64 x 64 adds conv_64, after which a 32 x 32 input
    leaves 2 x 2 feature maps, and [lin1] refuses them. *)
Example burgess_64_on_32_fails_at_lin1 :
  EncoderBurgess.forward
    (EncoderBurgess.init (const_sd 1%float 0) (3, 64, 64) 10) (zero_images 4 3 32)
  = Raise RuntimeError "lin1".
Proof. reflexivity. Qed.

(** C3 on a DomainEncoder in evaluation mode and the batch [0, 2]: the
    projection of sample 0 is about (0.0026, 1.0026, 2.0026, 3.0026), its
    mean (0.0026, 2.0026) and its logvar (1.0026, 3.0026). *)
Lemma mean_logvar_interleaved_witness :
  forward (train false (construct ramp_sd (CfgDomain 3 2))) (indices [0; 2]%Z)
  = (Ok (fst eval_02, snd eval_02), domain_eval) /\
  exists p b,
    mu_logvar (train false (construct ramp_sd (CfgDomain 3 2))) (indices [0; 2]%Z)
    = (Ok p, domain_eval) /\
    shape p = [b; 2 * 2] /\ shape (fst eval_02) = [b; 2] /\ shape (snd eval_02) = [b; 2] /\
    forall n j, n < b -> j < 2 ->
      get2 (fst eval_02) n j = get2 p n (2 * j) /\
      get2 (snd eval_02) n j = get2 p n (2 * j + 1).
Proof.
  assert (E : forward (train false (construct ramp_sd (CfgDomain 3 2))) (indices [0; 2]%Z)
              = (Ok (fst eval_02, snd eval_02), domain_eval))
    by (vm_compute; reflexivity).
  exact (conj E (@mean_logvar_interleaved float _ ramp_sd (CfgDomain 3 2) false
                   (indices [0; 2]%Z) (fst eval_02) (snd eval_02) domain_eval E)).
Defined.

(** C6 in evaluation mode: sample 0 of the batches [0, 2] and [0, 1]. *)
Lemma no_coupling_in_eval_mode_witness :
  eval_mode (train false (construct ramp_sd (CfgDomain 3 2))) = true /\
  same_size (indices [0; 2]%Z) (indices [0; 1]%Z) /\
  input_agree 0 (indices [0; 2]%Z) (indices [0; 1]%Z) /\
  forward (train false (construct ramp_sd (CfgDomain 3 2))) (indices [0; 2]%Z)
  = (Ok (fst eval_02, snd eval_02), domain_eval) /\
  forward (train false (construct ramp_sd (CfgDomain 3 2))) (indices [0; 1]%Z)
  = (Ok (fst eval_01, snd eval_01), domain_eval) /\
  agree_at 0 (fst eval_02) (fst eval_01) /\ agree_at 0 (snd eval_02) (snd eval_01).
Proof.
  assert (H1 : eval_mode (train false (construct ramp_sd (CfgDomain 3 2))) = true)
    by reflexivity.
  assert (H0 : same_size (indices [0; 2]%Z) (indices [0; 1]%Z)) by reflexivity.
  assert (H2 : input_agree 0 (indices [0; 2]%Z) (indices [0; 1]%Z))
    by (cbn; repeat split; lia).
  assert (H3 : forward (train false (construct ramp_sd (CfgDomain 3 2))) (indices [0; 2]%Z)
               = (Ok (fst eval_02, snd eval_02), domain_eval))
    by (vm_compute; reflexivity).
  assert (H4 : forward (train false (construct ramp_sd (CfgDomain 3 2)))
                 (indices [0; 1]%Z)
               = (Ok (fst eval_01, snd eval_01), domain_eval))
    by (vm_compute; reflexivity).
  exact (conj H1 (conj H0 (conj H2 (conj H3 (conj H4
           (@no_coupling_in_eval_mode float _ ramp_sd (CfgDomain 3 2) false 0
              (indices [0; 2]%Z) (indices [0; 1]%Z)
              (fst eval_02) (snd eval_02) (fst eval_01) (snd eval_01)
              domain_eval domain_eval H1 H0 H2 H3 H4)))))).
Defined.

(** C6 as stated fails: a freshly constructed DomainEncoder is in training
    mode, its batch normalisation uses the statistics of the batch, and the
    mean of sample 0 (domain 0 in both batches) is 512 next to another
    domain-0 sample and about 0.0102 next to a domain-1 sample. *)
Lemma coupling_in_training_mode :
  eval_mode domain_fresh = false /\
  same_size (indices [0; 0]%Z) (indices [0; 1]%Z) /\
  input_agree 0 (indices [0; 0]%Z) (indices [0; 1]%Z) /\
  fst (forward domain_fresh (indices [0; 0]%Z)) = Ok fresh_00 /\
  fst (forward domain_fresh (indices [0; 1]%Z)) = Ok fresh_01 /\
  ~ agree_at 0 (fst fresh_00) (fst fresh_01).
Proof.
  split; [reflexivity|]. split; [reflexivity|]. split; [cbn; repeat split; lia|].
  split; [vm_compute; reflexivity|]. split; [vm_compute; reflexivity|].
  intros (b1 & b2 & rest & S1 & S2 & _ & _ & E).
  cbn in S1. injection S1 as _ <-.
  specialize (E 0 ltac:(cbn; lia)).
  apply (f_equal (fun z => PrimFloat.ltb z 1)) in E.
  vm_compute in E. discriminate E.
Qed.


(** C8 as stated fails: index 0 lies in [0, 2), yet a freshly constructed
    DomainEncoder (training mode) raises on the single-sample batch [0]. *)
Lemma single_sample_refused_in_training :
  Forall (fun i => (0 <= i < Z.of_nat 2)%Z) [0%Z] /\
  fst (DomainEncoder.forward [0%Z] (DomainEncoder.init ramp_sd 2 1))
  = Raise ValueError "bn".
Proof.
  split; [repeat constructor; lia | reflexivity].
Qed.

Example domain_forward_out_of_range :
  fst (DomainEncoder.forward [0; 2]%Z (DomainEncoder.init ramp_sd 2 1))
  = Raise IndexError "embed".
Proof. reflexivity. Qed.

(** C9 as stated fails: forward can fail elsewhere than at [lin1].  One
    8 x 8 image given to an EncoderBurgess for 64 x 64 images is down to
    1 x 1 after three convolutions, and the fourth one, conv_64, refuses it.
    Two 3 x 64 x 64 images in channels-last memory format given to an
    EncoderBurgess for 32 x 32 images leave 2048 elements per sample (not
    512) in channels-last, and the reshape of line 82 refuses them before
    [lin1] is reached. *)
Lemma burgess_fails_before_lin1 :
  EncoderBurgess.forward (EncoderBurgess.init (const_sd 1%float 0) (1, 64, 64) 10) image_8
  = Raise RuntimeError "conv_64" /\
  option_map (@shape float)
    (match EncoderBurgess.convs (EncoderBurgess.init (const_sd 1%float 0) (3, 32, 32) 10)
             (channels_last (zero_images 2 3 64)) with
     | Ok h => Some h
     | Raise _ _ => None
     end) = Some [2; 32; 8; 8] /\
  EncoderBurgess.forward (EncoderBurgess.init (const_sd 1%float 0) (3, 32, 32) 10)
    (channels_last (zero_images 2 3 64))
  = Raise RuntimeError "view".
Proof. repeat split; reflexivity. Qed.

(** An unbatched 1 x 32 x 32 image is convolved as a batch of one; its first
    size, the channel, is taken for the batch size, and forward returns a
    pair of shape (1, latent_dim). *)
Example burgess_unbatched_image :
  shapes_of (EncoderBurgess.forward
               (EncoderBurgess.init (const_sd 1%float 0) (1, 32, 32) 10) (zero_image 1 32 32))
  = Some ([1; 10], [1; 10]).
Proof. reflexivity. Qed.

(** With three channels the 512 elements are not a multiple of the first
    size, and the reshape of line 82 refuses. *)
Example burgess_unbatched_rgb_image :
  EncoderBurgess.forward
    (EncoderBurgess.init (const_sd 1%float 0) (3, 32, 32) 10) (zero_image 3 32 32)
  = Raise RuntimeError "view".
Proof. reflexivity. Qed.

(** An 8 x 8 image leaves 32 elements per sample after the three
    convolutions, and forward fails at [lin1]. *)
Example burgess_8x8_fails_at_lin1 :
  EncoderBurgess.forward (EncoderBurgess.init (const_sd 1%float 0) (1, 32, 32) 10) image_8
  = Raise RuntimeError "lin1".
Proof. reflexivity. Qed.

(** C10 on a batch of two 3 x 32 x 32 images. *)
Lemma conv_initial_view_witness :
  shape images_32 = [2; 3; 32; 32] /\
  (3 * 32 * 32 <> 0 ->
   view (contiguous images_32) [(-1)%Z; Z.of_nat 3; Z.of_nat 32; Z.of_nat 32]
   = Ok (contiguous images_32) /\
   (row_major images_32 ->
    view images_32 [(-1)%Z; Z.of_nat 3; Z.of_nat 32; Z.of_nat 32] = Ok images_32) /\
   ConvEncoder.forward images_32 (ConvEncoder.init (const_sd 1%float 0) 10)
   = ConvEncoder.forward_without_view images_32 (ConvEncoder.init (const_sd 1%float 0) 10)) /\
  (3 * 32 * 32 = 0 ->
   view (contiguous images_32) [(-1)%Z; Z.of_nat 3; Z.of_nat 32; Z.of_nat 32]
   = Raise RuntimeError "view" /\
   ConvEncoder.forward images_32 (ConvEncoder.init (const_sd 1%float 0) 10)
   = (Raise RuntimeError "view", ConvEncoder.init (const_sd 1%float 0) 10)).
Proof.
  assert (H1 : shape images_32 = [2; 3; 32; 32]) by reflexivity.
  exact (conj H1
           (@conv_initial_view float _ (ConvEncoder.init (const_sd 1%float 0) 10) images_32
              2 3 32 32 H1)).
Defined.

(** C10 as stated fails on a 4-dimensional input with a zero-sized channel
    dimension: the reshape raises instead of returning the input, and forward
    stops at the reshape where the pipeline without it stops at conv1. *)
Lemma view_refuses_empty_samples :
  shape no_channel = [1; 0; 1; 1] /\
  view no_channel [(-1)%Z; Z.of_nat 0; Z.of_nat 1; Z.of_nat 1] = Raise RuntimeError "view" /\
  fst (ConvEncoder.forward no_channel (ConvEncoder.init (const_sd 1%float 0) 10))
  = Raise RuntimeError "view" /\
  fst (ConvEncoder.forward_without_view no_channel (ConvEncoder.init (const_sd 1%float 0) 10))
  = Raise RuntimeError "conv1" /\
  view no_channel [(-1)%Z; Z.of_nat 0; Z.of_nat 1; Z.of_nat 1] <> Ok no_channel /\
  ConvEncoder.forward no_channel (ConvEncoder.init (const_sd 1%float 0) 10)
  <> ConvEncoder.forward_without_view no_channel (ConvEncoder.init (const_sd 1%float 0) 10).
Proof.
  repeat split; try reflexivity.
  - intros E. discriminate E.
  - intros E. apply (f_equal fst) in E. discriminate E.
Qed.

Example rank_3_input_fails_assertion :
  ConvEncoder.forward (mkTensor [3; 32; 32] (repeat 0%float (3 * 32 * 32)))
    (ConvEncoder.init (const_sd 1%float 0) 10)
  = (Raise AssertionError "assert", ConvEncoder.init (const_sd 1%float 0) 10).
Proof. reflexivity. Qed.

(** * Further properties of the code *)

(** ** What an accepted run tells about the input *)

Tactic Notation "step_with" uconstr(L) constr(E) :=
  erewrite bindM_run; [| eapply L; exact E].

Lemma bindM_fails {S A B} (m : M S A) (k : A -> M S B) (s s1 : S) e site :
  m s = (Raise e site, s1) -> bindM m k s = (Raise e site, s1).
Proof. unfold bindM. intros ->. reflexivity. Qed.

Section AcceptedSizes.
Context {R : Type} `{Scalar R}.

Lemma pooled_twice h : 1 <= h -> pooled (pooled h) = (h + 3) / 4.
Proof. intros Hh. unfold pooled, out_size. lia. Qed.

Lemma square_16 q : q * q = 16 <-> q = 4.
Proof. split; [intros E | intros ->; reflexivity]. nia. Qed.

Lemma square_64 q : q * q = 64 <-> q = 8.
Proof. split; [intros E | intros ->; reflexivity]. nia. Qed.

Lemma conv_halve_Ok (l : Conv2d R) (x y : Tensor R) b c h w :
  suggest_memory_format x = Contiguous ->
  kernel_size l = 4 -> stride l = 2 -> padding l = 1 ->
  shape x = [b; c; h; w] -> conv2d l x = Ok y ->
  c = in_channels l /\ 2 <= h /\ 2 <= w /\
  shape (relu y) = [b; out_channels l; h / 2; w / 2] /\ row_major (relu y).
Proof.
  intros RM K S P Sx E.
  apply conv2d_Ok in E as (n & h' & w' & Sx' & _ & Hh & Hw & ->);
    [| exact RM | now rewrite Sx].
  rewrite Sx in Sx'. injection Sx' as <- -> <- <-.
  rewrite K, P in Hh, Hw.
  split; [reflexivity|]. split; [lia|]. split; [lia|]. split; [|reflexivity].
  unfold relu, map_tensor, conv2d_out. cbn [shape]. rewrite K, S, P.
  rewrite !out_size_halve by lia. reflexivity.
Qed.

Lemma conv_keep_Ok (l : Conv2d R) (x y : Tensor R) b c h w :
  suggest_memory_format x = Contiguous ->
  kernel_size l = 5 -> stride l = 1 -> padding l = 2 ->
  shape x = [b; c; h; w] -> conv2d l x = Ok y ->
  c = in_channels l /\ 1 <= h /\ 1 <= w /\ shape y = [b; out_channels l; h; w] /\
  row_major y.
Proof.
  intros RM K S P Sx E.
  apply conv2d_Ok in E as (n & h' & w' & Sx' & _ & Hh & Hw & ->);
    [| exact RM | now rewrite Sx].
  rewrite Sx in Sx'. injection Sx' as <- -> <- <-.
  rewrite K, P in Hh, Hw.
  split; [reflexivity|]. split; [lia|]. split; [lia|]. split; [|reflexivity].
  unfold conv2d_out. cbn [shape]. rewrite K, S, P.
  rewrite !out_size_keep by lia. reflexivity.
Qed.

Lemma pool_Ok_shape (x y : Tensor R) b c h w :
  row_major x ->
  shape x = [b; c; h; w] -> max_pool2d 3 2 1 x = Ok y ->
  1 <= h /\ 1 <= w /\ shape y = [b; c; pooled h; pooled w] /\ row_major y.
Proof.
  intros RM Sx E.
  apply max_pool2d_Ok in E as (n & c' & h' & w' & Sx' & _ & Hh & Hw & ->); [|exact RM].
  rewrite Sx in Sx'. injection Sx' as <- <- <- <-.
  split; [lia|]. split; [lia|]. split; reflexivity.
Qed.

Lemma batch_norm_row_major (bn bn' : BatchNorm R) (x y : Tensor R) :
  row_major x -> batch_norm bn x = (Ok y, bn') -> row_major y.
Proof.
  intros RM E. apply batch_norm_Ok in E as (n & sp & mean & var & _ & _ & ->).
  now apply row_major_bn_output.
Qed.

(** The convolutions of EncoderBurgess, on a batch that does not look
    channels-last, return only on the declared number of channels, and halve
    the height and width three (or four) times; the result is row-major. *)
Lemma burgess_convs_Ok sd c h w L (x y : Tensor R) b c' hh ww :
  suggest_memory_format x = Contiguous ->
  shape x = [b; c'; hh; ww] ->
  EncoderBurgess.convs (EncoderBurgess.init sd (c, h, w) L) x = Ok y ->
  let d := if EncoderBurgess.is_64 (c, h, w) then 16 else 8 in
  c' = c /\ shape y = [b; 32; hh / d; ww / d] /\ row_major y.
Proof.
  intros RM Sx E. unfold EncoderBurgess.convs in E.
  inv_bind E as t1 E1.
  eapply conv_halve_Ok with (5 := Sx) in E1 as (-> & Hh1 & Hw1 & S1 & R1);
    [| exact RM | reflexivity ..].
  inv_bind E as t2 E2.
  eapply conv_halve_Ok with (5 := S1) in E2 as (_ & Hh2 & Hw2 & S2 & R2);
    [| exact (row_major_suggest R1) | reflexivity ..].
  inv_bind E as t3 E3.
  eapply conv_halve_Ok with (5 := S2) in E3 as (_ & Hh3 & Hw3 & S3 & R3);
    [| exact (row_major_suggest R2) | reflexivity ..].
  cbn [EncoderBurgess.init EncoderBurgess.img_size EncoderBurgess.conv_64
       EncoderBurgess.conv1 Conv2d_init in_channels out_channels fst] in *.
  destruct (EncoderBurgess.is_64 (c, h, w)); cbn zeta.
  - inv_bind E as t4 E4.
    eapply conv_halve_Ok with (5 := S3) in E4 as (_ & Hh4 & Hw4 & S4 & R4);
      [| exact (row_major_suggest R3) | reflexivity ..].
    injection E as <-. split; [reflexivity|]. split; [|exact R4].
    rewrite S4. cbn [out_channels Conv2d_init].
    f_equal. f_equal. f_equal; [|f_equal]; lia.
  - injection E as <-. split; [reflexivity|]. split; [|exact R3]. rewrite S3.
    f_equal. f_equal. f_equal; [|f_equal]; lia.
Qed.

(** *** The layout of the batch and the convolutions of EncoderBurgess *)

(** A convolution computes what it computes on the row-major copy of the
    batch, and allocates it in the memory format the batch suggests. *)
Lemma conv2d_layout (l : Conv2d R) (x : Tensor R) :
  length (shape x) = 4 ->
  conv2d l x = result_in_format (suggest_memory_format x) (conv2d l (contiguous x)).
Proof.
  intros H4. rewrite !conv2d_batch by exact H4. unfold conv2d_batched.
  cbn [contiguous shape data].
  destruct (shape x) as [|n [|c [|hh [|ww [|? ?]]]]]; try reflexivity.
  destruct (negb _); [reflexivity|]. destruct (_ =? 0); [reflexivity|].
  destruct (_ || _); reflexivity.
Qed.

Lemma suggest_channels_last_sizes (x : Tensor R) b c h w :
  shape x = [b; c; h; w] -> suggest_memory_format x = ChannelsLast ->
  1 <= b /\ 1 <= c /\ 1 <= h /\ 1 <= w.
Proof.
  intros S. unfold suggest_memory_format. rewrite S. cbn [length Nat.eqb andb].
  unfold is_channels_last_strides_2d, channels_last_step. cbn [nth fold_left].
  destruct (_ =? 0); [discriminate|].
  destruct (Nat.eqb_spec c 0); [discriminate|].
  destruct (_ <? 0); [discriminate|]. destruct ((1 =? 0) && _); [discriminate|].
  destruct (Nat.eqb_spec w 0); [discriminate|].
  destruct (_ <? _); [discriminate|]. destruct ((3 =? 0) && _); [discriminate|].
  destruct (Nat.eqb_spec h 0); [discriminate|].
  destruct (_ <? _); [discriminate|]. destruct ((2 =? 0) && _); [discriminate|].
  destruct (Nat.eqb_spec b 0); [discriminate|].
  intros _. lia.
Qed.

Lemma out_size_pos i k s p : 1 <= out_size i k s p.
Proof. unfold out_size. lia. Qed.

(** A stride-2 convolution of EncoderBurgess followed by its ReLU, on a
    channels-last batch: the result is channels-last again. *)
Lemma conv_relu_channels_last (l : Conv2d R) (x : Tensor R) :
  length (shape x) = 4 -> suggest_memory_format x = ChannelsLast -> out_channels l = 32 ->
  match conv2d l (contiguous x) with
  | Ok y =>
      conv2d l x = Ok (in_format ChannelsLast y) /\
      row_major (relu y) /\ length (shape y) = 4 /\
      suggest_memory_format (relu (in_format ChannelsLast y)) = ChannelsLast
  | Raise e site => conv2d l x = Raise e site
  end.
Proof.
  intros H4 F Ho. rewrite (conv2d_layout l x H4), F.
  destruct (conv2d l (contiguous x)) as [y|e site] eqn:E; [|reflexivity].
  apply conv2d_Ok in E as (n & hh & ww & S & _ & _ & _ & ->);
    [| now apply row_major_suggest | exact H4].
  cbn [contiguous shape] in S.
  destruct (suggest_channels_last_sizes _ S F) as (Hn & _).
  split; [reflexivity|]. split; [reflexivity|]. split; [reflexivity|].
  eapply channels_last_suggest; try reflexivity; rewrite ?Ho; try lia;
    apply out_size_pos.
Qed.

(** The convolutions of EncoderBurgess compute what they compute on the
    row-major copy of the batch, and return it in the memory format the batch
    suggests: channels-last for a channels-last batch. *)
Lemma burgess_convs_layout sd img L (x : Tensor R) :
  length (shape x) = 4 ->
  EncoderBurgess.convs (EncoderBurgess.init sd img L) x
  = result_in_format (suggest_memory_format x)
      (EncoderBurgess.convs (EncoderBurgess.init sd img L) (contiguous x)).
Proof.
  intros H4. destruct (suggest_memory_format x) eqn:F.
  - (* the first convolution sees a contiguous batch either way *)
    unfold EncoderBurgess.convs. rewrite (conv2d_layout _ x H4), F.
    destruct (conv2d _ (contiguous x)) as [y1|e site] eqn:E1; [|reflexivity].
    apply conv2d_Ok in E1 as (n & hh & ww & S & _ & _ & _ & ->);
      [| now apply row_major_suggest | exact H4].
    cbn [result_in_format within bind].
    change (in_format Contiguous (conv2d_out ?l ?n ?c ?h ?w ?d)) with (conv2d_out l n c h w d).
    set (y1 := relu (conv2d_out _ n _ hh ww _)).
    destruct (conv2d _ y1) as [y2|e site] eqn:E2; [|reflexivity].
    apply conv2d_Ok in E2 as (n2 & h2 & w2 & S2 & _ & _ & _ & ->);
      [| now apply row_major_suggest | reflexivity].
    cbn [within bind].
    set (y2 := relu (conv2d_out _ n2 _ h2 w2 _)).
    destruct (conv2d _ y2) as [y3|e site] eqn:E3; [|reflexivity].
    apply conv2d_Ok in E3 as (n3 & h3 & w3 & S3 & _ & _ & _ & ->);
      [| now apply row_major_suggest | reflexivity].
    cbn [within bind].
    set (y3 := relu (conv2d_out _ n3 _ h3 w3 _)).
    destruct (EncoderBurgess.is_64 _); [|reflexivity].
    destruct (EncoderBurgess.conv_64 _) as [c4|]; [|reflexivity].
    destruct (conv2d c4 y3) as [y4|e site] eqn:E4; [|reflexivity].
    apply conv2d_Ok in E4 as (n4 & h4 & w4 & S4 & _ & _ & _ & ->);
      [| now apply row_major_suggest | reflexivity].
    reflexivity.
  - unfold EncoderBurgess.convs.
    cbn [EncoderBurgess.conv1 EncoderBurgess.conv2 EncoderBurgess.conv3
         EncoderBurgess.conv_64 EncoderBurgess.img_size EncoderBurgess.init].
    pose proof (@conv_relu_channels_last
                  (Conv2d_init sd "conv1" (fst (fst img)) 32 4 2 1) x H4 F eq_refl) as C1.
    destruct (conv2d _ (contiguous x)) as [y1|e site]; [|now rewrite C1].
    destruct C1 as (-> & R1 & L1 & F1). cbn [within bind result_in_format].
    pose proof (@conv_relu_channels_last
                  (Conv2d_init sd "conv2" 32 32 4 2 1) (relu (in_format ChannelsLast y1))
                  L1 F1 eq_refl) as C2.
    change (contiguous (relu (in_format ChannelsLast y1))) with (contiguous (relu y1)) in C2.
    unfold contiguous in C2. rewrite (tensor_eta R1 eq_refl) in C2.
    destruct (conv2d _ (relu y1)) as [y2|e site]; [|now rewrite C2].
    destruct C2 as (-> & R2 & L2 & F2). cbn [within bind result_in_format].
    pose proof (@conv_relu_channels_last
                  (Conv2d_init sd "conv3" 32 32 4 2 1) (relu (in_format ChannelsLast y2))
                  L2 F2 eq_refl) as C3.
    change (contiguous (relu (in_format ChannelsLast y2))) with (contiguous (relu y2)) in C3.
    unfold contiguous in C3. rewrite (tensor_eta R2 eq_refl) in C3.
    destruct (conv2d _ (relu y2)) as [y3|e site]; [|now rewrite C3].
    destruct C3 as (-> & R3 & L3 & F3). cbn [within bind result_in_format].
    destruct (EncoderBurgess.is_64 img); [|reflexivity].
    pose proof (@conv_relu_channels_last
                  (Conv2d_init sd "conv_64" 32 32 4 2 1) (relu (in_format ChannelsLast y3))
                  L3 F3 eq_refl) as C4.
    change (contiguous (relu (in_format ChannelsLast y3))) with (contiguous (relu y3)) in C4.
    unfold contiguous in C4. rewrite (tensor_eta R3 eq_refl) in C4.
    destruct (conv2d _ (relu y3)) as [y4|e site]; [|now rewrite C4].
    destruct C4 as (-> & _). reflexivity.
Qed.

(** [view(b, -1)] of a channels-last (b, c, h, w) batch of feature maps:
    refused unless the maps are 1 x 1. *)
Lemma view_flatten_channels_last (y : Tensor R) b c h w :
  shape y = [b; c; h; w] -> 1 <= b -> 2 <= c -> 1 <= h -> 1 <= w ->
  view (in_format ChannelsLast y) [Z.of_nat b; (-1)%Z]
  = if h * w =? 1 then Ok (mkTensor [b; c * (h * (w * 1))] (data y))
    else Raise RuntimeError "view".
Proof.
  intros S Hb Hc Hh Hw. unfold view. cbn [in_format shape strides data format_strides].
  rewrite infer_flatten, S. cbn [numel fold_right].
  destruct (Nat.eqb_spec b 0); [lia|]. cbn [orb].
  rewrite Nat.mul_comm, Nat.Div0.mod_mul, Nat.div_mul by assumption.
  cbn [Nat.eqb negb bind].
  rewrite compute_stride_channels_last by assumption.
  destruct (h * w =? 1); reflexivity.
Qed.

(** A returning forward has passed the view of line 82. *)
Lemma burgess_mu_logvar_view sd img L (x p : Tensor R) :
  EncoderBurgess.mu_logvar (EncoderBurgess.init sd img L) x = Ok p ->
  exists h v,
    EncoderBurgess.convs (EncoderBurgess.init sd img L) x = Ok h /\
    view h [Z.of_nat (hd 0 (shape x)); (-1)%Z] = Ok v.
Proof.
  unfold EncoderBurgess.mu_logvar. intros E.
  inv_bind E as b Eb. inv_bind E as h Eh. inv_bind E as v Ev.
  apply batch_size_Ok in Eb. subst b. eauto.
Qed.

(** X1.  EncoderBurgess.forward accepts a 4-D batch of at least one sample
    (img_size[0] >= 1, latent_dim >= 1) exactly when the batch has
    img_size[0] channels, the three stride-2 convolutions (four when
    img_size is 64 x 64) leave 16 positions: (H // 8) * (W // 8) = 16, or
    (H // 16) * (W // 16) = 16, and the strides of the batch are not those of
    a channels-last batch (the convolutions would return channels-last
    feature maps, which the view of line 82 refuses).  For square images the
    sizes are exactly the sides 32..39, or 64..79. *)
Theorem burgess_accepted_sizes sd (c h w latent_dim : nat) (x : Tensor R)
    (b c' hh ww : nat) :
  shape x = [b; c'; hh; ww] -> 1 <= b -> 1 <= c -> 1 <= latent_dim ->
  let self := EncoderBurgess.init sd (c, h, w) latent_dim in
  let d := if EncoderBurgess.is_64 (c, h, w) then 16 else 8 in
  let accepted := exists mu logvar, EncoderBurgess.forward self x = Ok (mu, logvar) in
  (accepted <->
   c' = c /\ hh / d * (ww / d) = 16 /\ suggest_memory_format x = Contiguous) /\
  (hh = ww ->
   (accepted <->
    c' = c /\ 4 * d <= hh < 5 * d /\ suggest_memory_format x = Contiguous)).
Proof.
  intros Sx Hb Hc HL self d accepted.
  assert (A : accepted <->
              c' = c /\ hh / d * (ww / d) = 16 /\ suggest_memory_format x = Contiguous).
  { split.
    - intros (mu & lv & E).
      apply burgess_forward_Ok in E as (p & b0 & E & _).
      pose proof (burgess_mu_logvar_view _ _ _ _ E) as (y' & v & E' & Ev).
      apply burgess_mu_logvar_Ok in E as (b1 & y & Hb1 & E & _ & Hn & _).
      rewrite E in E'. injection E' as <-.
      rewrite Sx in Hb1, Ev. cbn [hd] in Hb1, Ev. subst b1.
      rewrite burgess_convs_layout in E by now rewrite Sx.
      destruct (EncoderBurgess.convs _ (contiguous x)) as [y0|] eqn:E0; [|discriminate].
      cbn [result_in_format] in E. injection E as <-.
      apply (@burgess_convs_Ok sd c h w latent_dim (contiguous x) y0 b c' hh ww) in E0
        as (-> & Sy & _); [| now apply row_major_suggest | exact Sx].
      fold d in Sy. cbn [in_format shape] in Hn. rewrite Sy in Hn.
      cbn [numel fold_right] in Hn.
      apply Nat.mul_cancel_l in Hn; [|lia]. rewrite Nat.mul_1_r in Hn.
      assert (Hd : hh / d * (ww / d) = 16) by lia.
      split; [reflexivity|]. split; [exact Hd|].
      destruct (suggest_memory_format x); [reflexivity|]. exfalso.
      rewrite (view_flatten_channels_last y0 Sy) in Ev by lia.
      rewrite Hd in Ev. discriminate.
    - intros (-> & Hd & RM).
      destruct (@burgess_forward_run _ _ sd c h w latent_dim x b hh ww RM Sx Hb HL)
        as (p & _ & _ & E).
      + subst d. destruct (EncoderBurgess.is_64 (c, h, w));
          [change (2 ^ 4) with 16 | change (2 ^ 3) with 8]; lia.
      + eexists _, _. exact E. }
  split; [exact A|]. intros <-. rewrite A, square_16.
  subst d. destruct (EncoderBurgess.is_64 (c, h, w));
    (split; intros (H1 & H2 & H3); (split; [exact H1 | split; [lia | exact H3]])).
Qed.

Lemma row_major_leaky_relu (x : Tensor R) : row_major x -> row_major (leaky_relu x).
Proof. exact (fun RM => RM). Qed.

(** The layers of ConvEncoder return only on three channels and a spatial
    size that the two poolings reduce to the 8192 features of [fc1]. *)
Lemma conv_pipeline_Ok_sizes sd L mode (x p : Tensor R) b c w h e' :
  row_major x -> shape x = [b; c; w; h] ->
  ConvEncoder.pipeline b x (ConvEncoder.train mode (ConvEncoder.init sd L)) = (Ok p, e') ->
  c = 3 /\ (w + 3) / 4 * ((h + 3) / 4) = 64.
Proof.
  intros RM Sx E. unfold ConvEncoder.pipeline in E.
  inv_bindM E as t1 s1 E1. apply call_Ok in E1 as (E1 & ->).
  eapply conv_keep_Ok with (5 := Sx) in E1 as (-> & Hw & Hh & S1 & R1);
    [| exact (row_major_suggest RM) | reflexivity ..].
  inv_bindM E as t2 s2 E2. apply call_bn_Ok in E2 as (b2 & E2 & ->).
  pose proof E2 as R2; apply batch_norm_row_major in R2; [|exact R1].
  apply batch_norm_shape in E2 as (S2 & _). rewrite S1 in S2.
  inv_bindM E as t3 s3 E3. apply pool_Ok in E3 as (E3 & ->).
  eapply pool_Ok_shape in E3 as (_ & _ & S3 & R3);
    [| exact (row_major_leaky_relu R2) | exact S2].
  inv_bindM E as t4 s4 E4. apply call_Ok in E4 as (E4 & ->).
  eapply conv_keep_Ok with (5 := S3) in E4 as (_ & _ & _ & S4 & R4);
    [| exact (row_major_suggest R3) | reflexivity ..].
  inv_bindM E as t5 s5 E5. apply call_bn_Ok in E5 as (b5 & E5 & ->).
  pose proof E5 as R5; apply batch_norm_row_major in R5; [|exact R4].
  apply batch_norm_shape in E5 as (S5 & _). rewrite S4 in S5.
  inv_bindM E as t6 s6 E6. apply pool_Ok in E6 as (E6 & ->).
  eapply pool_Ok_shape in E6 as (_ & _ & S6 & R6);
    [| exact (row_major_leaky_relu R5) | exact S5].
  inv_bindM E as t7 s7 E7. apply call_Ok in E7 as (E7 & ->).
  eapply conv_keep_Ok with (5 := S6) in E7 as (_ & _ & _ & S7 & R7);
    [| exact (row_major_suggest R6) | reflexivity ..].
  inv_bindM E as t8 s8 E8. apply call_bn_Ok in E8 as (b8 & E8 & ->).
  pose proof E8 as R8; apply batch_norm_row_major in R8; [|exact R7].
  apply batch_norm_shape in E8 as (S8 & _). rewrite S7 in S8.
  inv_bindM E as v s9 E9. apply lift_Ok in E9 as (E9 & ->). apply within_Ok in E9.
  eapply view_flatten_Ok in E9 as (Hb & Ev);
    [| exact (row_major_leaky_relu R8) | exact S8]. subst v.
  inv_bindM E as y1 s10 E10. apply call_Ok in E10 as (E10 & _).
  eapply linear_2d_Ok in E10 as (Hf & _); [| reflexivity].
  split; [reflexivity|].
  cbn [ConvEncoder.fc1 ConvEncoder.set_bn1 ConvEncoder.set_bn2 ConvEncoder.set_bn3
       ConvEncoder.train ConvEncoder.init Linear_init in_features
       ConvEncoder.conv3 Conv2d_init out_channels numel fold_right] in Hf.
  rewrite !pooled_twice in Hf by assumption. lia.
Qed.

(** X2.  ConvEncoder.forward accepts a 4-D batch of at least one sample (at
    least two in training mode) exactly when the batch has three channels and
    the two poolings leave 64 positions: ceil(W / 4) * ceil(H / 4) = 64.  For
    square images these are exactly the sides 29..32. *)
Theorem conv_accepted_sizes sd (output_dim : nat) (mode : bool) (inputs : Tensor R)
    (b c w h : nat) :
  shape inputs = [b; c; w; h] -> 1 <= b -> (mode = true -> 2 <= b) ->
  let self := ConvEncoder.train mode (ConvEncoder.init sd output_dim) in
  let accepted :=
    exists mu logvar self', ConvEncoder.forward inputs self = (Ok (mu, logvar), self') in
  (accepted <-> c = 3 /\ (w + 3) / 4 * ((h + 3) / 4) = 64) /\
  (w = h -> (accepted <-> c = 3 /\ 29 <= w <= 32)).
Proof.
  intros Sx Hb Hm self accepted.
  assert (A : accepted <-> c = 3 /\ (w + 3) / 4 * ((h + 3) / 4) = 64).
  { split.
    - intros (mu & lv & e' & E).
      apply conv_forward_Ok in E as (p & b0 & c0 & w0 & h0 & Sx' & _ & _ & E & _).
      rewrite Sx in Sx'. injection Sx' as <- <- <- <-.
      exact (@conv_pipeline_Ok_sizes _ _ _ (contiguous inputs) _ _ _ _ _ _
               eq_refl Sx E).
    - intros (-> & Hs).
      assert (Hw : 1 <= w) by (destruct w; [cbn in Hs; lia | lia]).
      assert (Hh : 1 <= h) by (destruct h; [cbn in Hs; lia | lia]).
      destruct (@conv_forward_run _ _ sd output_dim mode inputs b w h Sx Hw Hh Hb Hm)
        as (p & e' & _ & _ & E).
      + rewrite !pooled_twice by assumption. lia.
      + eexists _, _, _. exact E. }
  split; [exact A|]. intros <-. rewrite A, square_64. lia.
Qed.

(** X3.  A 4-D batch with another number of channels than the encoder was
    built for is refused by the first convolution: EncoderBurgess.forward
    raises RuntimeError at conv1 when the channels differ from img_size[0],
    and so does ConvEncoder.forward when they differ from 3 (the samples not
    being empty), before any batch normalisation is reached: the module is
    left as it was, in training mode too. *)
Theorem channel_mismatch_fails_at_conv1 sd (img_size : nat * nat * nat)
    (latent_dim : nat) (mode : bool) (x : Tensor R) (b c h w : nat) :
  shape x = [b; c; h; w] ->
  (c <> fst (fst img_size) ->
   EncoderBurgess.forward (EncoderBurgess.init sd img_size latent_dim) x
   = Raise RuntimeError "conv1") /\
  (c <> 3 -> c * h * w <> 0 ->
   let self := ConvEncoder.train mode (ConvEncoder.init sd latent_dim) in
   ConvEncoder.forward x self = (Raise RuntimeError "conv1", self)).
Proof.
  intros Sx. split.
  - intros Hc. unfold EncoderBurgess.forward, EncoderBurgess.mu_logvar,
      EncoderBurgess.batch_size, EncoderBurgess.convs. rewrite Sx. cbn [bind].
    rewrite conv2d_batch by now rewrite Sx. unfold conv2d_batched. rewrite Sx.
    cbn [EncoderBurgess.conv1 EncoderBurgess.init Conv2d_init in_channels].
    destruct (Nat.eqb_spec c (fst (fst img_size))); [contradiction | reflexivity].
  - intros Hc Hn self.
    unfold ConvEncoder.forward, ConvEncoder.mu_logvar. rewrite Sx.
    unfold bindM at 1. unfold bindM at 1. unfold lift at 1.
    rewrite (view_batch4_id (x := contiguous x) eq_refl Sx).
    destruct (Nat.eqb_spec (c * (h * (w * 1))) 0) as [E0|_]; [nia|].
    cbn [within]. unfold ConvEncoder.pipeline.
    unfold bindM at 1. unfold ConvEncoder.call at 1.
    rewrite conv2d_batch by (cbn [contiguous shape]; now rewrite Sx).
    unfold conv2d_batched. cbn [contiguous shape]. rewrite Sx.
    cbn [ConvEncoder.conv1 self ConvEncoder.train ConvEncoder.init Conv2d_init in_channels].
    destruct (Nat.eqb_spec c 3); [contradiction | reflexivity].
Qed.

End AcceptedSizes.

(** ** Where EncoderBurgess refuses a wrong size *)

Section SmallImages.
Context {R : Type} `{Scalar R}.

(** A 4 x 4 kernel does not fit a padded side below 4. *)
Lemma conv_halve_fails (l : Conv2d R) (x : Tensor R) b h w :
  kernel_size l = 4 -> stride l = 2 -> padding l = 1 ->
  shape x = [b; in_channels l; h; w] -> Nat.min h w < 2 ->
  conv2d l x = Raise RuntimeError "conv2d".
Proof.
  intros K S P Sx Hm. rewrite conv2d_batch by now rewrite Sx.
  unfold conv2d_batched. rewrite Sx, K, S, P, Nat.eqb_refl. cbn [negb Nat.eqb].
  destruct (Nat.ltb_spec (h + 2 * 1) 4); [reflexivity|].
  destruct (Nat.ltb_spec (w + 2 * 1) 4); [reflexivity|]. lia.
Qed.

(** X4.  Where EncoderBurgess.forward refuses a batch (of at least one
    sample, with the declared channels, img_size[0] >= 1) of a wrong size, by
    the smaller side of the images: below 2, 4 and 8 the kernel of conv1,
    conv2 and conv3 does not fit its padded input; below 16 that of conv_64,
    when img_size is 64 x 64.  From there on the convolutions return, and
    what refuses the batch depends on its strides: when they are not those of
    a channels-last batch, [lin1] refuses every size whose halvings do not
    leave 16 positions; when they are, the feature maps are channels-last and
    the view of line 82 refuses them, of whatever size, unless they are
    1 x 1, which [lin1] refuses.  Each time a RuntimeError is raised. *)
Theorem burgess_wrong_size_fails sd (c h w latent_dim : nat) (x : Tensor R)
    (b hh ww : nat) :
  shape x = [b; c; hh; ww] -> 1 <= b -> 1 <= c ->
  let self := EncoderBurgess.init sd (c, h, w) latent_dim in
  let d := if EncoderBurgess.is_64 (c, h, w) then 16 else 8 in
  (Nat.min hh ww < 2 -> EncoderBurgess.forward self x = Raise RuntimeError "conv1") /\
  (2 <= Nat.min hh ww < 4 -> EncoderBurgess.forward self x = Raise RuntimeError "conv2") /\
  (4 <= Nat.min hh ww < 8 -> EncoderBurgess.forward self x = Raise RuntimeError "conv3") /\
  (8 <= Nat.min hh ww < d -> EncoderBurgess.forward self x = Raise RuntimeError "conv_64") /\
  (d <= Nat.min hh ww -> suggest_memory_format x = Contiguous ->
   hh / d * (ww / d) <> 16 ->
   EncoderBurgess.forward self x = Raise RuntimeError "lin1") /\
  (d <= Nat.min hh ww -> suggest_memory_format x = ChannelsLast ->
   (2 <= hh / d * (ww / d) ->
    EncoderBurgess.forward self x = Raise RuntimeError "view") /\
   (hh / d * (ww / d) = 1 ->
    EncoderBurgess.forward self x = Raise RuntimeError "lin1")).
Proof.
  intros Sx Hb Hc self d.
  set (x0 := contiguous x).
  assert (Sx0 : shape x0 = [b; c; hh; ww]) by exact Sx.
  assert (RM0 : suggest_memory_format x0 = Contiguous) by now apply row_major_suggest.
  assert (H4 : length (shape x) = 4) by now rewrite Sx.
  assert (F : forall site,
            EncoderBurgess.convs self x0 = Raise RuntimeError site ->
            EncoderBurgess.forward self x = Raise RuntimeError site).
  { intros site E. apply burgess_convs_fail; [now rewrite Sx|].
    unfold self. rewrite burgess_convs_layout by exact H4.
    fold self. fold x0. rewrite E. reflexivity. }
  assert (C1 : 2 <= Nat.min hh ww -> exists y1,
            conv2d (Conv2d_init sd "conv1" c 32 4 2 1) x0 = Ok y1 /\
            shape (relu y1) = [b; 32; hh / 2; ww / 2] /\ row_major (relu y1)).
  { intros Hm.
    destruct (@conv_halve_run _ _ (Conv2d_init sd "conv1" c 32 4 2 1) x0 b hh ww)
      as (y1 & E1 & S1 & _ & R1); auto; try lia. eauto. }
  assert (C2 : forall y1, shape (relu y1) = [b; 32; hh / 2; ww / 2] ->
            row_major (relu y1) ->
            4 <= Nat.min hh ww -> exists y2,
            conv2d (Conv2d_init sd "conv2" 32 32 4 2 1) (relu y1) = Ok y2 /\
            shape (relu y2) = [b; 32; hh / 4; ww / 4] /\ row_major (relu y2)).
  { intros y1 S1 R1 Hm.
    destruct (@conv_halve_run _ _ (Conv2d_init sd "conv2" 32 32 4 2 1) (relu y1) b
                (hh / 2) (ww / 2)) as (y2 & E2 & S2 & _ & R2); auto; try lia.
    { now apply row_major_suggest. }
    exists y2. split; [exact E2|]. split; [|exact R2].
    rewrite S2. cbn [out_channels Conv2d_init].
    f_equal. f_equal. f_equal; [|f_equal]; lia. }
  assert (C3 : forall y2, shape (relu y2) = [b; 32; hh / 4; ww / 4] ->
            row_major (relu y2) ->
            8 <= Nat.min hh ww -> exists y3,
            conv2d (Conv2d_init sd "conv3" 32 32 4 2 1) (relu y2) = Ok y3 /\
            shape (relu y3) = [b; 32; hh / 8; ww / 8] /\ row_major (relu y3)).
  { intros y2 S2 R2 Hm.
    destruct (@conv_halve_run _ _ (Conv2d_init sd "conv3" 32 32 4 2 1) (relu y2) b
                (hh / 4) (ww / 4)) as (y3 & E3 & S3 & _ & R3); auto; try lia.
    { now apply row_major_suggest. }
    exists y3. split; [exact E3|]. split; [|exact R3].
    rewrite S3. cbn [out_channels Conv2d_init].
    f_equal. f_equal. f_equal; [|f_equal]; lia. }
  assert (P4 : 2 ^ 4 = 16) by reflexivity. assert (P3 : 2 ^ 3 = 8) by reflexivity.
  assert (Cs : d <= Nat.min hh ww -> exists y,
            EncoderBurgess.convs self x0 = Ok y /\ shape y = [b; 32; hh / d; ww / d] /\
            1 <= hh / d /\ 1 <= ww / d).
  { intros Hm.
    assert (Hh : 1 <= hh / d).
    { apply Nat.div_le_lower_bound; subst d;
        destruct (EncoderBurgess.is_64 (c, h, w)); lia. }
    assert (Hw : 1 <= ww / d).
    { apply Nat.div_le_lower_bound; subst d;
        destruct (EncoderBurgess.is_64 (c, h, w)); lia. }
    destruct (@burgess_convs_run _ _ sd c h w latent_dim x0 b hh ww RM0 Sx0)
      as (y & Ey & Sy & _).
    - subst d. destruct (EncoderBurgess.is_64 (c, h, w)); rewrite ?P4, ?P3; exact Hh.
    - subst d. destruct (EncoderBurgess.is_64 (c, h, w)); rewrite ?P4, ?P3; exact Hw.
    - exists y. split; [exact Ey|]. split; [|split; assumption].
      rewrite Sy. subst d. destruct (EncoderBurgess.is_64 (c, h, w));
        rewrite ?P4, ?P3; reflexivity. }
  split; [| split; [| split; [| split; [| split]]]].
  - intros Hm. apply F. unfold EncoderBurgess.convs.
    cbn [EncoderBurgess.conv1 self EncoderBurgess.init fst].
    rewrite (@conv_halve_fails (Conv2d_init sd "conv1" c 32 4 2 1) x0 b hh ww); auto.
  - intros Hm. apply F. unfold EncoderBurgess.convs.
    cbn [EncoderBurgess.conv1 EncoderBurgess.conv2 self EncoderBurgess.init fst].
    destruct C1 as (y1 & E1 & S1 & R1); [lia|]. rewrite E1. cbn [within bind].
    rewrite (@conv_halve_fails (Conv2d_init sd "conv2" 32 32 4 2 1) (relu y1) b
               (hh / 2) (ww / 2)); auto; lia.
  - intros Hm. apply F. unfold EncoderBurgess.convs.
    cbn [EncoderBurgess.conv1 EncoderBurgess.conv2 EncoderBurgess.conv3 self
         EncoderBurgess.init fst].
    destruct C1 as (y1 & E1 & S1 & R1); [lia|]. rewrite E1. cbn [within bind].
    destruct (C2 y1 S1 R1) as (y2 & E2 & S2 & R2); [lia|]. rewrite E2. cbn [within bind].
    rewrite (@conv_halve_fails (Conv2d_init sd "conv3" 32 32 4 2 1) (relu y2) b
               (hh / 4) (ww / 4)); auto; lia.
  - intros Hm. apply F. unfold EncoderBurgess.convs.
    cbn [EncoderBurgess.conv1 EncoderBurgess.conv2 EncoderBurgess.conv3
         EncoderBurgess.conv_64 EncoderBurgess.img_size self EncoderBurgess.init fst].
    destruct C1 as (y1 & E1 & S1 & R1); [lia|]. rewrite E1. cbn [within bind].
    destruct (C2 y1 S1 R1) as (y2 & E2 & S2 & R2); [lia|]. rewrite E2. cbn [within bind].
    destruct (C3 y2 S2 R2) as (y3 & E3 & S3 & R3); [lia|]. rewrite E3. cbn [within bind].
    subst d. destruct (EncoderBurgess.is_64 (c, h, w)); [|lia].
    rewrite (@conv_halve_fails (Conv2d_init sd "conv_64" 32 32 4 2 1) (relu y3) b
               (hh / 8) (ww / 8)); auto; lia.
  - intros Hm RM Hn.
    destruct (@burgess_convs_run _ _ sd c h w latent_dim x b hh ww RM Sx)
      as (y & Ey & Sy & _ & Ry).
    + subst d. destruct (EncoderBurgess.is_64 (c, h, w)); rewrite ?P4, ?P3;
        apply Nat.div_le_lower_bound; lia.
    + subst d. destruct (EncoderBurgess.is_64 (c, h, w)); rewrite ?P4, ?P3;
        apply Nat.div_le_lower_bound; lia.
    + eapply burgess_tail_fails;
        [exact Sx | exact Ey | apply (view_flatten_run Ry Sy); lia |].
      rewrite Sy. cbn [numel fold_right]. intros Hq.
      apply Nat.mul_cancel_l in Hq; [|lia]. rewrite Nat.mul_1_r in Hq.
      subst d. destruct (EncoderBurgess.is_64 (c, h, w)); rewrite ?P4, ?P3 in Hq; lia.
  - intros Hm CL.
    destruct (Cs Hm) as (y & Ey & Sy & Hh & Hw).
    assert (Ex : EncoderBurgess.convs self x = Ok (in_format ChannelsLast y)).
    { unfold self. rewrite burgess_convs_layout by exact H4. fold self. fold x0.
      rewrite Ey, CL. reflexivity. }
    pose proof (view_flatten_channels_last y Sy Hb) as Ev.
    split.
    + intros Hn. eapply burgess_view_fails; [exact Sx | exact Ex |].
      rewrite Ev by lia.
      destruct (Nat.eqb_spec (hh / d * (ww / d)) 1); [lia | reflexivity].
    + intros Hn. eapply burgess_tail_fails; [exact Sx | exact Ex | |].
      * rewrite Ev by lia. rewrite Hn. reflexivity.
      * cbn [in_format shape]. rewrite Sy. cbn [numel fold_right]. intros Hq.
        apply Nat.mul_cancel_l in Hq; [|lia]. rewrite Nat.mul_1_r in Hq. lia.
Qed.

End SmallImages.

(** ** The batches a batch normalisation has counted *)

Section Counting.
Context {R : Type} `{Scalar R}.

(** A batch normalisation that returns has counted the batch if it is in
    training mode. *)
Lemma batch_norm_counts (bn bn' : BatchNorm R) (x y : Tensor R) :
  batch_norm bn x = (Ok y, bn') ->
  num_batches_tracked bn' = num_batches_tracked bn + Nat.b2n (bn_training bn).
Proof.
  unfold batch_norm. destruct (negb _); [discriminate|].
  destruct (shape x) as [|n [|c sp]] eqn:Sx; try discriminate.
  destruct (bn_training bn).
  - destruct (_ =? 1); [discriminate|]. destruct (negb _); [discriminate|].
    intros E. injection E as _ <-. destruct (_ =? 0); reflexivity.
  - destruct (negb _); [discriminate|]. intros E. injection E as _ <-. cbn. lia.
Qed.

(** So has one that raises, once the rank of its input is accepted. *)
Lemma batch_norm_counts_any (bn : BatchNorm R) (x : Tensor R) n c sp :
  shape x = n :: c :: sp -> check_input_dim (bn_kind bn) (length (shape x)) = true ->
  num_batches_tracked (snd (batch_norm bn x))
  = num_batches_tracked bn + Nat.b2n (bn_training bn).
Proof.
  intros Sx Hc. unfold batch_norm. rewrite Hc, Sx. cbn [negb].
  destruct (bn_training bn).
  - destruct (_ =? 1); [cbn; lia|]. destruct (negb _); [cbn; lia|].
    destruct (_ =? 0); cbn; lia.
  - destruct (negb _); cbn; lia.
Qed.

(** The convolutional part of the pipeline (lines 117-119) on three channels,
    when no batch normalisation meets a single value per channel; what is
    left to run are the fully connected layers. *)
Lemma conv_features_run sd L mode (x : Tensor R) b w h :
  row_major x -> shape x = [b; 3; w; h] -> 1 <= w -> 1 <= h ->
  (mode = true -> b <> 1 \/ 2 <= pooled (pooled w) * pooled (pooled h)) ->
  let e0 := ConvEncoder.train mode (ConvEncoder.init sd L) in
  exists t8 bn1' bn2' bn3',
    shape t8 = [b; 128; pooled (pooled w); pooled (pooled h)] /\ row_major t8 /\
    num_batches_tracked bn1' = num_batches_tracked (ConvEncoder.bn1 e0) + Nat.b2n mode /\
    num_batches_tracked bn2' = num_batches_tracked (ConvEncoder.bn2 e0) + Nat.b2n mode /\
    num_batches_tracked bn3' = num_batches_tracked (ConvEncoder.bn3 e0) + Nat.b2n mode /\
    ConvEncoder.pipeline b x e0
    = conv_dense b (leaky_relu t8)
        (ConvEncoder.set_bn3 (ConvEncoder.set_bn2 (ConvEncoder.set_bn1 e0 bn1') bn2') bn3').
Proof.
  intros RM Sx Hw Hh Hm e0.
  assert (Hm1 : forall m n : nat, 1 <= m -> 1 <= n ->
            (2 <= pooled (pooled w) * pooled (pooled h)) ->
            pooled (pooled w) <= m -> pooled (pooled h) <= n -> 2 <= m * n) by (intros; nia).
  assert (Q : forall bn : BatchNorm R, bn_training bn = mode -> forall m n : nat,
            1 <= m -> 1 <= n -> pooled (pooled w) <= m -> pooled (pooled h) <= n ->
            bn_training bn = true -> b * numel [m; n] <> 1).
  { intros bn Eb m n Hm' Hn' Lm Ln T. rewrite Eb in T. cbn [numel fold_right].
    intros E. apply Nat.eq_mul_1 in E as (E1 & E2).
    destruct (Hm T) as [Hb | Hp]; [contradiction|].
    specialize (Hm1 m n Hm' Hn' Hp Lm Ln). lia. }
  assert (Pw : pooled (pooled w) <= pooled w) by (unfold pooled, out_size; lia).
  assert (Ph : pooled (pooled h) <= pooled h) by (unfold pooled, out_size; lia).
  assert (Pw' : pooled w <= w) by (unfold pooled, out_size; lia).
  assert (Ph' : pooled h <= h) by (unfold pooled, out_size; lia).
  unfold ConvEncoder.pipeline.
  destruct (@conv_keep_run _ _ (ConvEncoder.conv1 e0) x b w h)
    as (t1 & E1 & S1 & _ & R1); auto using row_major_suggest.
  step_with call_run E1.
  destruct (@batch_norm_run _ _ (ConvEncoder.bn1 e0) t1 b [w; h] S1)
    as (t2 & bn1' & E2 & S2 & _ & R2);
    [rewrite S1; reflexivity | apply Q; try lia; destruct mode; reflexivity |].
  step_with call_bn_run E2. rewrite S1 in S2. specialize (R2 R1).
  destruct (@pool_shape_run _ _ (leaky_relu t2) _ _ _ _ R2 S2 Hw Hh)
    as (t3 & E3 & S3 & _ & R3).
  step_with pool_run E3.
  destruct (@conv_keep_run _ _ (ConvEncoder.conv2 e0) t3 b (pooled w) (pooled h))
    as (t4 & E4 & S4 & _ & R4); auto using pooled_pos, row_major_suggest.
  step_with call_run E4.
  destruct (@batch_norm_run _ _ (ConvEncoder.bn2 e0) t4 b [pooled w; pooled h] S4)
    as (t5 & bn2' & E5 & S5 & _ & R5);
    [rewrite S4; reflexivity
    | apply Q; auto using pooled_pos; destruct mode; reflexivity |].
  step_with call_bn_run E5. rewrite S4 in S5. specialize (R5 R4).
  destruct (@pool_shape_run _ _ (leaky_relu t5) _ _ _ _ R5 S5 (pooled_pos w) (pooled_pos h))
    as (t6 & E6 & S6 & _ & R6).
  step_with pool_run E6.
  destruct (@conv_keep_run _ _ (ConvEncoder.conv3 e0) t6 b
              (pooled (pooled w)) (pooled (pooled h)))
    as (t7 & E7 & S7 & _ & R7); auto using pooled_pos, row_major_suggest.
  step_with call_run E7.
  destruct (@batch_norm_run _ _ (ConvEncoder.bn3 e0) t7 b
              [pooled (pooled w); pooled (pooled h)] S7)
    as (t8 & bn3' & E8 & S8 & _ & R8);
    [rewrite S7; reflexivity
    | apply Q; auto using pooled_pos; destruct mode; reflexivity |].
  step_with call_bn_run E8. rewrite S7 in S8. specialize (R8 R7).
  exists t8, bn1', bn2', bn3'.
  apply batch_norm_counts in E2, E5, E8.
  split; [exact S8|]. split; [exact R8|].
  replace (Nat.b2n mode) with (Nat.b2n (bn_training (ConvEncoder.bn1 e0)))
    by (destruct mode; reflexivity).
  repeat split; try assumption.
Qed.

(** [view(0, -1)] cannot infer the second dimension. *)
Lemma conv_dense_empty (t : Tensor R) (s : ConvEncoder.t R) :
  conv_dense 0 t s = (Raise RuntimeError "view", s).
Proof.
  unfold conv_dense. apply bindM_fails. unfold lift, view.
  rewrite infer_flatten. reflexivity.
Qed.

(** One sample reaches [bn1_fc] as one value per channel. *)
Lemma conv_dense_single (t : Tensor R) (s : ConvEncoder.t R) rest :
  row_major t -> shape t = 1 :: rest -> numel rest = in_features (ConvEncoder.fc1 s) ->
  bn_kind (ConvEncoder.bn1_fc s) = BN1d ->
  bn_training (ConvEncoder.bn1_fc s) = true ->
  conv_dense 1 t s
  = (Raise ValueError "bn1_fc",
     ConvEncoder.set_bn1_fc s
       (set_stats (ConvEncoder.bn1_fc s)
          (running_mean (ConvEncoder.bn1_fc s)) (running_var (ConvEncoder.bn1_fc s))
          (num_batches_tracked (ConvEncoder.bn1_fc s) + 1))).
Proof.
  intros RM St Hn Hk Ht. unfold conv_dense.
  erewrite bindM_run;
    [| unfold lift; rewrite (view_flatten_run RM St) by lia; reflexivity].
  rewrite Hn.
  erewrite bindM_run;
    [| apply call_run; apply (@linear_2d_run _ _ (ConvEncoder.fc1 s) (mkTensor _ _) 1 eq_refl)].
  apply bindM_fails. unfold ConvEncoder.call_bn, batch_norm.
  cbn [linear_out shape app length]. rewrite Hk, Ht. reflexivity.
Qed.

(** Feature maps of another size than [fc1] takes are refused by it. *)
Lemma conv_dense_wrong_width (t : Tensor R) (s : ConvEncoder.t R) b rest :
  row_major t -> shape t = b :: rest -> b <> 0 -> numel rest <> in_features (ConvEncoder.fc1 s) ->
  conv_dense b t s = (Raise RuntimeError "fc1", s).
Proof.
  intros RM St Hb Hn. unfold conv_dense.
  erewrite bindM_run;
    [| unfold lift; rewrite (view_flatten_run RM St) by lia; reflexivity].
  apply bindM_fails. unfold ConvEncoder.call.
  rewrite (@linear_shape _ _ (ConvEncoder.fc1 s) (mkTensor [b; numel rest] (data t))
             [b] (numel rest) eq_refl).
  destruct (Nat.eqb_spec (numel rest) (in_features (ConvEncoder.fc1 s)));
    [contradiction | reflexivity].
Qed.

(** X5.  A three-channel batch of another spatial size than the 8192
    features of [fc1] stand for (ceil(W / 4) * ceil(H / 4) <> 64) passes the
    convolutions of ConvEncoder and is refused by [fc1] with a RuntimeError;
    in training mode the three batch normalisations before [fc1] have by then
    counted the batch, the two after it have not. *)
Theorem conv_wrong_size_fails_at_fc1 sd (output_dim : nat) (mode : bool)
    (inputs : Tensor R) (b w h : nat) :
  shape inputs = [b; 3; w; h] -> 1 <= b -> (mode = true -> 2 <= b) ->
  1 <= w -> 1 <= h -> (w + 3) / 4 * ((h + 3) / 4) <> 64 ->
  let self := ConvEncoder.train mode (ConvEncoder.init sd output_dim) in
  let self' := snd (ConvEncoder.forward inputs self) in
  fst (ConvEncoder.forward inputs self) = Raise RuntimeError "fc1" /\
  conv_counters self'
  = [num_batches_tracked (ConvEncoder.bn1 self) + Nat.b2n mode;
     num_batches_tracked (ConvEncoder.bn2 self) + Nat.b2n mode;
     num_batches_tracked (ConvEncoder.bn3 self) + Nat.b2n mode;
     num_batches_tracked (ConvEncoder.bn1_fc self);
     num_batches_tracked (ConvEncoder.bn2_fc self)].
Proof.
  intros Sx Hb Hm Hw Hh Hs self self'.
  destruct (@conv_features_run sd output_dim mode (contiguous inputs) b w h
              eq_refl Sx Hw Hh)
    as (t8 & bn1' & bn2' & bn3' & S8 & R8 & C1 & C2 & C3 & Ep);
    [intros ->; left; specialize (Hm eq_refl); lia|].
  fold self in C1, C2, C3, Ep.
  assert (E : ConvEncoder.forward inputs self
              = (Raise RuntimeError "fc1",
                 ConvEncoder.set_bn3
                   (ConvEncoder.set_bn2 (ConvEncoder.set_bn1 self bn1') bn2') bn3')).
  { unfold ConvEncoder.forward, ConvEncoder.mu_logvar. rewrite Sx.
    apply bindM_fails.
    erewrite bindM_run; [| apply conv_view_run with (1 := Sx); nia].
    rewrite Ep.
    apply (@conv_dense_wrong_width (leaky_relu t8) _ b
             [128; pooled (pooled w); pooled (pooled h)]).
    - exact R8.
    - exact S8.
    - lia.
    - cbn [numel fold_right ConvEncoder.fc1 ConvEncoder.set_bn1 ConvEncoder.set_bn2
           ConvEncoder.set_bn3 self ConvEncoder.train ConvEncoder.init in_features
           Linear_init].
      rewrite !pooled_twice by assumption. lia. }
  subst self'. rewrite E. split; [reflexivity|].
  unfold conv_counters. cbn [snd map ConvEncoder.bn1 ConvEncoder.bn2 ConvEncoder.bn3
    ConvEncoder.bn1_fc ConvEncoder.bn2_fc ConvEncoder.set_bn1 ConvEncoder.set_bn2
    ConvEncoder.set_bn3].
  rewrite C1, C2, C3. reflexivity.
Qed.

(** X6.  A call of ConvEncoder.forward that returns has moved the batch
    counter of each of the five batch normalisations by one if that
    normalisation is in training mode, and left it if it is in evaluation
    mode. *)
Theorem conv_forward_counts_batches (self self' : ConvEncoder.t R) (inputs : Tensor R)
    (out : Tensor R * Tensor R) :
  ConvEncoder.forward inputs self = (Ok out, self') ->
  conv_counters self'
  = [num_batches_tracked (ConvEncoder.bn1 self) + Nat.b2n (bn_training (ConvEncoder.bn1 self));
     num_batches_tracked (ConvEncoder.bn2 self) + Nat.b2n (bn_training (ConvEncoder.bn2 self));
     num_batches_tracked (ConvEncoder.bn3 self) + Nat.b2n (bn_training (ConvEncoder.bn3 self));
     num_batches_tracked (ConvEncoder.bn1_fc self)
     + Nat.b2n (bn_training (ConvEncoder.bn1_fc self));
     num_batches_tracked (ConvEncoder.bn2_fc self)
     + Nat.b2n (bn_training (ConvEncoder.bn2_fc self))].
Proof.
  unfold ConvEncoder.forward, ConvEncoder.mu_logvar.
  destruct (shape inputs) as [|b [|c [|w [|h [|? ?]]]]]; try discriminate.
  intros E.
  inv_bindM E as p s0 E0. injection E as _ <-.
  inv_bindM E0 as x0 s E. apply lift_Ok in E as (_ & ->).
  unfold ConvEncoder.pipeline in E0.
  inv_bindM E0 as t1 s1 E1. apply call_Ok in E1 as (_ & ->).
  inv_bindM E0 as t2 s2 E2. apply call_bn_Ok in E2 as (b2 & E2 & ->).
  inv_bindM E0 as t3 s3 E3. apply pool_Ok in E3 as (_ & ->).
  inv_bindM E0 as t4 s4 E4. apply call_Ok in E4 as (_ & ->).
  inv_bindM E0 as t5 s5 E5. apply call_bn_Ok in E5 as (b5 & E5 & ->).
  inv_bindM E0 as t6 s6 E6. apply pool_Ok in E6 as (_ & ->).
  inv_bindM E0 as t7 s7 E7. apply call_Ok in E7 as (_ & ->).
  inv_bindM E0 as t8 s8 E8. apply call_bn_Ok in E8 as (b8 & E8 & ->).
  inv_bindM E0 as v s9 E9. apply lift_Ok in E9 as (_ & ->).
  inv_bindM E0 as y1 s10 E10. apply call_Ok in E10 as (_ & ->).
  inv_bindM E0 as y2 s11 E11. apply call_bn_Ok in E11 as (b11 & E11 & ->).
  inv_bindM E0 as y3 s12 E12. apply call_Ok in E12 as (_ & ->).
  inv_bindM E0 as y4 s13 E13. apply call_bn_Ok in E13 as (b13 & E13 & ->).
  apply call_Ok in E0 as (_ & ->).
  apply batch_norm_counts in E2, E5, E8, E11, E13.
  unfold conv_counters.
  cbn [map ConvEncoder.bn1 ConvEncoder.bn2 ConvEncoder.bn3 ConvEncoder.bn1_fc
       ConvEncoder.bn2_fc ConvEncoder.set_bn1 ConvEncoder.set_bn2 ConvEncoder.set_bn3
       ConvEncoder.set_bn1_fc ConvEncoder.set_bn2_fc] in *.
  rewrite E2, E5, E8, E11, E13. reflexivity.
Qed.

(** X7.  A freshly constructed ConvEncoder (training mode) given a single
    three-channel image of a size it is made for raises ValueError at
    [bn1_fc], the first batch normalisation to see one value per channel; the
    call is not undone: [bn1], [bn2], [bn3] and [bn1_fc] have counted the
    batch, [bn2_fc] has not. *)
Theorem conv_single_image_partly_counted sd (output_dim : nat) (inputs : Tensor R)
    (w h : nat) :
  shape inputs = [1; 3; w; h] -> (w + 3) / 4 * ((h + 3) / 4) = 64 ->
  let self := ConvEncoder.init sd output_dim in
  let self' := snd (ConvEncoder.forward inputs self) in
  fst (ConvEncoder.forward inputs self) = Raise ValueError "bn1_fc" /\
  conv_counters self'
  = [num_batches_tracked (ConvEncoder.bn1 self) + 1;
     num_batches_tracked (ConvEncoder.bn2 self) + 1;
     num_batches_tracked (ConvEncoder.bn3 self) + 1;
     num_batches_tracked (ConvEncoder.bn1_fc self) + 1;
     num_batches_tracked (ConvEncoder.bn2_fc self)].
Proof.
  intros Sx Hs self self'.
  assert (Hw : 1 <= w) by (destruct w; [cbn in Hs; lia | lia]).
  assert (Hh : 1 <= h) by (destruct h; [cbn in Hs; lia | lia]).
  assert (Hp : pooled (pooled w) * pooled (pooled h) = 64)
    by (rewrite !pooled_twice by assumption; exact Hs).
  destruct (@conv_features_run sd output_dim true (contiguous inputs) 1 w h
              eq_refl Sx Hw Hh)
    as (t8 & bn1' & bn2' & bn3' & S8 & R8 & C1 & C2 & C3 & Ep); [intros _; right; lia|].
  change (ConvEncoder.train true (ConvEncoder.init sd output_dim)) with self in *.
  assert (E : ConvEncoder.forward inputs self
              = (Raise ValueError "bn1_fc",
                 ConvEncoder.set_bn1_fc
                   (ConvEncoder.set_bn3 (ConvEncoder.set_bn2 (ConvEncoder.set_bn1 self bn1') bn2')
                      bn3')
                   (set_stats (ConvEncoder.bn1_fc self)
                      (running_mean (ConvEncoder.bn1_fc self))
                      (running_var (ConvEncoder.bn1_fc self))
                      (num_batches_tracked (ConvEncoder.bn1_fc self) + 1)))).
  { unfold ConvEncoder.forward, ConvEncoder.mu_logvar. rewrite Sx.
    apply bindM_fails.
    erewrite bindM_run; [| apply conv_view_run with (1 := Sx); nia].
    rewrite Ep.
    erewrite (@conv_dense_single (leaky_relu t8) _ [128; pooled (pooled w); pooled (pooled h)]).
    - reflexivity.
    - exact R8.
    - exact S8.
    - cbn [numel fold_right]. rewrite Nat.mul_1_r, Hp. reflexivity.
    - reflexivity.
    - reflexivity. }
  subst self'. rewrite E. split; [reflexivity|].
  unfold conv_counters. cbn [snd map ConvEncoder.bn1 ConvEncoder.bn2 ConvEncoder.bn3
    ConvEncoder.bn1_fc ConvEncoder.bn2_fc ConvEncoder.set_bn1 ConvEncoder.set_bn2
    ConvEncoder.set_bn3 ConvEncoder.set_bn1_fc set_stats num_batches_tracked].
  rewrite C1, C2, C3. reflexivity.
Qed.

(** X8.  DomainEncoder.forward in training mode moves the batch counter of
    its batch normalisation by one exactly when every index is in range (the
    embedding returns), whether or not the call then returns; in evaluation
    mode the counter stays.  In particular the single in-range sample that
    training mode refuses with a ValueError is counted all the same, while
    the running mean and variance stay as they were. *)
Theorem domain_forward_counts_batch sd (num_domains output_dim : nat) (mode : bool)
    (inputs : list Z) :
  let self := DomainEncoder.train mode (DomainEncoder.init sd num_domains output_dim) in
  num_batches_tracked (DomainEncoder.bn (snd (DomainEncoder.forward inputs self)))
  = num_batches_tracked (DomainEncoder.bn self)
    + Nat.b2n (mode && forallb (in_range num_domains) inputs) /\
  (forall i, mode = true -> in_range num_domains i = true ->
     DomainEncoder.forward [i] self
     = (Raise ValueError "bn",
        DomainEncoder.set_bn self
          (set_stats (DomainEncoder.bn self)
             (running_mean (DomainEncoder.bn self)) (running_var (DomainEncoder.bn self))
             (num_batches_tracked (DomainEncoder.bn self) + 1)))).
Proof.
  intros self. split.
  - unfold DomainEncoder.forward, DomainEncoder.mu_logvar, bindM, embedding.
    cbn [DomainEncoder.embed self DomainEncoder.train DomainEncoder.init
         num_embeddings Embedding_init].
    destruct (forallb _ inputs) eqn:Hr; cbn [within].
    + unfold DomainEncoder.call_bn.
      pose proof (@batch_norm_counts_any
                    (DomainEncoder.bn (DomainEncoder.train mode
                       (DomainEncoder.init sd num_domains output_dim)))
                    (embedding_out (Embedding_init sd "embed" num_domains 512) inputs)
                    (length inputs) 512 [] eq_refl eq_refl) as C.
      destruct (batch_norm _ _) as [[y|e site] bn'].
      * cbn [within snd] in *.
        destruct (within _ _); cbn [snd DomainEncoder.bn DomainEncoder.set_bn];
          rewrite C; destruct mode; reflexivity.
      * cbn [within snd DomainEncoder.bn DomainEncoder.set_bn] in *.
        rewrite C; destruct mode; reflexivity.
    + cbn [snd]. rewrite andb_false_r. cbn. lia.
  - intros i -> Hr.
    unfold DomainEncoder.forward, DomainEncoder.mu_logvar, bindM, embedding.
    cbn [DomainEncoder.embed self DomainEncoder.train DomainEncoder.init
         num_embeddings Embedding_init forallb].
    rewrite Hr. reflexivity.
Qed.

End Counting.

(** ** No latent dimension, no sample *)

Section EdgeCases.
Context {R : Type} `{Scalar R}.

(** The projection of EncoderBurgess on a fitting batch, for any latent_dim. *)
Lemma burgess_mu_logvar_run sd c h w L (x : Tensor R) b hh ww :
  suggest_memory_format x = Contiguous ->
  shape x = [b; c; hh; ww] -> 1 <= b ->
  let k := if EncoderBurgess.is_64 (c, h, w) then 4 else 3 in
  32 * (hh / 2 ^ k * (ww / 2 ^ k)) = 32 * 4 * 4 ->
  exists p,
    EncoderBurgess.mu_logvar (EncoderBurgess.init sd (c, h, w) L) x = Ok p /\
    shape p = [b; L * 2] /\ row_major p.
Proof.
  intros RM S Hb k Hk.
  destruct (@burgess_convs_run _ _ sd c h w L x b hh ww RM S) as (y & Ey & Sy & _ & Ry);
    fold k; try nia.
  fold k in Sy.
  unfold EncoderBurgess.mu_logvar, EncoderBurgess.batch_size.
  rewrite S. cbn [bind]. rewrite Ey. cbn [bind].
  rewrite (view_flatten_run Ry Sy) by lia. cbn [within bind].
  cbn [EncoderBurgess.lin1 EncoderBurgess.lin2 EncoderBurgess.mu_logvar_gen
       EncoderBurgess.init].
  replace (numel [32; hh / 2 ^ k; ww / 2 ^ k])
    with (in_features (Linear_init sd "lin1" (32 * 4 * 4) 256))
    by (cbn [numel fold_right in_features Linear_init]; lia).
  rewrite (@linear_2d_run _ _ (Linear_init sd "lin1" (32 * 4 * 4) 256) _ b) by reflexivity.
  cbn [within bind].
  rewrite (@linear_2d_run _ _ (Linear_init sd "lin2" 256 256) _ b) by reflexivity.
  cbn [within bind].
  rewrite (@linear_2d_run _ _ (Linear_init sd "mu_logvar_gen" 256 (L * 2)) _ b)
    by reflexivity.
  cbn [within]. eexists. split; [reflexivity|]. split; reflexivity.
Qed.

(** A channels-last batch of a fitting size: the feature maps are
    channels-last and of 16 positions, and line 82 refuses them. *)
Lemma burgess_channels_last_fails sd c h w L (x : Tensor R) b hh ww :
  suggest_memory_format x = ChannelsLast ->
  shape x = [b; c; hh; ww] -> 1 <= b ->
  let k := if EncoderBurgess.is_64 (c, h, w) then 4 else 3 in
  32 * (hh / 2 ^ k * (ww / 2 ^ k)) = 32 * 4 * 4 ->
  EncoderBurgess.forward (EncoderBurgess.init sd (c, h, w) L) x = Raise RuntimeError "view".
Proof.
  intros CL S Hb k Hk.
  destruct (@burgess_convs_run _ _ sd c h w L (contiguous x) b hh ww
              (row_major_suggest (t := contiguous x) eq_refl) S)
    as (y & Ey & Sy & _); fold k; try nia.
  fold k in Sy.
  eapply burgess_view_fails; [exact S | |].
  - rewrite burgess_convs_layout by now rewrite S. rewrite Ey, CL. reflexivity.
  - rewrite (view_flatten_channels_last y Sy) by nia.
    destruct (Nat.eqb_spec (hh / 2 ^ k * (ww / 2 ^ k)) 1); [lia | reflexivity].
Qed.

(** A batch without samples never looks channels-last. *)
Lemma empty_batch_contiguous (x : Tensor R) c h w :
  shape x = [0; c; h; w] -> suggest_memory_format x = Contiguous.
Proof.
  intros S. destruct (suggest_memory_format x) eqn:F; [reflexivity|].
  apply (suggest_channels_last_sizes _ S) in F. lia.
Qed.

(** X9.  With latent_dim = 0 the three encoders part ways.  EncoderBurgess
    splits with [view(-1, latent_dim, 2)], which cannot infer the batch
    dimension of a projection without elements: forward raises RuntimeError
    on every batch it is made for.  ConvEncoder and DomainEncoder split with
    [view(batch_size, latent_dim, 2)] and return a pair of (b, 0) tensors. *)
Theorem latent_dim_zero sd (img_size : nat * nat * nat) (num_domains : nat) (mode : bool)
    (x : Tensor R) (idx : list Z) (b : nat) :
  (input_fits (CfgBurgess img_size 0) (Image x) b -> 1 <= b ->
   EncoderBurgess.forward (EncoderBurgess.init sd img_size 0) x
   = Raise RuntimeError "view") /\
  (input_fits (CfgConv 0) (Image x) b -> 1 <= b -> (mode = true -> 2 <= b) ->
   exists mu logvar self',
     ConvEncoder.forward x (ConvEncoder.train mode (ConvEncoder.init sd 0))
     = (Ok (mu, logvar), self') /\
     shape mu = [b; 0] /\ shape logvar = [b; 0]) /\
  (forallb (in_range num_domains) idx = true -> (mode = true -> length idx <> 1) ->
   exists mu logvar self',
     DomainEncoder.forward idx (DomainEncoder.train mode (DomainEncoder.init sd num_domains 0))
     = (Ok (mu, logvar), self') /\
     shape mu = [length idx; 0] /\ shape logvar = [length idx; 0]).
Proof.
  split; [| split].
  - destruct img_size as [[c h] w]. intros (hh & ww & Sx & Hk) Hb.
    destruct (suggest_memory_format x) eqn:F;
      [| exact (@burgess_channels_last_fails sd c h w 0 x b hh ww F Sx Hb Hk)].
    destruct (@burgess_mu_logvar_run sd c h w 0 x b hh ww F Sx Hb Hk) as (p & Ep & _ & Rp).
    unfold EncoderBurgess.forward. rewrite Ep. cbn [bind].
    rewrite (split_mu_logvar_infer _ Rp). reflexivity.
  - intros (hh & ww & Sx & Hh & Hw & Hf) Hb Hm.
    destruct (@conv_forward_run _ _ sd 0 mode x b hh ww Sx Hh Hw Hb Hm Hf)
      as (p & e' & _ & _ & E).
    eexists _, _, _. split; [exact E|]. split; reflexivity.
  - intros Hr Hm.
    destruct (@domain_forward_run _ _ sd num_domains 0 mode idx Hr Hm) as (p & e' & _ & _ & E).
    eexists _, _, _. split; [exact E|]. split; reflexivity.
Qed.

(** X10.  On a batch without samples (of the sample shape the encoder is made
    for) EncoderBurgess.forward and ConvEncoder.forward raise RuntimeError:
    the convolutions pass the empty batch on, and the flattening
    [view(batch_size, -1)] cannot infer a dimension next to batch_size = 0.
    DomainEncoder.forward has no such reshape and returns a pair of empty
    (0, latent_dim) tensors, in either mode. *)
Theorem empty_batch sd (img_size : nat * nat * nat) (latent_dim num_domains : nat)
    (mode : bool) (x : Tensor R) :
  (input_fits (CfgBurgess img_size latent_dim) (Image x) 0 ->
   EncoderBurgess.forward (EncoderBurgess.init sd img_size latent_dim) x
   = Raise RuntimeError "view") /\
  (input_fits (CfgConv latent_dim) (Image x) 0 ->
   fst (ConvEncoder.forward x (ConvEncoder.train mode (ConvEncoder.init sd latent_dim)))
   = Raise RuntimeError "view") /\
  (exists mu logvar self',
     DomainEncoder.forward []
       (DomainEncoder.train mode (DomainEncoder.init sd num_domains latent_dim))
     = (Ok (mu, logvar), self') /\
     shape mu = [0; latent_dim] /\ shape logvar = [0; latent_dim]).
Proof.
  split; [| split].
  - destruct img_size as [[c h] w]. intros (hh & ww & Sx & Hk).
    cbv zeta in Hk. set (k := if EncoderBurgess.is_64 (c, h, w) then 4 else 3) in Hk.
    destruct (@burgess_convs_run _ _ sd c h w latent_dim x 0 hh ww
                (empty_batch_contiguous _ Sx) Sx) as (y & Ey & Sy & _);
      fold k; try nia.
    unfold EncoderBurgess.forward, EncoderBurgess.mu_logvar, EncoderBurgess.batch_size.
    rewrite Sx. cbn [bind]. rewrite Ey. cbn [bind].
    unfold view. rewrite infer_flatten. reflexivity.
  - intros (hh & ww & Sx & Hh & Hw & Hf).
    destruct (@conv_features_run _ _ sd latent_dim mode (contiguous x) 0 hh ww
                eq_refl Sx Hh Hw)
      as (t8 & bn1' & bn2' & bn3' & _ & _ & _ & _ & _ & Ep); [intros _; left; lia|].
    unfold ConvEncoder.forward, ConvEncoder.mu_logvar. rewrite Sx.
    unfold bindM at 1.
    erewrite bindM_run; [| apply conv_view_run with (1 := Sx); nia].
    rewrite Ep, conv_dense_empty. reflexivity.
  - destruct (@domain_forward_run _ _ sd num_domains latent_dim mode [] eq_refl)
      as (p & e' & _ & _ & E); [cbn; lia|].
    eexists _, _, _. split; [exact E|]. split; reflexivity.
Qed.

End EdgeCases.

(** ** DomainEncoder in evaluation mode is a table *)

Section Lookup.
Context {R : Type} `{Scalar R}.

(** In evaluation mode the projection of DomainEncoder is a closed expression
    of the indices. *)
Lemma domain_eval_projection sd n L (idx : list Z) (p : Tensor R) e' :
  let self := DomainEncoder.train false (DomainEncoder.init sd n L) in
  DomainEncoder.mu_logvar idx self = (Ok p, e') ->
  p = linear_out (DomainEncoder.mu_logvar_gen self) [length idx] 512
        (data (leaky_relu
                 (bn_output (DomainEncoder.bn self) 512 1
                    (fun k => running_mean (DomainEncoder.bn self) [k])
                    (fun k => running_var (DomainEncoder.bn self) [k])
                    (embedding_out (DomainEncoder.embed self) idx)))).
Proof.
  intros self E. unfold DomainEncoder.mu_logvar in E.
  inv_bindM E as h1 s1 Eh. injection Eh as Eh <-. apply within_Ok in Eh.
  inv_bindM E as y1 s2 Ey. unfold DomainEncoder.call_bn in Ey.
  destruct (batch_norm _ h1) as [r1 bn1] eqn:Eb. injection Ey as Ey <-.
  apply within_Ok in Ey. subst r1. injection E as E _. apply within_Ok in E.
  unfold embedding in Eh. destruct (forallb _ idx); [|discriminate].
  injection Eh as <-.
  eapply batch_norm_eval_Ok in Eb; [| reflexivity]. destruct Eb as (m & sp & Sx & ->).
  cbn [embedding_out shape] in Sx. injection Sx as _ <-.
  eapply linear_2d_Ok in E as (_ & -> & _); [| reflexivity].
  reflexivity.
Qed.

(** X11.  What DomainEncoder.forward computes in evaluation mode, sample by
    sample: with [h] the embedding row of the sample's domain, normalised
    feature by feature with the running mean and variance and passed through
    the leaky ReLU, the mean is the even and the logvar the odd rows of the
    projection applied to it:
    [mean[i, k] = sum_j h[j] * W[2k, j] + bias[2k]] and
    [logvar[i, k] = sum_j h[j] * W[2k + 1, j] + bias[2k + 1]]. *)
Theorem domain_eval_output sd (num_domains output_dim : nat) (inputs : list Z)
    (mu logvar : Tensor R) (self' : DomainEncoder.t R) (i k : nat) :
  let self := DomainEncoder.train false (DomainEncoder.init sd num_domains output_dim) in
  DomainEncoder.forward inputs self = (Ok (mu, logvar), self') ->
  i < length inputs -> k < output_dim ->
  let bn := DomainEncoder.bn self in
  let h := fun j =>
    leaky_relu_s
      (normalize (bn_eps bn) (running_mean bn [j]) (running_var bn [j])
         (bn_weight bn [j]) (bn_bias bn [j])
         (emb_weight (DomainEncoder.embed self) [Z.to_nat (nth i inputs 0%Z); j])) in
  let out := fun o =>
    radd (sum_upto 512 (fun j => rmul (h j) (lin_weight (DomainEncoder.mu_logvar_gen self) [o; j])))
         (lin_bias (DomainEncoder.mu_logvar_gen self) [o]) in
  get2 mu i k = out (2 * k) /\ get2 logvar i k = out (2 * k + 1).
Proof.
  intros self E Hi Hk bn h out.
  apply domain_forward_Ok in E as (p & P & S & _ & Hh).
  pose proof (@halves_get2 _ _ _ _ _ _ _ S Hi Hk) as (M & V).
  rewrite <- Hh in M, V. cbn [fst snd] in M, V. rewrite M, V.
  assert (Row : forall q, q < output_dim * 2 -> get2 p i q = out q).
  { intros q Hq. unfold get2. rewrite S. cbn [nth].
    apply domain_eval_projection in P. subst p.
    unfold linear_out.
    cbn [data DomainEncoder.mu_logvar_gen DomainEncoder.train DomainEncoder.init
         out_features Linear_init].
    assert (E1 : numel [length inputs] * (output_dim * 2) = length inputs * (output_dim * 2))
      by (simpl; lia).
    rewrite E1, at_tabulate by (apply sample_bound; assumption).
    rewrite div_sample, mod_sample by exact Hq.
    subst out. cbv beta. f_equal. apply sum_upto_ext. intros j Hj. f_equal.
    unfold leaky_relu, map_tensor. cbn [data].
    rewrite at_map.
    2:{ unfold bn_output. cbn [data shape embedding_out]. rewrite tabulate_length.
        cbn [numel fold_right DomainEncoder.embed DomainEncoder.train DomainEncoder.init
             embedding_dim Embedding_init].
        rewrite Nat.mul_1_r. apply sample_bound; assumption. }
    subst h. cbv beta. f_equal. unfold bn_output.
    cbn [data shape embedding_out DomainEncoder.embed DomainEncoder.train DomainEncoder.init
         embedding_dim Embedding_init].
    assert (E2 : numel [length inputs; 512] = length inputs * 512)
      by (cbn [numel fold_right]; lia).
    rewrite E2, at_tabulate by (apply sample_bound; assumption).
    rewrite Nat.div_1_r, mod_sample by exact Hj.
    subst bn. f_equal.
    rewrite at_tabulate by (apply sample_bound; assumption).
    rewrite div_sample, mod_sample by exact Hj. reflexivity. }
  split; apply Row; lia.
Qed.

(** In training mode a batch normalisation that returns has normalised with
    the mean and the biased variance of the batch. *)
Lemma batch_norm_train_Ok (bn bn' : BatchNorm R) (x y : Tensor R) :
  bn_training bn = true -> batch_norm bn x = (Ok y, bn') ->
  exists n sp,
    shape x = n :: num_features bn :: sp /\
    y = bn_output bn (num_features bn) (numel sp)
          (batch_mean (num_features bn) (numel sp) n (data x))
          (batch_var (num_features bn) (numel sp) n (data x)) x.
Proof.
  intros T. unfold batch_norm. rewrite T.
  destruct (negb _); [discriminate|].
  destruct (shape x) as [|n [|c sp]] eqn:Sx; try discriminate.
  destruct (_ =? 1); [discriminate|].
  destruct (Nat.eqb_spec c (num_features bn)) as [->|]; cbn [negb]; [|discriminate].
  intros E. injection E as <- _. exists n, sp. split; reflexivity.
Qed.

(** X12.  What DomainEncoder.forward computes in training mode, sample by
    sample: the expression of evaluation mode with the running statistics
    replaced by the mean and the biased variance, feature by feature, of the
    embedding rows of the batch.  The other samples of the batch reach the
    outputs of a sample through these two statistics only. *)
Theorem domain_train_output sd (num_domains output_dim : nat) (inputs : list Z)
    (mu logvar : Tensor R) (self' : DomainEncoder.t R) (i k : nat) :
  let self := DomainEncoder.train true (DomainEncoder.init sd num_domains output_dim) in
  DomainEncoder.forward inputs self = (Ok (mu, logvar), self') ->
  i < length inputs -> k < output_dim ->
  let bn := DomainEncoder.bn self in
  let x := embedding_out (DomainEncoder.embed self) inputs in
  let h := fun j =>
    leaky_relu_s
      (normalize (bn_eps bn)
         (batch_mean 512 1 (length inputs) (data x) j)
         (batch_var 512 1 (length inputs) (data x) j)
         (bn_weight bn [j]) (bn_bias bn [j])
         (emb_weight (DomainEncoder.embed self) [Z.to_nat (nth i inputs 0%Z); j])) in
  let out := fun o =>
    radd (sum_upto 512
            (fun j => rmul (h j) (lin_weight (DomainEncoder.mu_logvar_gen self) [o; j])))
         (lin_bias (DomainEncoder.mu_logvar_gen self) [o]) in
  get2 mu i k = out (2 * k) /\ get2 logvar i k = out (2 * k + 1).
Proof.
  intros self E Hi Hk bn x h out.
  apply domain_forward_Ok in E as (p & P & S & _ & Hh).
  pose proof (@halves_get2 _ _ _ _ _ _ _ S Hi Hk) as (M & V).
  rewrite <- Hh in M, V. cbn [fst snd] in M, V. rewrite M, V.
  assert (Ep : p = linear_out (DomainEncoder.mu_logvar_gen self) [length inputs] 512
                 (data (leaky_relu
                          (bn_output bn 512 1
                             (batch_mean 512 1 (length inputs) (data x))
                             (batch_var 512 1 (length inputs) (data x)) x)))).
  { unfold DomainEncoder.mu_logvar in P.
    inv_bindM P as h1 s1 Eh. injection Eh as Eh <-. apply within_Ok in Eh.
    inv_bindM P as y1 s2 Ey. unfold DomainEncoder.call_bn in Ey.
    destruct (batch_norm _ h1) as [r1 bn1] eqn:Eb. injection Ey as Ey <-.
    apply within_Ok in Ey. subst r1. injection P as P _. apply within_Ok in P.
    unfold embedding in Eh. destruct (forallb _ inputs); [|discriminate].
    injection Eh as <-.
    eapply batch_norm_train_Ok in Eb; [| reflexivity]. destruct Eb as (m & sp & Sx & ->).
    cbn [embedding_out shape] in Sx. injection Sx as <- <-.
    eapply linear_2d_Ok in P as (_ & -> & _); [| reflexivity].
    reflexivity. }
  assert (Row : forall q, q < output_dim * 2 -> get2 p i q = out q).
  { intros q Hq. unfold get2. rewrite S. cbn [nth]. subst p.
    unfold linear_out.
    cbn [data DomainEncoder.mu_logvar_gen self DomainEncoder.train DomainEncoder.init
         out_features Linear_init].
    assert (E1 : numel [length inputs] * (output_dim * 2) = length inputs * (output_dim * 2))
      by (simpl; lia).
    rewrite E1, at_tabulate by (apply sample_bound; assumption).
    rewrite div_sample, mod_sample by exact Hq.
    subst out. cbv beta. f_equal. apply sum_upto_ext. intros j Hj. f_equal.
    unfold leaky_relu, map_tensor. cbn [data].
    rewrite at_map.
    2:{ unfold bn_output. cbn [data shape]. rewrite tabulate_length.
        subst x. cbn [shape embedding_out numel fold_right DomainEncoder.embed self
                      DomainEncoder.train DomainEncoder.init embedding_dim Embedding_init].
        rewrite Nat.mul_1_r. apply sample_bound; assumption. }
    subst h. cbv beta. f_equal. unfold bn_output. cbn [data].
    assert (E2 : numel (shape x) = length inputs * 512)
      by (subst x; cbn [shape embedding_out numel fold_right DomainEncoder.embed self
                        DomainEncoder.train DomainEncoder.init embedding_dim Embedding_init];
          lia).
    rewrite E2, at_tabulate by (apply sample_bound; assumption).
    rewrite Nat.div_1_r, mod_sample by exact Hj.
    f_equal. subst x. unfold embedding_out.
    cbn [data DomainEncoder.embed self DomainEncoder.train DomainEncoder.init
         embedding_dim Embedding_init].
    rewrite at_tabulate by (apply sample_bound; assumption).
    rewrite div_sample, mod_sample by exact Hj. reflexivity. }
  split; apply Row; lia.
Qed.

End Lookup.

(** ** get_encoder on names *)

Lemma lower_char_idem (c : ascii) : lower_char (lower_char c) = lower_char c.
Proof. destruct c as [[] [] [] [] [] [] [] []]; reflexivity. Qed.

Lemma lower_idem (s : string) : lower (lower s) = lower s.
Proof.
  induction s as [|c r IH]; cbn [lower]; [reflexivity|].
  now rewrite lower_char_idem, IH.
Qed.

Lemma upper_lower_B (c : ascii) :
  upper_char (lower_char c) = "B"%char -> lower_char c = "b"%char.
Proof. destruct c as [[] [] [] [] [] [] [] []]; vm_compute; intros E; congruence. Qed.

Lemma is_name_char_lower (c : ascii) :
  is_name_char c = true -> is_name_char (lower_char c) = true.
Proof. destruct c as [[] [] [] [] [] [] [] []]; vm_compute; intros E; congruence. Qed.

Lemma is_name_char_upper (c : ascii) :
  is_name_char c = true -> is_name_char (upper_char c) = true.
Proof. destruct c as [[] [] [] [] [] [] [] []]; vm_compute; intros E; congruence. Qed.

Lemma all_name_chars_lower (s : string) :
  all_chars is_name_char s = true -> all_chars is_name_char (lower s) = true.
Proof.
  induction s as [|c r IH]; cbn [lower all_chars]; [reflexivity|].
  intros E. apply andb_true_iff in E as (Ec & Er).
  now rewrite (is_name_char_lower _ Ec), (IH Er).
Qed.

Lemma all_name_chars_normalised (s : string) :
  all_chars is_name_char s = true ->
  all_chars is_name_char (capitalize (lower s)) = true.
Proof.
  destruct s as [|c r]; [reflexivity|]. cbn [lower capitalize all_chars].
  intros E. apply andb_true_iff in E as (Ec & Er).
  rewrite (is_name_char_upper _ (is_name_char_lower _ Ec)).
  rewrite lower_idem. now rewrite (all_name_chars_lower _ Er).
Qed.

Lemma normalised_Burgess (s : string) :
  capitalize (lower s) = "Burgess"%string <-> lower s = "burgess"%string.
Proof.
  destruct s as [|c r]; cbn [lower capitalize]; [split; discriminate|].
  rewrite lower_idem. split; intros E.
  - injection E as Ec Er. apply upper_lower_B in Ec. now rewrite Ec, Er.
  - injection E as Ec Er. now rewrite Ec, Er.
Qed.

Lemma is_identifier_Encoder (t : string) :
  is_identifier (String.append "Encoder" t) = all_chars is_name_char t.
Proof. reflexivity. Qed.

(** X14.  On a model type written with ASCII letters, digits and
    underscores only (the empty string included) get_encoder either returns
    the class EncoderBurgess, exactly when the lower-cased model type is
    "burgess", or raises NameError for the name "Encoder" followed by the
    capitalised model type. *)
Theorem get_encoder_on_names (s : string) :
  all_chars is_name_char s = true ->
  get_encoder s
  = Some (if String.eqb (lower s) "burgess"
          then Ok (PyClass ClsEncoderBurgess)
          else Raise NameError (String.append "Encoder" (capitalize (lower s)))).
Proof.
  intros Hs. unfold get_encoder, eval_name.
  rewrite is_identifier_Encoder, (all_name_chars_normalised _ Hs). f_equal.
  destruct (String.eqb_spec (lower s) "burgess") as [E | N].
  - apply normalised_Burgess in E. rewrite E. reflexivity.
  - destruct (lookup _ module_globals) as [o|] eqn:El; [|reflexivity].
    apply lookup_encoder_name in El as (E & _).
    apply normalised_Burgess in E. contradiction.
Qed.

(** ** What a ValueError tells *)

Section Raised.
Context {R : Type} `{Scalar R}.

Lemma bind_Raise {A B} (r : result A) (k : A -> result B) e site :
  bind r k = Raise e site ->
  r = Raise e site \/ exists a, r = Ok a /\ k a = Raise e site.
Proof.
  destruct r as [a|e' s']; cbn [bind]; intros E; [right; eauto|].
  injection E as -> ->. left. reflexivity.
Qed.

Lemma bindM_Raise {S A B} (m : M S A) (k : A -> M S B) (s s' : S) e site :
  bindM m k s = (Raise e site, s') ->
  m s = (Raise e site, s') \/ exists a s1, m s = (Ok a, s1) /\ k a s1 = (Raise e site, s').
Proof.
  unfold bindM. destruct (m s) as [[a|e' st] s1]; intros E; [right; eauto|].
  injection E as -> -> ->. left. reflexivity.
Qed.

Lemma within_Raise {A} site (r : result A) e st :
  within site r = Raise e st -> exists st', r = Raise e st'.
Proof. destruct r as [a|e' s']; cbn [within]; intros E; [discriminate|]. injection E as -> _. eauto. Qed.

Lemma view_raises (x : Tensor R) req e st : view x req = Raise e st -> e = RuntimeError.
Proof.
  unfold view, infer_size. intros E.
  repeat match type of E with
         | context [if ?t then _ else _] => destruct t; cbn [bind] in E
         | context [match compute_stride ?a ?b ?c with _ => _ end] =>
             destruct (compute_stride a b c)
         end; congruence.
Qed.

Lemma conv2d_batched_raises (l : Conv2d R) (x : Tensor R) e st :
  conv2d_batched l x = Raise e st -> e = RuntimeError.
Proof.
  unfold conv2d_batched. intros E.
  destruct (shape x) as [|n [|c [|h [|w [|? ?]]]]]; try congruence.
  repeat match type of E with
         | context [if ?t then _ else _] => destruct t
         end; congruence.
Qed.

Lemma conv2d_raises (l : Conv2d R) (x : Tensor R) e st :
  conv2d l x = Raise e st -> e = RuntimeError.
Proof.
  unfold conv2d. intros E. destruct (length (shape x) =? 3).
  - apply bind_Raise in E as [E | (? & _ & E)]; [|discriminate].
    now apply conv2d_batched_raises in E.
  - now apply conv2d_batched_raises in E.
Qed.

Lemma max_pool2d_raises k s p (x : Tensor R) e st :
  max_pool2d k s p x = Raise e st -> e = RuntimeError.
Proof.
  unfold max_pool2d. intros E.
  destruct (shape x) as [|n [|c [|h [|w [|? ?]]]]]; try congruence.
  repeat match type of E with
         | context [if ?t then _ else _] => destruct t
         end; congruence.
Qed.

Lemma linear_raises (l : Linear R) (x : Tensor R) e st :
  linear l x = Raise e st -> e = RuntimeError.
Proof.
  unfold linear. intros E. destruct (rev (shape x)); [congruence|].
  destruct (_ =? _); congruence.
Qed.

(** The split raises at its view only: what the view returns has a last
    dimension of 2, which unbinds to a pair. *)
Lemma split_sized_raises (b l : nat) (p : Tensor R) e st :
  split_mu_logvar (Z.of_nat b) l p = Raise e st -> e = RuntimeError.
Proof.
  unfold split_mu_logvar. intros E.
  apply bind_Raise in E as [E | (v & Ev & E)].
  - apply within_Raise in E as (? & E). now apply view_raises in E.
  - apply within_Ok in Ev. unfold view in Ev. rewrite infer_pairs in Ev.
    destruct (_ =? _); cbn [bind] in Ev; [|discriminate].
    destruct (compute_stride _ _ _); [|discriminate]. injection Ev as <-.
    discriminate E.
Qed.

Lemma split_infer_raises (l : nat) (p : Tensor R) e st :
  split_mu_logvar (-1)%Z l p = Raise e st -> e = RuntimeError.
Proof.
  unfold split_mu_logvar. intros E.
  apply bind_Raise in E as [E | (v & Ev & E)].
  - apply within_Raise in E as (? & E). now apply view_raises in E.
  - apply within_Ok in Ev. unfold view in Ev. rewrite infer_pairs_infer in Ev.
    destruct (_ || _); cbn [bind] in Ev; [discriminate|].
    destruct (compute_stride _ _ _); [|discriminate]. injection Ev as <-.
    discriminate E.
Qed.

(** On an input of the rank it is made for, a batch normalisation raises
    ValueError only in training mode, on one value per channel. *)
Lemma batch_norm_ValueError (bn bn' : BatchNorm R) (x : Tensor R) n c sp st :
  shape x = n :: c :: sp -> check_input_dim (bn_kind bn) (length (shape x)) = true ->
  batch_norm bn x = (Raise ValueError st, bn') ->
  bn_training bn = true /\ n * numel sp = 1.
Proof.
  intros Sx Hc. unfold batch_norm. rewrite Hc, Sx. cbn [negb].
  destruct (bn_training bn).
  - destruct (Nat.eqb_spec (n * numel sp) 1) as [E1|_]; [auto|].
    destruct (negb _); intros E; discriminate E.
  - destruct (negb _); intros E; discriminate E.
Qed.

Lemma burgess_convs_raises (self : EncoderBurgess.t R) (x : Tensor R) e st :
  EncoderBurgess.convs self x = Raise e st -> e <> ValueError.
Proof.
  unfold EncoderBurgess.convs. intros E.
  repeat (apply bind_Raise in E as [E | (? & _ & E)];
          [apply within_Raise in E as (? & E); apply conv2d_raises in E; congruence|]).
  destruct (EncoderBurgess.is_64 _); [|discriminate].
  destruct (EncoderBurgess.conv_64 self); [|congruence].
  apply bind_Raise in E as [E | (? & _ & E)]; [|discriminate].
  apply within_Raise in E as (? & E); apply conv2d_raises in E; congruence.
Qed.

Lemma burgess_forward_raises (self : EncoderBurgess.t R) (x : Tensor R) e st :
  EncoderBurgess.forward self x = Raise e st -> e <> ValueError.
Proof.
  unfold EncoderBurgess.forward, EncoderBurgess.mu_logvar. intros E.
  apply bind_Raise in E as [E | (? & _ & E)];
    [| apply split_infer_raises in E; congruence].
  apply bind_Raise in E as [E | (? & _ & E)].
  { unfold EncoderBurgess.batch_size in E. destruct (shape x); congruence. }
  apply bind_Raise in E as [E | (? & _ & E)];
    [apply burgess_convs_raises in E; exact E|].
  apply bind_Raise in E as [E | (? & _ & E)];
    [apply within_Raise in E as (? & E); apply view_raises in E; congruence|].
  apply bind_Raise in E as [E | (? & _ & E)];
    [apply within_Raise in E as (? & E); apply linear_raises in E; congruence|].
  apply bind_Raise in E as [E | (? & _ & E)];
    [apply within_Raise in E as (? & E); apply linear_raises in E; congruence|].
  apply within_Raise in E as (? & E); apply linear_raises in E; congruence.
Qed.

Lemma call_ValueError site (f : ConvEncoder.t R -> Tensor R -> result (Tensor R))
    (x : Tensor R) s st s' :
  (forall e st', f s x = Raise e st' -> e = RuntimeError) ->
  ConvEncoder.call site f x s = (Raise ValueError st, s') -> False.
Proof.
  intros Hf. unfold ConvEncoder.call. intros E. injection E as E _.
  apply within_Raise in E as (? & E). apply Hf in E. discriminate.
Qed.

Lemma call_bn_ValueError get set site (x : Tensor R) (s s' : ConvEncoder.t R) st n c sp :
  shape x = n :: c :: sp -> check_input_dim (bn_kind (get s)) (length (shape x)) = true ->
  ConvEncoder.call_bn get set site x s = (Raise ValueError st, s') ->
  bn_training (get s) = true /\ n * numel sp = 1.
Proof.
  intros Sx Hc. unfold ConvEncoder.call_bn.
  destruct (batch_norm (get s) x) as [r b'] eqn:Eb. intros E. injection E as E _.
  apply within_Raise in E as (st' & ->).
  exact (batch_norm_ValueError _ _ Sx Hc Eb).
Qed.

Lemma conv_is4_keep (l : Conv2d R) (x y : Tensor R) b :
  is4 b x -> conv2d l x = Ok y -> is4 b y.
Proof.
  intros X E. apply conv2d_is4 in E as (b' & X1 & X2 & _); [|exact (is4_length X)].
  now rewrite (is4_unique X X1).
Qed.

Lemma pool_is4_keep k s p (x y : Tensor R) b :
  is4 b x -> max_pool2d k s p x = Ok y -> is4 b y.
Proof.
  intros X E. apply max_pool2d_is4 in E as (b' & X1 & X2 & _).
  now rewrite (is4_unique X X1).
Qed.

Lemma bn_is4_keep (bn bn' : BatchNorm R) (x y : Tensor R) b :
  is4 b x -> batch_norm bn x = (Ok y, bn') -> is4 b (leaky_relu y).
Proof.
  intros (c & h & w & Sx) E. apply batch_norm_shape in E as (Sy & _).
  exists c, h, w. cbn [leaky_relu map_tensor shape]. now rewrite Sy.
Qed.

Lemma call_bn_4d_ValueError get set site (x : Tensor R) (s s' : ConvEncoder.t R) st b :
  is4 b x -> bn_kind (get s) = BN2d ->
  ConvEncoder.call_bn get set site x s = (Raise ValueError st, s') ->
  bn_training (get s) = true /\ b = 1.
Proof.
  intros (c & h & w & Sx) Hk E.
  eapply call_bn_ValueError in E as (T & E); [| exact Sx | rewrite Hk, Sx; reflexivity].
  split; [exact T|]. now apply Nat.eq_mul_1 in E.
Qed.

Lemma call_bn_2d_ValueError get set site (x : Tensor R) (s s' : ConvEncoder.t R) st b f :
  shape x = [b; f] -> bn_kind (get s) = BN1d ->
  ConvEncoder.call_bn get set site x s = (Raise ValueError st, s') ->
  bn_training (get s) = true /\ b = 1.
Proof.
  intros Sx Hk E.
  eapply call_bn_ValueError in E as (T & E); [| exact Sx | rewrite Hk, Sx; reflexivity].
  split; [exact T|]. now apply Nat.eq_mul_1 in E.
Qed.

Lemma conv_forward_ValueError sd L mode (x : Tensor R) st e' :
  ConvEncoder.forward x (ConvEncoder.train mode (ConvEncoder.init sd L))
  = (Raise ValueError st, e') ->
  mode = true /\ hd 0 (shape x) = 1.
Proof.
  unfold ConvEncoder.forward, ConvEncoder.mu_logvar.
  destruct (shape x) as [|b [|c [|w [|h [|? ?]]]]] eqn:Sx; try discriminate.
  cbn [hd]. intros E.
  apply bindM_Raise in E as [E | (p & s0 & _ & E)];
    [| injection E as E _; apply split_sized_raises in E; discriminate].
  apply bindM_Raise in E as [E | (x0 & s & E0 & E)].
  { unfold lift in E. injection E as E _. apply within_Raise in E as (? & E).
    apply view_raises in E. discriminate. }
  apply lift_Ok in E0 as (E0 & ->). apply within_Ok in E0.
  rewrite (view_batch4_id (x := contiguous x) eq_refl Sx) in E0.
  destruct (_ =? 0); [discriminate|].
  injection E0 as <-.
  assert (X0 : is4 b (contiguous x)) by (exists c, w, h; exact Sx).
  unfold ConvEncoder.pipeline in E.
  (* conv1, bn1, pool *)
  apply bindM_Raise in E as [E | (t1 & s1 & E1 & E)];
    [exfalso; eapply call_ValueError; [| exact E]; intros ? ?; apply conv2d_raises|].
  apply call_Ok in E1 as (E1 & ->). eapply conv_is4_keep in E1; [| exact X0].
  apply bindM_Raise in E as [E | (t2 & s2 & E2 & E)];
    [eapply call_bn_4d_ValueError in E as (T & ->); [split; [exact T | reflexivity]
                                                     | exact E1 | reflexivity]|].
  apply call_bn_Ok in E2 as (b2 & E2 & ->). eapply bn_is4_keep in E2; [| exact E1].
  apply bindM_Raise in E as [E | (t3 & s3 & E3 & E)].
  { unfold ConvEncoder.pool, lift in E. injection E as E _.
    apply within_Raise in E as (? & E). apply max_pool2d_raises in E. discriminate. }
  apply pool_Ok in E3 as (E3 & ->). eapply pool_is4_keep in E3; [| exact E2].
  (* conv2, bn2, pool *)
  apply bindM_Raise in E as [E | (t4 & s4 & E4 & E)];
    [exfalso; eapply call_ValueError; [| exact E]; intros ? ?; apply conv2d_raises|].
  apply call_Ok in E4 as (E4 & ->). eapply conv_is4_keep in E4; [| exact E3].
  apply bindM_Raise in E as [E | (t5 & s5 & E5 & E)];
    [eapply call_bn_4d_ValueError in E as (T & ->); [split; [exact T | reflexivity]
                                                     | exact E4 | reflexivity]|].
  apply call_bn_Ok in E5 as (b5 & E5 & ->). eapply bn_is4_keep in E5; [| exact E4].
  apply bindM_Raise in E as [E | (t6 & s6 & E6 & E)].
  { unfold ConvEncoder.pool, lift in E. injection E as E _.
    apply within_Raise in E as (? & E). apply max_pool2d_raises in E. discriminate. }
  apply pool_Ok in E6 as (E6 & ->). eapply pool_is4_keep in E6; [| exact E5].
  (* conv3, bn3 *)
  apply bindM_Raise in E as [E | (t7 & s7 & E7 & E)];
    [exfalso; eapply call_ValueError; [| exact E]; intros ? ?; apply conv2d_raises|].
  apply call_Ok in E7 as (E7 & ->). eapply conv_is4_keep in E7; [| exact E6].
  apply bindM_Raise in E as [E | (t8 & s8 & E8 & E)];
    [eapply call_bn_4d_ValueError in E as (T & ->); [split; [exact T | reflexivity]
                                                     | exact E7 | reflexivity]|].
  apply call_bn_Ok in E8 as (b8 & E8 & ->). eapply bn_is4_keep in E8; [| exact E7].
  (* view, fc1, bn1_fc *)
  apply bindM_Raise in E as [E | (v & s9 & E9 & E)].
  { unfold lift in E. injection E as E _. apply within_Raise in E as (? & E).
    apply view_raises in E. discriminate. }
  apply lift_Ok in E9 as (E9 & ->). apply within_Ok in E9.
  apply view_flatten_any in E9 as (_ & _ & Sv & _).
  apply bindM_Raise in E as [E | (y1 & s10 & E10 & E)];
    [exfalso; eapply call_ValueError; [| exact E]; intros ? ?; apply linear_raises|].
  apply call_Ok in E10 as (E10 & ->).
  eapply linear_2d_Ok in E10 as (_ & _ & S1 & _); [| exact Sv].
  apply bindM_Raise in E as [E | (y2 & s11 & E11 & E)];
    [eapply call_bn_2d_ValueError in E as (T & ->); [split; [exact T | reflexivity]
                                                     | exact S1 | reflexivity]|].
  apply call_bn_Ok in E11 as (b11 & E11 & ->).
  apply batch_norm_shape in E11 as (S2 & _). rewrite S1 in S2.
  (* fc2, bn2_fc *)
  apply bindM_Raise in E as [E | (y3 & s12 & E12 & E)];
    [exfalso; eapply call_ValueError; [| exact E]; intros ? ?; apply linear_raises|].
  apply call_Ok in E12 as (E12 & ->).
  eapply linear_2d_Ok in E12 as (_ & _ & S3 & _); [| exact S2].
  apply bindM_Raise in E as [E | (y4 & s13 & E13 & E)];
    [eapply call_bn_2d_ValueError in E as (T & ->); [split; [exact T | reflexivity]
                                                     | exact S3 | reflexivity]|].
  exfalso; eapply call_ValueError; [| exact E]; intros ? ?; apply linear_raises.
Qed.

Lemma domain_forward_ValueError sd n L mode (idx : list Z) st e' :
  DomainEncoder.forward idx (DomainEncoder.train mode (DomainEncoder.init sd n L))
  = (Raise ValueError st, e') ->
  mode = true /\ length idx = 1.
Proof.
  unfold DomainEncoder.forward, DomainEncoder.mu_logvar. intros E.
  apply bindM_Raise in E as [E | (p & s0 & _ & E)];
    [| injection E as E _; apply split_sized_raises in E; discriminate].
  apply bindM_Raise in E as [E | (t & s & Et & E)].
  { injection E as E _. apply within_Raise in E as (? & E).
    unfold embedding in E. destruct (forallb _ _); discriminate. }
  injection Et as Et <-. apply within_Ok in Et.
  unfold embedding in Et. destruct (forallb _ _); [|discriminate]. injection Et as <-.
  apply bindM_Raise in E as [E | (y & s1 & _ & E)].
  - unfold DomainEncoder.call_bn in E.
    destruct (batch_norm _ _) as [r b'] eqn:Eb. injection E as E _.
    apply within_Raise in E as (st' & ->).
    eapply batch_norm_ValueError in Eb as (T & Eb); [| reflexivity | reflexivity].
    split; [exact T | cbn in Eb; lia].
  - injection E as E _. apply within_Raise in E as (? & E).
    apply linear_raises in E. discriminate.
Qed.

(** X15.  A ValueError out of a forward pass (on an image batch or a 1-D
    index tensor) has one cause only: a batch normalisation in training
    mode that met a batch of a single sample.  EncoderBurgess.forward never
    raises it, and ConvEncoder.forward and DomainEncoder.forward never raise
    it in evaluation mode or on a batch of another size. *)
Theorem value_error_means_single_training_sample sd (cfg : Config) (mode : bool)
    (inp : Input R) (site : string) (enc' : Encoder R) :
  forward (train mode (construct sd cfg)) inp = (Raise ValueError site, enc') ->
  eval_mode (train mode (construct sd cfg)) = false /\ num_samples inp = 1.
Proof.
  destruct cfg as [img L | L | n L]; destruct inp as [x | idx];
    cbn [construct train forward num_samples]; try discriminate.
  - intros E. injection E as E _. apply burgess_forward_raises in E. congruence.
  - unfold on_state.
    destruct (ConvEncoder.forward x _) as [r e1] eqn:E. cbn [fst snd]. intros E'.
    injection E' as -> _. apply conv_forward_ValueError in E as (-> & Hb).
    split; [reflexivity | exact Hb].
  - unfold on_state.
    destruct (DomainEncoder.forward idx _) as [r e1] eqn:E. cbn [fst snd]. intros E'.
    injection E' as -> _. apply domain_forward_ValueError in E as (-> & Hb).
    split; [reflexivity | exact Hb].
Qed.

End Raised.

(** * The further properties at concrete inputs (binary64) *)

(** X1 on an EncoderBurgess for 1 x 32 x 32 images and a batch of four. *)
Lemma burgess_accepted_sizes_witness :
  shape (zero_images 4 1 32) = [4; 1; 32; 32] /\ 1 <= 4 /\ 1 <= 1 /\ 1 <= 10 /\
  ((exists mu logvar,
      EncoderBurgess.forward (EncoderBurgess.init (const_sd 1%float 0) (1, 32, 32) 10)
        (zero_images 4 1 32) = Ok (mu, logvar))
   <-> 1 = 1 /\ 32 / 8 * (32 / 8) = 16 /\
       suggest_memory_format (zero_images 4 1 32) = Contiguous) /\
  (32 = 32 ->
   ((exists mu logvar,
       EncoderBurgess.forward (EncoderBurgess.init (const_sd 1%float 0) (1, 32, 32) 10)
         (zero_images 4 1 32) = Ok (mu, logvar))
    <-> 1 = 1 /\ 4 * 8 <= 32 < 5 * 8 /\
        suggest_memory_format (zero_images 4 1 32) = Contiguous)).
Proof.
  assert (H1 : shape (zero_images 4 1 32) = [4; 1; 32; 32]) by reflexivity.
  assert (H2 : 1 <= 4) by lia.
  assert (H3 : 1 <= 1) by lia.
  assert (H4 : 1 <= 10) by lia.
  exact (conj H1 (conj H2 (conj H3 (conj H4
           (@burgess_accepted_sizes float _ (const_sd 1%float 0) 1 32 32 10
              (zero_images 4 1 32) 4 1 32 32 H1 H2 H3 H4))))).
Defined.

(** X2 on a ConvEncoder in training mode and two 3 x 32 x 32 images. *)
Lemma conv_accepted_sizes_witness :
  shape images_32 = [2; 3; 32; 32] /\ 1 <= 2 /\ (true = true -> 2 <= 2) /\
  ((exists mu logvar self',
      ConvEncoder.forward images_32
        (ConvEncoder.train true (ConvEncoder.init (const_sd 1%float 0) 10))
      = (Ok (mu, logvar), self'))
   <-> 3 = 3 /\ (32 + 3) / 4 * ((32 + 3) / 4) = 64) /\
  (32 = 32 ->
   ((exists mu logvar self',
       ConvEncoder.forward images_32
         (ConvEncoder.train true (ConvEncoder.init (const_sd 1%float 0) 10))
       = (Ok (mu, logvar), self'))
    <-> 3 = 3 /\ 29 <= 32 <= 32)).
Proof.
  assert (H1 : shape images_32 = [2; 3; 32; 32]) by reflexivity.
  assert (H2 : 1 <= 2) by lia.
  assert (H3 : true = true -> 2 <= 2) by (intros _; lia).
  exact (conj H1 (conj H2 (conj H3
           (@conv_accepted_sizes float _ (const_sd 1%float 0) 10 true images_32
              2 3 32 32 H1 H2 H3)))).
Defined.

(** X3: four 1 x 32 x 32 images given to an EncoderBurgess for 3 x 64 x 64
    images and to a ConvEncoder. *)
Lemma channel_mismatch_fails_at_conv1_witness :
  shape (zero_images 4 1 32) = [4; 1; 32; 32] /\
  EncoderBurgess.forward (EncoderBurgess.init (const_sd 1%float 0) (3, 64, 64) 10)
    (zero_images 4 1 32)
  = Raise RuntimeError "conv1" /\
  ConvEncoder.forward (zero_images 4 1 32)
    (ConvEncoder.train true (ConvEncoder.init (const_sd 1%float 0) 10))
  = (Raise RuntimeError "conv1",
     ConvEncoder.train true (ConvEncoder.init (const_sd 1%float 0) 10)).
Proof.
  assert (H1 : shape (zero_images 4 1 32) = [4; 1; 32; 32]) by reflexivity.
  destruct (@channel_mismatch_fails_at_conv1 float _ (const_sd 1%float 0) (3, 64, 64) 10 true
              (zero_images 4 1 32) 4 1 32 32 H1) as (A & B).
  split; [exact H1|]. split; [apply A; cbn; lia | apply B; cbn; lia].
Defined.

(** X4 on a 1 x 8 x 8 image given to an EncoderBurgess for 64 x 64 images:
    after three halvings conv_64 meets a 1 x 1 feature map; and on two
    channels-last 3 x 64 x 64 images given to an EncoderBurgess for 32 x 32
    images: the 8 x 8 feature maps are refused by the view. *)
Lemma burgess_wrong_size_fails_witness :
  (shape image_8 = [1; 1; 8; 8] /\ 1 <= 1 /\ 8 <= Nat.min 8 8 < 16 /\
   EncoderBurgess.forward (EncoderBurgess.init (const_sd 1%float 0) (1, 64, 64) 10) image_8
   = Raise RuntimeError "conv_64") /\
  (shape (channels_last (zero_images 2 3 64)) = [2; 3; 64; 64] /\ 1 <= 2 /\ 1 <= 3 /\
   8 <= Nat.min 64 64 /\
   suggest_memory_format (channels_last (zero_images 2 3 64)) = ChannelsLast /\
   2 <= 64 / 8 * (64 / 8) /\
   EncoderBurgess.forward (EncoderBurgess.init (const_sd 1%float 0) (3, 32, 32) 10)
     (channels_last (zero_images 2 3 64))
   = Raise RuntimeError "view").
Proof.
  assert (H1 : shape image_8 = [1; 1; 8; 8]) by reflexivity.
  assert (H2 : 1 <= 1) by lia.
  assert (H3 : 8 <= Nat.min 8 8 < 16) by (cbn; lia).
  assert (K1 : shape (channels_last (zero_images 2 3 64)) = [2; 3; 64; 64]) by reflexivity.
  assert (K2 : 1 <= 2) by lia.
  assert (K3 : 1 <= 3) by lia.
  assert (K4 : 8 <= Nat.min 64 64) by (cbn; lia).
  assert (K5 : suggest_memory_format (channels_last (zero_images 2 3 64)) = ChannelsLast)
    by reflexivity.
  assert (K6 : 2 <= 64 / 8 * (64 / 8)) by (cbn; lia).
  destruct (@burgess_wrong_size_fails float _ (const_sd 1%float 0) 1 64 64 10 image_8
              1 8 8 H1 H2 H2) as (_ & _ & _ & A & _).
  destruct (@burgess_wrong_size_fails float _ (const_sd 1%float 0) 3 32 32 10
              (channels_last (zero_images 2 3 64)) 2 64 64 K1 K2 K3)
    as (_ & _ & _ & _ & _ & B).
  exact (conj (conj H1 (conj H2 (conj H3 (A H3))))
              (conj K1 (conj K2 (conj K3 (conj K4 (conj K5 (conj K6
                 (proj1 (B K4 K5) K6)))))))).
Defined.

(** X5: two 3 x 64 x 64 images given to a ConvEncoder in training mode leave
    128 x 16 x 16 features. *)
Lemma conv_wrong_size_fails_at_fc1_witness :
  shape (zero_images 2 3 64) = [2; 3; 64; 64] /\ 1 <= 2 /\ (true = true -> 2 <= 2) /\
  1 <= 64 /\ 1 <= 64 /\ (64 + 3) / 4 * ((64 + 3) / 4) <> 64 /\
  fst (ConvEncoder.forward (zero_images 2 3 64)
         (ConvEncoder.train true (ConvEncoder.init (const_sd 1%float 0) 10)))
  = Raise RuntimeError "fc1" /\
  conv_counters
    (snd (ConvEncoder.forward (zero_images 2 3 64)
            (ConvEncoder.train true (ConvEncoder.init (const_sd 1%float 0) 10))))
  = [1; 1; 1; 0; 0].
Proof.
  assert (H1 : shape (zero_images 2 3 64) = [2; 3; 64; 64]) by reflexivity.
  assert (H2 : 1 <= 2) by lia.
  assert (H3 : true = true -> 2 <= 2) by (intros _; lia).
  assert (H4 : 1 <= 64) by lia.
  assert (H5 : (64 + 3) / 4 * ((64 + 3) / 4) <> 64) by (cbn; lia).
  exact (conj H1 (conj H2 (conj H3 (conj H4 (conj H4 (conj H5
           (@conv_wrong_size_fails_at_fc1 float _ (const_sd 1%float 0) 10 true
              (zero_images 2 3 64) 2 64 64 H1 H2 H3 H4 H4 H5))))))).
Defined.

(** X6 on a freshly constructed ConvEncoder and two 3 x 32 x 32 images: the
    call returns and each of the five counters goes from 0 to 1. *)
Lemma conv_forward_counts_batches_witness :
  exists out self',
    ConvEncoder.forward images_32
      (ConvEncoder.train true (ConvEncoder.init (const_sd 1%float 0) 10))
    = (Ok out, self') /\
    conv_counters self' = [1; 1; 1; 1; 1].
Proof.
  destruct (@conv_forward_run float _ (const_sd 1%float 0) 10 true images_32 2 32 32
              eq_refl) as (p & e' & _ & _ & E); try lia; [reflexivity|].
  exists (halves 2 10 (data p)), e'. split; [exact E|].
  exact (@conv_forward_counts_batches float _ _ _ _ _ E).
Defined.

(** X7 on a single 3 x 32 x 32 image. *)
Lemma conv_single_image_partly_counted_witness :
  shape (zero_images 1 3 32) = [1; 3; 32; 32] /\ (32 + 3) / 4 * ((32 + 3) / 4) = 64 /\
  fst (ConvEncoder.forward (zero_images 1 3 32) (ConvEncoder.init (const_sd 1%float 0) 10))
  = Raise ValueError "bn1_fc" /\
  conv_counters
    (snd (ConvEncoder.forward (zero_images 1 3 32)
            (ConvEncoder.init (const_sd 1%float 0) 10)))
  = [1; 1; 1; 1; 0].
Proof.
  assert (H1 : shape (zero_images 1 3 32) = [1; 3; 32; 32]) by reflexivity.
  assert (H2 : (32 + 3) / 4 * ((32 + 3) / 4) = 64) by reflexivity.
  exact (conj H1 (conj H2
           (@conv_single_image_partly_counted float _ (const_sd 1%float 0) 10
              (zero_images 1 3 32) 32 32 H1 H2))).
Defined.

(** X8 on a freshly constructed DomainEncoder over two domains: the refused
    sample [0] has been counted, the out-of-range sample [2] has not. *)
Lemma domain_forward_counts_batch_witness :
  num_batches_tracked
    (DomainEncoder.bn
       (snd (DomainEncoder.forward [0]%Z
               (DomainEncoder.train true (DomainEncoder.init ramp_sd 2 1)))))
  = 1 /\
  fst (DomainEncoder.forward [0]%Z (DomainEncoder.train true (DomainEncoder.init ramp_sd 2 1)))
  = Raise ValueError "bn" /\
  num_batches_tracked
    (DomainEncoder.bn
       (snd (DomainEncoder.forward [2]%Z
               (DomainEncoder.train true (DomainEncoder.init ramp_sd 2 1)))))
  = 0.
Proof.
  destruct (@domain_forward_counts_batch float _ ramp_sd 2 1 true [0]%Z) as (A & B).
  destruct (@domain_forward_counts_batch float _ ramp_sd 2 1 true [2]%Z) as (C & _).
  split; [exact A|]. split; [|exact C].
  rewrite (B 0%Z eq_refl eq_refl). reflexivity.
Defined.

(** X9 on two 3 x 32 x 32 images, which fit an EncoderBurgess for such images
    and a ConvEncoder, and on the indices [0, 1] of two domains. *)
Lemma latent_dim_zero_witness :
  EncoderBurgess.forward (EncoderBurgess.init (const_sd 1%float 0) (3, 32, 32) 0) images_32
  = Raise RuntimeError "view" /\
  (exists mu logvar self',
     ConvEncoder.forward images_32
       (ConvEncoder.train true (ConvEncoder.init (const_sd 1%float 0) 0))
     = (Ok (mu, logvar), self') /\
     shape mu = [2; 0] /\ shape logvar = [2; 0]) /\
  (exists mu logvar self',
     DomainEncoder.forward [0; 1]%Z
       (DomainEncoder.train true (DomainEncoder.init (const_sd 1%float 0) 2 0))
     = (Ok (mu, logvar), self') /\
     shape mu = [2; 0] /\ shape logvar = [2; 0]).
Proof.
  destruct (@latent_dim_zero float _ (const_sd 1%float 0) (3, 32, 32) 2 true images_32
              [0; 1]%Z 2) as (A & B & C).
  split; [| split].
  - apply A; [exists 32, 32; split; reflexivity | lia].
  - apply B; [exists 32, 32; repeat split; lia | lia | intros _; lia].
  - apply C; [reflexivity | intros _; cbn; lia].
Defined.

(** X10 on an empty batch of 3 x 32 x 32 images and an empty index tensor. *)
Lemma empty_batch_witness :
  EncoderBurgess.forward (EncoderBurgess.init (const_sd 1%float 0) (3, 32, 32) 10)
    (zero_images 0 3 32)
  = Raise RuntimeError "view" /\
  fst (ConvEncoder.forward (zero_images 0 3 32)
         (ConvEncoder.train true (ConvEncoder.init (const_sd 1%float 0) 10)))
  = Raise RuntimeError "view" /\
  (exists mu logvar self',
     DomainEncoder.forward []
       (DomainEncoder.train true (DomainEncoder.init (const_sd 1%float 0) 2 10))
     = (Ok (mu, logvar), self') /\
     shape mu = [0; 10] /\ shape logvar = [0; 10]).
Proof.
  destruct (@empty_batch float _ (const_sd 1%float 0) (3, 32, 32) 10 2 true
              (zero_images 0 3 32)) as (A & B & C).
  split; [| split].
  - apply A. exists 32, 32. split; reflexivity.
  - apply B. exists 32, 32. repeat split; lia.
  - exact C.
Defined.

(** X11 on sample 0 of the batch [0, 2] in the DomainEncoder over three
    domains (every weight and running statistic is 1, the embedding row of
    domain 0 is zero and the bias of the projection is 0, 1, 2, 3). *)
Lemma domain_eval_output_witness :
  DomainEncoder.forward [0; 2]%Z (DomainEncoder.train false (DomainEncoder.init ramp_sd 3 2))
  = (Ok (fst eval_02, snd eval_02),
     DomainEncoder.train false (DomainEncoder.init ramp_sd 3 2)) /\
  0 < length [0; 2]%Z /\ 0 < 2 /\
  let self := DomainEncoder.train false (DomainEncoder.init ramp_sd 3 2) in
  let bn := DomainEncoder.bn self in
  let h := fun j =>
    leaky_relu_s
      (normalize (bn_eps bn) (running_mean bn [j]) (running_var bn [j])
         (bn_weight bn [j]) (bn_bias bn [j])
         (emb_weight (DomainEncoder.embed self) [Z.to_nat (nth 0 [0; 2]%Z 0%Z); j])) in
  let out := fun o =>
    radd (sum_upto 512
            (fun j => rmul (h j) (lin_weight (DomainEncoder.mu_logvar_gen self) [o; j])))
         (lin_bias (DomainEncoder.mu_logvar_gen self) [o]) in
  get2 (fst eval_02) 0 0 = out (2 * 0) /\ get2 (snd eval_02) 0 0 = out (2 * 0 + 1).
Proof.
  assert (H1 : DomainEncoder.forward [0; 2]%Z
                 (DomainEncoder.train false (DomainEncoder.init ramp_sd 3 2))
               = (Ok (fst eval_02, snd eval_02),
                  DomainEncoder.train false (DomainEncoder.init ramp_sd 3 2)))
    by (vm_compute; reflexivity).
  assert (H2 : 0 < length [0; 2]%Z) by (cbn; lia).
  assert (H3 : 0 < 2) by lia.
  exact (conj H1 (conj H2 (conj H3
           (@domain_eval_output float _ ramp_sd 3 2 [0; 2]%Z (fst eval_02) (snd eval_02)
              _ 0 0 H1 H2 H3)))).
Defined.

(** X12 on sample 0 of the batch [0, 1] given to a freshly constructed
    DomainEncoder over two domains. *)
Lemma domain_train_output_witness :
  DomainEncoder.forward [0; 1]%Z (DomainEncoder.train true (DomainEncoder.init ramp_sd 2 1))
  = (Ok (fst fresh_01, snd fresh_01),
     snd (DomainEncoder.forward [0; 1]%Z
            (DomainEncoder.train true (DomainEncoder.init ramp_sd 2 1)))) /\
  0 < length [0; 1]%Z /\ 0 < 1 /\
  let self := DomainEncoder.train true (DomainEncoder.init ramp_sd 2 1) in
  let bn := DomainEncoder.bn self in
  let x := embedding_out (DomainEncoder.embed self) [0; 1]%Z in
  let h := fun j =>
    leaky_relu_s
      (normalize (bn_eps bn)
         (batch_mean 512 1 (length [0; 1]%Z) (data x) j)
         (batch_var 512 1 (length [0; 1]%Z) (data x) j)
         (bn_weight bn [j]) (bn_bias bn [j])
         (emb_weight (DomainEncoder.embed self) [Z.to_nat (nth 0 [0; 1]%Z 0%Z); j])) in
  let out := fun o =>
    radd (sum_upto 512
            (fun j => rmul (h j) (lin_weight (DomainEncoder.mu_logvar_gen self) [o; j])))
         (lin_bias (DomainEncoder.mu_logvar_gen self) [o]) in
  get2 (fst fresh_01) 0 0 = out (2 * 0) /\ get2 (snd fresh_01) 0 0 = out (2 * 0 + 1).
Proof.
  assert (H1 : DomainEncoder.forward [0; 1]%Z
                 (DomainEncoder.train true (DomainEncoder.init ramp_sd 2 1))
               = (Ok (fst fresh_01, snd fresh_01),
                  snd (DomainEncoder.forward [0; 1]%Z
                         (DomainEncoder.train true (DomainEncoder.init ramp_sd 2 1))))).
  { rewrite (surjective_pairing (DomainEncoder.forward _ _)) at 1.
    apply (f_equal (fun r => (r, _))). vm_compute. reflexivity. }
  assert (H2 : 0 < length [0; 1]%Z) by (cbn; lia).
  assert (H3 : 0 < 1) by lia.
  exact (conj H1 (conj H2 (conj H3
           (@domain_train_output float _ ramp_sd 2 1 [0; 1]%Z (fst fresh_01) (snd fresh_01)
              _ 0 0 H1 H2 H3)))).
Defined.

(** X14 on a name in mixed case with a digit and an underscore, and on the
    empty string. *)
Lemma get_encoder_on_names_witness :
  all_chars is_name_char "beta_VAE2" = true /\
  get_encoder "beta_VAE2" = Some (Raise NameError "EncoderBeta_vae2").
Proof.
  split; [reflexivity|]. exact (get_encoder_on_names "beta_VAE2" eq_refl).
Defined.

Example get_encoder_of_empty_string :
  get_encoder "" = Some (Raise NameError "Encoder").
Proof. reflexivity. Qed.

(** X15 on the single sample [0] given to a freshly constructed
    DomainEncoder. *)
Lemma value_error_means_single_training_sample_witness :
  forward (train true (construct ramp_sd (CfgDomain 2 1))) (indices [0]%Z)
  = (Raise ValueError "bn",
     snd (forward (train true (construct ramp_sd (CfgDomain 2 1))) (indices [0]%Z))) /\
  eval_mode (train true (construct ramp_sd (CfgDomain 2 1))) = false /\
  num_samples (indices [0]%Z) = 1.
Proof.
  assert (E : forward (train true (construct ramp_sd (CfgDomain 2 1))) (indices [0]%Z)
              = (Raise ValueError "bn",
                 snd (forward (train true (construct ramp_sd (CfgDomain 2 1)))
                        (indices [0]%Z))))
    by (vm_compute; reflexivity).
  exact (conj E (@value_error_means_single_training_sample float _ ramp_sd (CfgDomain 2 1)
                   true (indices [0]%Z) "bn" _ E)).
Defined.
